(** * Compliance checker backend: a model of [backend/server.js]

    The Express handlers and the three check routines are embedded as
    functions in a small monad that threads the data store, records the
    observable effects (console output, evidence log, outbound calls) in
    a trace, and propagates JavaScript exceptions.  Every external
    collaborator (the auth admin client, the Postgres driver, the
    management API, the chat-completion API) is an oracle of the
    environment. *)

From Stdlib Require Import String Ascii List Bool Arith Lia.
From Stdlib Require Import Decimal DecimalString.
Import ListNotations.
Local Open Scope list_scope.
Local Open Scope string_scope.

(** ** JavaScript string primitives used by the server *)

Module Js.

(** [!v] is false exactly for a present, non-empty string; request
    fields are either absent ([None], i.e. [undefined]) or strings. *)
Definition truthy (v : option string) : bool :=
  match v with
  | Some s => negb (s =? EmptyString)
  | None => false
  end.

Definition startsWith (s p : string) : bool := String.prefix p s.

Definition indexOf (s sub : string) : option nat := String.index 0 sub s.

Definition includes (s sub : string) : bool :=
  match indexOf s sub with
  | Some _ => true
  | None => false
  end.

(** [s.substring(0, s.indexOf(sub))]; a negative end index is clamped
    to 0. *)
Definition substring_before (s sub : string) : string :=
  match indexOf s sub with
  | Some i => String.substring 0 i s
  | None => EmptyString
  end.

Definition is_lower (c : ascii) : bool :=
  let n := nat_of_ascii c in ((97 <=? n) && (n <=? 122))%nat.

Definition is_upper (c : ascii) : bool :=
  let n := nat_of_ascii c in ((65 <=? n) && (n <=? 90))%nat.

Definition upper_char (c : ascii) : ascii :=
  if is_lower c then ascii_of_nat (nat_of_ascii c - 32) else c.

Definition lower_char (c : ascii) : ascii :=
  if is_upper c then ascii_of_nat (nat_of_ascii c + 32) else c.

Fixpoint map_string (f : ascii -> ascii) (s : string) : string :=
  match s with
  | EmptyString => EmptyString
  | String c r => String (f c) (map_string f r)
  end.

(** Case mapping on the ASCII letters; other characters are kept. *)
Definition toUpperCase : string -> string := map_string upper_char.
Definition toLowerCase : string -> string := map_string lower_char.

(** Template-literal rendering of a number. *)
Definition of_nat (n : nat) : string := NilEmpty.string_of_uint (Nat.to_uint n).

End Js.

(** ** Exceptions *)

(** A thrown [Error]: its [name], its [message], the optional [code] of
    an auth error and the text [JSON.stringify] gives for it. *)
Record exn := mkExn {
  ename : string;
  emessage : string;
  ecode : option string;
  ejson : string
}.

Definition Error (msg : string) : exn := mkExn "Error" msg None "{}".
Definition TypeError (msg : string) : exn := mkExn "TypeError" msg None "{}".
Definition ReferenceError (msg : string) : exn := mkExn "ReferenceError" msg None "{}".

(** [String(error)], i.e. [Error.prototype.toString]. *)
Definition String_of (e : exn) : string :=
  if ename e =? EmptyString then emessage e
  else if emessage e =? EmptyString then ename e
  else ename e ++ ": " ++ emessage e.

Inductive outcome (A : Type) : Type :=
| Ok (a : A)
| Throw (e : exn).
Arguments Ok {A} a.
Arguments Throw {A} e.

(** ** JSON values

    [express.json()] hands a handler whatever JSON the caller sent: a
    body field may be any JSON value, or be missing.  The handlers apply
    string methods to [projectUrl] before anything has checked that it
    is a string, so that field is modelled as a JSON value; what
    JavaScript does with each kind of value is written out below. *)

#[warnings="-register-all"]
Inductive jsval :=
| JUndefined                               (* the field is missing *)
| JNull
| JBool (b : bool)
| JNum (text : string) (nonzero : bool)    (* [String(n)] and [n != 0] *)
| JStr (s : string)
| JArr (items : list jsval)
| JObj (members : list (string * jsval)).

(** Truthiness: [!v] is [negb (js_truthy v)]. *)
Definition js_truthy (v : jsval) : bool :=
  match v with
  | JUndefined | JNull => false
  | JBool b => b
  | JNum _ nonzero => nonzero
  | JStr s => negb (s =? EmptyString)
  | JArr _ | JObj _ => true
  end.

(** [`${v}`], i.e. [String(v)]: an array is its elements joined by
    commas, [null] and [undefined] elements giving the empty text; a
    plain object is [[object Object]]. *)
Fixpoint js_text (v : jsval) : string :=
  match v with
  | JUndefined => "undefined"
  | JNull => "null"
  | JBool true => "true"
  | JBool false => "false"
  | JNum text _ => text
  | JStr s => s
  | JArr items =>
      (fix join (l : list jsval) : string :=
         match l with
         | [] => EmptyString
         | x :: r =>
             match x with
             | JUndefined | JNull => EmptyString
             | _ => js_text x
             end
             ++ match r with
                | [] => EmptyString
                | _ :: _ => "," ++ join r
                end
         end) items
  | JObj _ => "[object Object]"
  end.

(** [items.includes(s)] for a string [s]: some element is that very
    string. *)
Definition array_includes (items : list jsval) (s : string) : bool :=
  existsb (fun x => match x with
                    | JStr t => t =? s
                    | _ => false
                    end) items.

(** ** Data model *)

Inductive Status := PASSING | FAILING | NA | ERROR | MANUAL_CHECK_REQUIRED.

(** The wire form of a status. *)
Definition Status_text (s : Status) : string :=
  match s with
  | PASSING => "PASSING"
  | FAILING => "FAILING"
  | NA => "N/A"
  | ERROR => "ERROR"
  | MANUAL_CHECK_REQUIRED => "MANUAL_CHECK_REQUIRED"
  end.

(** *** Auth users *)

Record factor := mkFactor { factor_id : string; factor_status : string }.

Record user := mkUser {
  user_id : string;
  user_email : option string;
  user_phone : option string;
  user_factors : option (list factor)   (* [None]: no [factors] property *)
}.

(** One entry of [mfaResults.users].  [mfa_enabled] holds the value of
    [user.factors && user.factors.some(...)]: [None] when [user.factors]
    is missing (the falsy left operand is the result), a boolean
    otherwise. *)
Record MfaUser := mkMfaUser {
  mu_id : string;
  mu_email : option string;
  mu_phone : option string;
  mfa_enabled : option bool
}.

Record MfaResult := mkMfa {
  mfa_checkName : string;
  mfa_users : list MfaUser;
  mfa_overallStatus : Status;
  mfa_error : option string;
  mfa_message : option string
}.

(** *** Row level security *)

(** A row of the [pg_policies] view. *)
Record policy_row := mkPolicy {
  schemaname : string;
  tablename : string;
  policyname : string;
  cmd : option string;
  qual : option string;
  with_check : option string
}.

Record PolicyCounts := mkCounts {
  SELECT : nat;
  INSERT : nat;
  UPDATE : nat;
  DELETE : nat
}.

Record RlsTable := mkRlsTable {
  rt_name : string;
  rls_enabled : bool;
  recommendation : option string;
  policy_counts : PolicyCounts;
  current_policies : list policy_row
}.

Record RlsResult := mkRls {
  rls_checkName : string;
  rls_overallStatus : Status;
  rls_tables : list RlsTable;
  rls_error : option string;
  rls_message : option string
}.

(** *** Point-in-time recovery *)

Record addon := mkAddon {
  addon_type : option string;
  addon_status : option string;
  addon_metadata : option string
}.

Record project := mkProject {
  project_name : string;
  project_id : string;
  project_addons : option (list addon)
}.

Record PitrProject := mkPitrProject {
  pp_name : string;
  pp_ref : string;
  pitrEnabled : bool;
  pitrAddon : option addon;
  pp_status : string;
  pp_metadata : string
}.

(** The recovery record names its fields [status] and [message]; it has
    no [overallStatus] and no [error]. *)
Record PitrResult := mkPitr {
  pitr_checkName : string;
  pitr_status : Status;
  pitr_message : string;
  pitr_projects : option (list PitrProject)   (* [details.projects] *)
}.

(** ** Observable effects *)

(** Values handed to [console.log] or put in the data of an evidence
    record. *)
Inductive logged :=
| LUndefined
| LStr (s : string)
| LNum (n : nat)
| LBool (b : bool)
| LStrs (l : list string)
| LExn (e : exn)
| LRls (r : RlsResult)
| LProject (p : project)
| LPitrSummary (l : list (string * string * bool))
| LUser (u : option user)
| LVal (v : jsval).

Definition LOpt (v : option string) : logged :=
  match v with
  | Some s => LStr s
  | None => LUndefined
  end.

(** A JSON value as logged: a string and a missing value as above. *)
Definition log_val (v : jsval) : logged :=
  match v with
  | JStr s => LStr s
  | JUndefined => LUndefined
  | _ => LVal v
  end.

(** Outbound calls. *)
Inductive call :=
| AuthListUsers (projectUrl serviceKey : string)
| AuthGetUserById (projectUrl serviceKey userId : string)
| AuthResetPassword (projectUrl serviceKey email redirectTo : string)
| PgQuery (connectionString : option string) (text : string) (params : list string)
| HttpFetch (method url bearer : string) (body : option string)
| ChatCompletion (system prompt : string).

Inductive event :=
| Console (args : list logged)
| Evidence (level message : string) (data : list (string * logged))
| PoolEnd (connectionString : option string)
| Net (c : call).

Definition is_net (e : event) : bool :=
  match e with
  | Net _ => true
  | _ => false
  end.

Definition network_calls (tr : list event) : list event := filter is_net tr.

(** ** Replies of the external collaborators *)

(** The auth client resolves to [{ data, error }] or rejects. *)
Inductive auth_reply (A : Type) : Type :=
| Resolved (data : A) (error : option exn)
| Rejected (e : exn).
Arguments Resolved {A} data error.
Arguments Rejected {A} e.

(** [fetch] rejects or resolves to a response with [ok], [status], the
    body text and the decoded body. *)
Inductive http_reply (A : Type) : Type :=
| FetchFailed (e : exn)
| Response (ok : bool) (status : nat) (text : string) (json : outcome A).
Arguments FetchFailed {A} e.
Arguments Response {A} ok status text json.

(** HTTP responses of the server. *)
Inductive body :=
| BError (error : string)
| BReport (mfa : MfaResult) (rls : RlsResult) (pitr : PitrResult)
| BFixRls (message tableName : string)
| BFixRlsFailure (error : string) (errorObj : exn)
| BFixMfa (message userId email : string)
| BFixPitr (message projectRef : string)
| BAssist (message timestamp : string).

Record response := mkResponse { status : nat; json : body }.

(** ** The effect monad *)

Section Monad.

Variable Store : Type.

Definition M (A : Type) : Type := Store -> outcome A * list event * Store.

Definition ret {A} (a : A) : M A := fun s => (Ok a, [], s).

Definition bind {A B} (m : M A) (k : A -> M B) : M B :=
  fun s =>
    match m s with
    | (Ok a, tr, s') =>
        let '(r, tr', s'') := k a s' in (r, (tr ++ tr')%list, s'')
    | (Throw e, tr, s') => (Throw e, tr, s')
    end.

Definition throw {A} (e : exn) : M A := fun s => (Throw e, [], s).

Definition try_catch {A} (m : M A) (h : exn -> M A) : M A :=
  fun s =>
    match m s with
    | (Ok a, tr, s') => (Ok a, tr, s')
    | (Throw e, tr, s') =>
        let '(r, tr', s'') := h e s' in (r, (tr ++ tr')%list, s'')
    end.

Definition emit (e : event) : M unit := fun s => (Ok tt, [e], s).

(** Settle an oracle's answer: return its value or raise. *)
Definition settle {A} (o : outcome A) : M A :=
  match o with
  | Ok a => ret a
  | Throw e => throw e
  end.

End Monad.

Arguments ret {Store A} a.
Arguments bind {Store A B} m k.
Arguments throw {Store A} e.
Arguments try_catch {Store A} m h.
Arguments emit {Store} e.
Arguments settle {Store A} o.

Declare Scope js_scope.
Delimit Scope js_scope with js.
Notation "x <- m ;; k" := (bind m (fun x => k))
  (at level 61, m at next level, right associativity) : js_scope.
Notation "m ;;; k" := (bind m (fun _ => k))
  (at level 61, right associativity) : js_scope.
Local Open Scope js_scope.

(** ** Environment *)

Record Env (Store : Type) := mkEnv {
  SUPABASE_PAT : option string;     (* [process.env.SUPABASE_PAT] *)
  clock : string;                   (* [new Date().toISOString()] *)
  (* supabase.auth.admin / supabase.auth, by project URL and service key *)
  listUsers : string -> string -> auth_reply (option (list user));
  getUserById : string -> string -> string -> auth_reply (option user);
  resetPasswordForEmail : string -> string -> string -> string -> auth_reply unit;
  (* pg Pool, by connection string *)
  select_tables : Store -> option string -> outcome (list string);
  select_relrowsecurity : Store -> option string -> string -> outcome (list bool);
  select_policies : Store -> option string -> string -> outcome (list policy_row);
  command : Store -> option string -> string -> outcome unit * Store;
  (* management API, by bearer token *)
  get_projects : string -> http_reply (list project);
  get_project : string -> string -> http_reply project;
  patch_addons : string -> string -> string -> http_reply unit;
  (* chat completion: [completion.choices[0].message.content] *)
  chat : string -> string -> outcome string
}.

Arguments SUPABASE_PAT {Store} _.
Arguments clock {Store} _.
Arguments listUsers {Store} _ _ _.
Arguments getUserById {Store} _ _ _ _.
Arguments resetPasswordForEmail {Store} _ _ _ _ _.
Arguments select_tables {Store} _ _ _.
Arguments select_relrowsecurity {Store} _ _ _ _.
Arguments select_policies {Store} _ _ _ _.
Arguments command {Store} _ _ _ _.
Arguments get_projects {Store} _ _.
Arguments get_project {Store} _ _ _.
Arguments patch_addons {Store} _ _ _ _.
Arguments chat {Store} _ _ _.

(** ** The server *)

(** The parsed request body with every field absent or a string
    ([context] is kept as its pretty-printed JSON text).  The handlers
    of the section [Server] take such a body.  A [projectUrl] of any
    other JSON kind is taken by the handlers of the section [ServerAny],
    which agree with these on a string and on a missing value. *)
Record request := mkRequest {
  projectUrl : option string;
  serviceKey : option string;
  dbConnectionString : option string;
  tableName : option string;
  userId : option string;
  projectRef : option string;
  issue : option string;
  context : string
}.

(** The double-quote character and the line feed, for the templates that
    contain them. *)
Definition dq : string := String (ascii_of_nat 34) EmptyString.
Definition nl : string := String (ascii_of_nat 10) EmptyString.

(** Statement texts handed to [pool.query].  The multi-line text of the
    table listing is given on one line. *)
Definition sql_tables : string :=
  "SELECT tablename FROM pg_tables WHERE schemaname = 'public'".
Definition sql_relrowsecurity : string :=
  "SELECT relrowsecurity FROM pg_class WHERE relname = $1".
Definition sql_policies : string :=
  "SELECT * FROM pg_policies WHERE tablename = $1".

Definition alter_prefix : string := "ALTER TABLE public." ++ dq.
Definition alter_suffix : string := dq ++ " ENABLE ROW LEVEL SECURITY;".
Definition create_prefix : string :=
  "CREATE POLICY " ++ dq ++ "placeholder_policy" ++ dq ++ " ON public." ++ dq.
Definition create_suffix : string := dq ++ " FOR SELECT USING (true);".

(** [`ALTER TABLE public."${tableName}" ENABLE ROW LEVEL SECURITY;`] *)
Definition sql_enable_rls (tableName : string) : string :=
  alter_prefix ++ tableName ++ alter_suffix.

(** [`CREATE POLICY "placeholder_policy" ON public."${tableName}" FOR
    SELECT USING (true);`] *)
Definition sql_placeholder (tableName : string) : string :=
  create_prefix ++ tableName ++ create_suffix.

(** [JSON.stringify([{ type: "pitr", options: { retention_period_days: 7
    } }])], the body of the addon mutation. *)
Definition pitr_patch_body : string :=
  "[{" ++ dq ++ "type" ++ dq ++ ":" ++ dq ++ "pitr" ++ dq ++ "," ++ dq
  ++ "options" ++ dq ++ ":{" ++ dq ++ "retention_period_days" ++ dq ++ ":7}}]".

(** [projectUrl.includes("supabase.co") ? projectUrl.substring(0,
    projectUrl.indexOf(".")) + ".supabase.co" : projectUrl] *)
Definition display_url (projectUrl : string) : string :=
  if Js.includes projectUrl "supabase.co"
  then Js.substring_before projectUrl "." ++ ".supabase.co"
  else projectUrl.

(** The guarded form [projectUrl && projectUrl.includes(...) ? ... :
    projectUrl] of [/api/fix-rls] and [/api/ai-assist]. *)
Definition display_url_guarded (projectUrl : option string) : option string :=
  match projectUrl with
  | Some u => if u =? EmptyString then Some u else Some (display_url u)
  | None => None
  end.

(** The same expression on any JSON value.  A string has the three
    methods.  [undefined] and [null] have no properties at all; a number,
    a boolean and a plain object have no [includes] (a JSON object cannot
    carry a function); an array has [includes] and [indexOf] but no
    [substring], so the expression raises when the array has the element
    ["supabase.co"] and is the array itself otherwise. *)
Definition js_display (v : jsval) : outcome jsval :=
  match v with
  | JStr u => Ok (JStr (display_url u))
  | JUndefined =>
      Throw (TypeError "Cannot read properties of undefined (reading 'includes')")
  | JNull =>
      Throw (TypeError "Cannot read properties of null (reading 'includes')")
  | JArr items =>
      if array_includes items "supabase.co"
      then Throw (TypeError "projectUrl.substring is not a function")
      else Ok v
  | JBool _ | JNum _ _ | JObj _ =>
      Throw (TypeError "projectUrl.includes is not a function")
  end.

(** The guarded form [projectUrl && projectUrl.includes(...) ? ... :
    projectUrl]: a falsy value is the result as it is. *)
Definition js_display_guarded (v : jsval) : outcome jsval :=
  if js_truthy v then js_display v else Ok v.

(** *** MFA entries *)

Definition mfa_entry (u : user) : MfaUser :=
  let isMfaEnabled :=
    match user_factors u with
    | Some factors =>
        Some (existsb (fun f => factor_status f =? "verified") factors)
    | None => None
    end in
  mkMfaUser (user_id u) (user_email u) (user_phone u) isMfaEnabled.

(** Truthiness of [isMfaEnabled]. *)
Definition flag_truthy (v : option bool) : bool :=
  match v with
  | Some true => true
  | _ => false
  end.

(** [users.map(...)] together with the [allMfaEnabled] variable its
    callback clears. *)
Fixpoint map_users (users : list user) (allMfaEnabled : bool)
  : list MfaUser * bool :=
  match users with
  | [] => ([], allMfaEnabled)
  | u :: rest =>
      let entry := mfa_entry u in
      let allMfaEnabled :=
        if flag_truthy (mfa_enabled entry) then allMfaEnabled else false in
      let '(entries, all) := map_users rest allMfaEnabled in
      (entry :: entries, all)
  end.

(** *** Policy tally *)

(** One iteration of the tally loop: [cmd = policy.cmd?.toUpperCase()],
    then [policyCounts[cmd]++] when [cmd] is an own key of the counts. *)
Definition bump (policyCounts : PolicyCounts) (policy : policy_row)
  : PolicyCounts :=
  match cmd policy with
  | None => policyCounts
  | Some c =>
      let k := Js.toUpperCase c in
      if k =? "SELECT" then
        mkCounts (S (SELECT policyCounts)) (INSERT policyCounts)
                 (UPDATE policyCounts) (DELETE policyCounts)
      else if k =? "INSERT" then
        mkCounts (SELECT policyCounts) (S (INSERT policyCounts))
                 (UPDATE policyCounts) (DELETE policyCounts)
      else if k =? "UPDATE" then
        mkCounts (SELECT policyCounts) (INSERT policyCounts)
                 (S (UPDATE policyCounts)) (DELETE policyCounts)
      else if k =? "DELETE" then
        mkCounts (SELECT policyCounts) (INSERT policyCounts)
                 (UPDATE policyCounts) (S (DELETE policyCounts))
      else policyCounts
  end.

Definition tally (policies : list policy_row) : PolicyCounts :=
  fold_left bump policies (mkCounts 0 0 0 0).

(** *** Recovery addon detection *)

(** [addon.type && addon.type.toLowerCase().includes("pitr")] *)
Definition is_pitr (a : addon) : bool :=
  match addon_type a with
  | Some t => negb (t =? EmptyString) && Js.includes (Js.toLowerCase t) "pitr"
  | None => false
  end.

(** [project.addons?.find(...)] *)
Definition find_pitr (p : project) : option addon :=
  match project_addons p with
  | Some addons => find is_pitr addons
  | None => None
  end.

Definition or_default (v : option string) (d : string) : string :=
  match v with
  | Some s => if s =? EmptyString then d else s
  | None => d
  end.

Definition pitr_entry (p : project) : PitrProject :=
  let pitrAddon := find_pitr p in
  mkPitrProject (project_name p) (project_id p)
    (match pitrAddon with Some _ => true | None => false end)
    pitrAddon
    (match pitrAddon with
     | Some a => or_default (addon_status a) "not_enabled"
     | None => "not_enabled"
     end)
    (match pitrAddon with
     | Some a => or_default (addon_metadata a) "{}"
     | None => "{}"
     end).

Section Server.

Variable Store : Type.
Variable env : Env Store.

Local Abbreviation M := (M Store).

(** [logEvidence(level, message, data = {})]: one record, printed on
    the console and appended to [evidence.log].  The record is kept
    without its timestamp. *)
Definition logEvidence (level message : string)
    (data : list (string * logged)) : M unit :=
  emit (Evidence (Js.toUpperCase level) message data).

(** [pool.query] for the three fixed SELECT statements and for a
    command text; [pool.end()].  A query may raise; closing the pool is
    taken not to. *)
Definition pool_select {A} (connectionString : option string)
    (text : string) (params : list string)
    (answer : Store -> option string -> outcome A) : M A :=
  fun s =>
    (answer s connectionString,
     [Net (PgQuery connectionString text params)], s).

Definition pool_command (connectionString : option string)
    (text : string) : M unit :=
  fun s =>
    let '(r, s') := command env s connectionString text in
    (r, [Net (PgQuery connectionString text [])], s').

Definition pool_end (connectionString : option string) : M unit :=
  emit (PoolEnd connectionString).

(** [fetch(url, { method, headers: { Authorization: `Bearer ${token}` },
    body })] *)
Definition fetch {A} (method url token : string) (body : option string)
    (reply : http_reply A) : M (bool * nat * string * outcome A) :=
  emit (Net (HttpFetch method url ("Bearer " ++ token) body));;;
  match reply with
  | FetchFailed e => throw e
  | Response ok status text json => ret (ok, status, text, json)
  end.

(** [createClient] itself is taken not to raise and makes no call. *)
Definition getSupabaseClient (projectUrl serviceKey : option string)
  : M (string * string) :=
  match projectUrl, serviceKey with
  | Some url, Some key =>
      if (url =? EmptyString) || (key =? EmptyString) then
        throw (Error "Supabase project URL and service key are required.")
      else if negb (Js.startsWith url "http://")
              && negb (Js.startsWith url "https://") then
        throw (Error "Invalid Supabase project URL format. It should start with http:// or https://")
      else ret (url, key)
  | _, _ =>
      throw (Error "Supabase project URL and service key are required.")
  end.

(** *** runMFACheck *)

Definition runMFACheck (supabase : string * string) (displayUrl : string)
  : M MfaResult :=
  let checkName := "Multi-Factor Authentication (MFA)" in
  try_catch
    (emit (Net (AuthListUsers (fst supabase) (snd supabase)));;;
     match listUsers env (fst supabase) (snd supabase) with
     | Rejected e => throw e
     | Resolved _ (Some usersError) =>
         logEvidence "error" "MFA check: Failed to list users."
           [("project", LStr displayUrl);
            ("code", LOpt (ecode usersError));
            ("details", LStr (emessage usersError))];;;
         throw usersError
     | Resolved users None =>
         let mfaResults :=
           match users with
           | Some (u :: rest) =>
               let '(entries, allMfaEnabled) := map_users (u :: rest) true in
               mkMfa checkName entries
                 (if allMfaEnabled then PASSING else FAILING) None None
           | _ =>
               mkMfa checkName [] NA None
                 (Some "No users found in the project.")
           end in
         logEvidence "info" "MFA check completed."
           [("project", LStr displayUrl);
            ("status", LStr (Status_text (mfa_overallStatus mfaResults)));
            ("count", LNum (match users with
                            | Some l => length l
                            | None => 0
                            end))];;;
         ret mfaResults
     end)
    (fun error =>
       let message :=
         if emessage error =? EmptyString then ejson error
         else emessage error in
       logEvidence "error" "MFA check processing failed."
         [("project", LStr displayUrl); ("error", LStr message)];;;
       ret (mkMfa checkName [] ERROR (Some message) None)).

(** *** runRLSCheck *)

(** The catch block, entered with the entries pushed on
    [rlsResults.tables] so far. *)
Definition rls_catch (connectionString : option string)
    (tables : list RlsTable) (error : exn) : M RlsResult :=
  pool_end connectionString;;;
  emit (Console [LStr "[RLS][PG] Error:"; LExn error]);;;
  ret (mkRls "Row Level Security (RLS)" ERROR tables
         (Some (emessage error)) None).

(** The body of [for (const table of tableNames)] for one table. *)
Definition rls_table (connectionString : option string) (table : string)
  : M RlsTable :=
  rows <- pool_select connectionString sql_relrowsecurity [table]
            (fun s cs => select_relrowsecurity env s cs table);;
  let rlsEnabled :=
    match rows with
    | true :: _ => true
    | _ => false
    end in
  emit (Console [LStr ("[RLS][PG] Table " ++ dq ++ table ++ dq
                       ++ " RLS enabled:"); LBool rlsEnabled]);;;
  policies <- pool_select connectionString sql_policies [table]
                (fun s cs => select_policies env s cs table);;
  ret (mkRlsTable table rlsEnabled
         (if rlsEnabled then None
          else Some "Enable RLS for this table to restrict access.")
         (tally policies) policies).

(** The loop.  It returns the entries pushed, [allHaveRLS], and the
    exception that ended it early, if any: the entries pushed before a
    throw stay on [rlsResults.tables] in the catch block. *)
Fixpoint rls_loop (connectionString : option string)
    (tableNames : list string) (tables : list RlsTable) (allHaveRLS : bool)
  : M (list RlsTable * bool * option exn) :=
  match tableNames with
  | [] => ret (tables, allHaveRLS, None)
  | table :: rest =>
      step <- try_catch
                (entry <- rls_table connectionString table;; ret (inl entry))
                (fun error => ret (inr error));;
      match step with
      | inl entry =>
          rls_loop connectionString rest (tables ++ [entry])%list
            (if rls_enabled entry then allHaveRLS else false)
      | inr error => ret (tables, allHaveRLS, Some error)
      end
  end.

Definition runRLSCheck (connectionString : option string) : M RlsResult :=
  let checkName := "Row Level Security (RLS)" in
  emit (Console [LStr "[RLS][PG] Starting direct Postgres RLS check..."]);;;
  try_catch
    (tableNames <- pool_select connectionString sql_tables []
                     (select_tables env);;
     emit (Console [LStr "[RLS][PG] Tables found:"; LStrs tableNames]);;;
     match tableNames with
     | [] =>
         pool_end connectionString;;;
         ret (mkRls checkName NA [] None
                (Some "No tables found in public schema."))
     | _ :: _ =>
         r <- rls_loop connectionString tableNames [] true;;
         match r with
         | (tables, _, Some error) =>
             rls_catch connectionString tables error
         | (tables, allHaveRLS, None) =>
             let rlsResults :=
               mkRls checkName (if allHaveRLS then PASSING else FAILING)
                 tables None None in
             pool_end connectionString;;;
             emit (Console [LStr "[RLS][PG] Final RLS results:";
                            LRls rlsResults]);;;
             ret rlsResults
         end
     end)
    (fun error => rls_catch connectionString [] error).

(** *** runPITR *)

(** [projects.map(...)]: each project is printed, then summarised. *)
Fixpoint map_projects (projects : list project) : M (list PitrProject) :=
  match projects with
  | [] => ret []
  | p :: rest =>
      emit (Console [LProject p]);;;
      entries <- map_projects rest;;
      ret (pitr_entry p :: entries)
  end.

Definition runPITR (displayUrl : string) : M PitrResult :=
  let checkName := "Point-in-Time Recovery (PITR)" in
  try_catch
    (match SUPABASE_PAT env with
     | Some token =>
         if token =? EmptyString then
           throw (Error "Management API token (SUPABASE_PAT) is not configured")
         else
           res <- fetch "GET" "https://api.supabase.com/v1/projects" token
                    None (get_projects env token);;
           let '(ok, status, errorText, json) := res in
           if negb ok then
             throw (Error ("Failed to fetch projects: " ++ Js.of_nat status
                           ++ " " ++ errorText))
           else
             projects <- settle json;;
             entries <- map_projects projects;;
             let failing := existsb (fun p => negb (pitrEnabled p)) entries in
             let pitrResults :=
               if failing then
                 mkPitr checkName FAILING
                   "Some projects do not have PITR enabled." (Some entries)
               else
                 mkPitr checkName PASSING
                   "PITR status checked for all projects." (Some entries) in
             logEvidence "info" "PITR check completed"
               [("project", LStr displayUrl);
                ("status", LStr (Status_text (pitr_status pitrResults)));
                ("projects",
                 LPitrSummary
                   (map (fun p => (pp_name p, pp_ref p, pitrEnabled p))
                      entries))];;;
             ret pitrResults
     | None =>
         throw (Error "Management API token (SUPABASE_PAT) is not configured")
     end)
    (fun err =>
       logEvidence "error" "PITR check failed"
         [("project", LStr displayUrl); ("error", LStr (emessage err))];;;
       ret (mkPitr checkName ERROR (emessage err) None)).

(** *** POST /api/run-checks *)

(** The three checks are started together and joined by
    [Promise.all]; they share no state, so the model runs them one
    after the other, the trace being one of the possible
    interleavings. *)
Definition run_checks (req : request) : M (option response) :=
  let missing :=
    logEvidence "error" "Missing Supabase credentials for check execution."
      [];;;
    ret (Some (mkResponse 400
           (BError "Supabase Project URL and Service Key are required."))) in
  match projectUrl req, serviceKey req with
  | Some url, Some key =>
      if (url =? EmptyString) || (key =? EmptyString) then missing
      else
        let displayUrl := display_url url in
        logEvidence "info"
          ("Initiating compliance checks for project: " ++ displayUrl) [];;;
        try_catch
          (emit (Console [LStr url; LStr key]);;;
           supabase <- getSupabaseClient (projectUrl req) (serviceKey req);;
           mfaResults <- runMFACheck supabase displayUrl;;
           rlsResults <- runRLSCheck (dbConnectionString req);;
           pitrResults <- runPITR displayUrl;;
           ret (Some (mkResponse 200
                  (BReport mfaResults rlsResults pitrResults))))
          (fun error =>
             logEvidence "critical"
               "Critical error during Supabase client initialization or main check execution."
               [("error", LStr (emessage error))];;;
             ret (Some (mkResponse 500
                    (BError ("Failed to connect to Supabase or run checks: "
                             ++ emessage error)))))
  | _, _ => missing
  end.

(** *** POST /api/fix-rls *)

(** In the failure answer and its evidence record, [errorType],
    [errorString] and [errorStack] are read off the error object; the
    model keeps the object and its [String(error)]. *)
Definition fix_rls (req : request) : M (option response) :=
  let displayUrl := display_url_guarded (projectUrl req) in
  match tableName req with
  | None =>
      ret (Some (mkResponse 400 (BError "Table Name is required.")))
  | Some table =>
      if table =? EmptyString then
        ret (Some (mkResponse 400 (BError "Table Name is required.")))
      else if negb (Js.truthy (projectUrl req))
              || negb (Js.truthy (serviceKey req)) then
        logEvidence "error" "Missing parameters for RLS fix." [];;;
        ret (Some (mkResponse 400
               (BError "Project URL and Service Key are required.")))
      else
        let connectionString := dbConnectionString req in
        try_catch
          (pool_command connectionString (sql_enable_rls table);;;
           existingPolicies <-
             pool_select connectionString sql_policies [table]
               (fun s cs => select_policies env s cs table);;
           match existingPolicies with
           | [] => pool_command connectionString (sql_placeholder table)
           | _ :: _ => ret tt
           end;;;
           pool_end connectionString;;;
           let successMessage :=
             "RLS successfully enabled for table: " ++ dq ++ table ++ dq
             ++ ". A placeholder policy was added. Use the chat to generate more policies tailored to your needs!" in
           logEvidence "info" successMessage
             [("project", LOpt displayUrl); ("tableName", LStr table)];;;
           ret (Some (mkResponse 200 (BFixRls successMessage table))))
          (fun error =>
             logEvidence "error"
               ("Failed to enable RLS for table: " ++ table ++ " (direct DB)")
               [("error", LExn error); ("errorType", LStr "object");
                ("errorString", LStr (String_of error))];;;
             ret (Some (mkResponse 500
                    (BFixRlsFailure
                       ("Failed to enable RLS for " ++ dq ++ table ++ dq
                        ++ ": " ++ String_of error) error))))
  end.

(** *** POST /api/fix-mfa *)

(** [displayUrl] is computed first, with an unguarded
    [projectUrl.includes]: an absent [projectUrl] raises before the
    presence test is reached. *)
Definition fix_mfa (req : request) : M (option response) :=
  match projectUrl req with
  | None =>
      throw (TypeError "Cannot read properties of undefined (reading 'includes')")
  | Some url =>
      let displayUrl := display_url url in
      match serviceKey req, userId req with
      | Some key, Some uid =>
          if (url =? EmptyString) || (key =? EmptyString)
             || (uid =? EmptyString) then
            logEvidence "error" "Missing parameters for MFA fix." [];;;
            ret (Some (mkResponse 400
                   (BError "Project URL, Service Key, and User ID are required.")))
          else
            try_catch
              (supabase <- getSupabaseClient (projectUrl req)
                             (serviceKey req);;
               emit (Net (AuthGetUserById url key uid));;;
               match getUserById env url key uid with
               | Rejected e => throw e
               | Resolved _ (Some userError) =>
                   logEvidence "error"
                     ("Failed to find user: " ++ uid ++ " on project "
                      ++ displayUrl)
                     [("error", LStr (emessage userError))];;;
                   throw userError
               | Resolved userData None =>
                   match match userData with
                         | Some u => user_email u
                         | None => None
                         end with
                   | Some (String c r as userEmail) =>
                       emit (Net (AuthResetPassword url key userEmail
                                    (url ++ "/auth/reset-password?mfa_setup=true")));;;
                       match resetPasswordForEmail env url key userEmail
                               (url ++ "/auth/reset-password?mfa_setup=true")
                       with
                       | Rejected e => throw e
                       | Resolved _ (Some resetError) =>
                           logEvidence "error"
                             ("Failed to send MFA setup email to user: "
                              ++ userEmail)
                             [("error", LStr (emessage resetError))];;;
                           throw resetError
                       | Resolved _ None =>
                           let successMessage :=
                             "A password reset email has been sent to "
                             ++ userEmail
                             ++ ". When resetting the password, the user will be prompted to set up MFA." in
                           logEvidence "info" successMessage
                             [("project", LStr displayUrl);
                              ("userId", LStr uid)];;;
                           ret (Some (mkResponse 200
                                  (BFixMfa successMessage uid userEmail)))
                       end
                   | _ =>
                       let error :=
                         Error "User email not found. Cannot enable MFA without an email address." in
                       logEvidence "error"
                         ("Failed to enable MFA: " ++ emessage error)
                         [("userId", LStr uid); ("userData", LUser userData)];;;
                       throw error
                   end
               end)
              (fun error =>
                 ret (Some (mkResponse 500
                        (BError ("Failed to enable MFA for user " ++ uid
                                 ++ ": " ++ emessage error)))))
      | _, _ =>
          logEvidence "error" "Missing parameters for MFA fix." [];;;
          ret (Some (mkResponse 400
                 (BError "Project URL, Service Key, and User ID are required.")))
      end
  end.

(** *** POST /api/fix-pitr *)

(** Inside the [try] block, [const res = await fetch(...)] declares a
    block-scoped [res] that shadows the handler's response object for
    the whole block.  The early [return res.json(...)] of the
    already-enabled branch reads it before its initialisation and
    raises a ReferenceError, which the [catch] block (where [res] is
    the response object again) answers with 500.  After the PATCH,
    [res.json(...)] is a call on the fetch response: nothing is sent to
    the caller. *)
Definition fix_pitr (req : request) : M (option response) :=
  match projectUrl req with
  | None =>
      throw (TypeError "Cannot read properties of undefined (reading 'includes')")
  | Some url =>
      let displayUrl := display_url url in
      let missing :=
        logEvidence "error" "Missing parameters for PITR fix." [];;;
        ret (Some (mkResponse 400
               (BError "Project URL, Service Key, and Project Ref are required."))) in
      match serviceKey req, projectRef req with
      | Some key, Some ref =>
          if (url =? EmptyString) || (key =? EmptyString)
             || (ref =? EmptyString) then missing
          else if negb (Js.truthy (SUPABASE_PAT env)) then
            logEvidence "error" "Management API token not configured" [];;;
            ret (Some (mkResponse 500
                   (BError "Management API token (SUPABASE_PAT) is not configured. Please set it in your environment variables.")))
          else
            let token := match SUPABASE_PAT env with
                         | Some t => t
                         | None => EmptyString
                         end in
            try_catch
              (checkRes <- fetch "GET"
                             ("https://api.supabase.com/v1/projects/" ++ ref)
                             token None (get_project env token ref);;
               let '(ok, status, errorText, json) := checkRes in
               if negb ok then
                 throw (Error ("Failed to check project status: "
                               ++ Js.of_nat status ++ " " ++ errorText))
               else
                 project <- settle json;;
                 match find_pitr project with
                 | Some pitrAddon =>
                     let successMessage :=
                       "PITR is already enabled for project: " ++ ref ++ "." in
                     logEvidence "info" successMessage
                       [("project", LStr displayUrl);
                        ("projectRef", LStr ref)];;;
                     throw (ReferenceError
                              "Cannot access 'res' before initialization")
                 | None =>
                     res <- fetch "PATCH"
                              ("https://api.supabase.com/v1/projects/" ++ ref
                               ++ "/addons")
                              token
                              (Some pitr_patch_body)
                              (patch_addons env token ref pitr_patch_body);;
                     let '(ok, _, errorText, _) := res in
                     if negb ok then
                       logEvidence "error"
                         ("Failed to enable PITR for project: " ++ ref)
                         [("error", LStr errorText)];;;
                       throw (Error ("Failed to enable PITR: " ++ errorText))
                     else
                       let successMessage :=
                         "PITR has been enabled for project: " ++ ref
                         ++ " with 7 days retention period. The changes may take a few minutes to take effect." in
                       logEvidence "info" successMessage
                         [("project", LStr displayUrl);
                          ("projectRef", LStr ref)];;;
                       ret None
                 end)
              (fun error =>
                 logEvidence "error"
                   ("Failed to enable PITR for project: " ++ ref)
                   [("error", LStr (emessage error))];;;
                 ret (Some (mkResponse 500
                        (BError ("Failed to enable PITR for project " ++ ref
                                 ++ ": " ++ emessage error)))))
      | _, _ => missing
      end
  end.

(** *** POST /api/ai-assist *)

Definition system_prompt : string :=
  "You are a Supabase compliance expert assistant. Answer the user's prompt using the provided context. Be concise, actionable, and clear. If SQL is needed, use markdown code blocks.".

Definition ai_assist (req : request) : M (option response) :=
  let displayUrl := display_url_guarded (projectUrl req) in
  match issue req with
  | Some (String c r as question) =>
      if negb (Js.truthy (projectUrl req))
         || negb (Js.truthy (serviceKey req)) then
        logEvidence "error" "Missing parameters for AI assistance." [];;;
        ret (Some (mkResponse 400
               (BError "Project URL, Service Key, and Issue description are required.")))
      else
        try_catch
          (let userPrompt :=
             "Context:" ++ nl ++ context req ++ nl ++ nl ++ "Prompt:" ++ nl
             ++ question in
           emit (Net (ChatCompletion system_prompt userPrompt));;;
           answer <- settle (chat env system_prompt userPrompt);;
           logEvidence "info" "AI compliance analysis provided"
             [("project", LOpt displayUrl);
              ("analysisType",
               LStr (String.substring 0 100 question ++ "..."))];;;
           ret (Some (mkResponse 200 (BAssist answer (clock env)))))
          (fun error =>
             logEvidence "error" "AI compliance analysis failed"
               [("project", LOpt displayUrl);
                ("error", LStr (emessage error))];;;
             ret (Some (mkResponse 500
                    (BError ("Failed to get AI compliance analysis: "
                             ++ emessage error)))))
  | _ =>
      logEvidence "error" "Missing parameters for AI assistance." [];;;
      ret (Some (mkResponse 400
             (BError "Project URL, Service Key, and Issue description are required.")))
  end.

End Server.

Arguments logEvidence {Store} level message data.
Arguments pool_select {Store A} connectionString text params answer.
Arguments pool_command {Store} env connectionString text.
Arguments pool_end {Store} connectionString.
Arguments fetch {Store A} method url token body reply.
Arguments getSupabaseClient {Store} projectUrl serviceKey.
Arguments runMFACheck {Store} env supabase displayUrl.
Arguments rls_catch {Store} connectionString tables error.
Arguments rls_table {Store} env connectionString table.
Arguments rls_loop {Store} env connectionString tableNames tables allHaveRLS.
Arguments runRLSCheck {Store} env connectionString.
Arguments map_projects {Store} projects.
Arguments runPITR {Store} env displayUrl.
Arguments run_checks {Store} env req.
Arguments fix_rls {Store} env req.
Arguments fix_mfa {Store} env req.
Arguments fix_pitr {Store} env req.
Arguments ai_assist {Store} env req.

(** ** The handlers on any [projectUrl]

    The handlers above take a body whose fields are strings or missing.
    The ones below are the same handlers with [projectUrl] any JSON
    value [v]; the other fields are those of [req], as before (a
    [serviceKey] or [userId] that is not a string would reach
    [createClient] and the auth client, which are not part of this
    repository).  On a string or a missing [projectUrl] they are the
    handlers above; this is proved among the properties. *)

Definition of_option (projectUrl : option string) : jsval :=
  match projectUrl with
  | Some u => JStr u
  | None => JUndefined
  end.

(** The body [req] with its [projectUrl] replaced. *)
Definition with_projectUrl (req : request) (projectUrl : option string)
  : request :=
  mkRequest projectUrl (serviceKey req) (dbConnectionString req)
    (tableName req) (userId req) (projectRef req) (issue req) (context req).

Section ServerAny.

Variable Store : Type.
Variable env : Env Store.

Local Abbreviation M := (M Store).

(** [getSupabaseClient(projectUrl, serviceKey)]: past the presence test,
    [projectUrl.startsWith] exists on a string only. *)
Definition getSupabaseClient_any (v : jsval) (serviceKey : option string)
  : M (string * string) :=
  if negb (js_truthy v) || negb (Js.truthy serviceKey) then
    throw (Error "Supabase project URL and service key are required.")
  else
    match v, serviceKey with
    | JStr url, Some key =>
        if negb (Js.startsWith url "http://")
           && negb (Js.startsWith url "https://") then
          throw (Error "Invalid Supabase project URL format. It should start with http:// or https://")
        else ret (url, key)
    | _, _ => throw (TypeError "projectUrl.startsWith is not a function")
    end.

(** *** POST /api/run-checks *)

(** The presence test comes first; the display expression follows it,
    outside the [try] block. *)
Definition run_checks_any (v : jsval) (req : request) : M (option response) :=
  if negb (js_truthy v) || negb (Js.truthy (serviceKey req)) then
    logEvidence "error" "Missing Supabase credentials for check execution."
      [];;;
    ret (Some (mkResponse 400
           (BError "Supabase Project URL and Service Key are required.")))
  else
    match js_display v with
    | Throw e => throw e
    | Ok displayUrl =>
        logEvidence "info"
          ("Initiating compliance checks for project: " ++ js_text displayUrl)
          [];;;
        try_catch
          (emit (Console [log_val v; LOpt (serviceKey req)]);;;
           supabase <- getSupabaseClient_any v (serviceKey req);;
           mfaResults <- runMFACheck env supabase (js_text displayUrl);;
           rlsResults <- runRLSCheck env (dbConnectionString req);;
           pitrResults <- runPITR env (js_text displayUrl);;
           ret (Some (mkResponse 200
                  (BReport mfaResults rlsResults pitrResults))))
          (fun error =>
             logEvidence "critical"
               "Critical error during Supabase client initialization or main check execution."
               [("error", LStr (emessage error))];;;
             ret (Some (mkResponse 500
                    (BError ("Failed to connect to Supabase or run checks: "
                             ++ emessage error)))))
    end.

(** *** POST /api/fix-rls *)

(** The guarded display expression is the handler's first statement,
    before the test of [tableName] and outside the [try] block. *)
Definition fix_rls_any (v : jsval) (req : request) : M (option response) :=
  match js_display_guarded v with
  | Throw e => throw e
  | Ok displayUrl =>
      match tableName req with
      | None =>
          ret (Some (mkResponse 400 (BError "Table Name is required.")))
      | Some table =>
          if table =? EmptyString then
            ret (Some (mkResponse 400 (BError "Table Name is required.")))
          else if negb (js_truthy v)
                  || negb (Js.truthy (serviceKey req)) then
            logEvidence "error" "Missing parameters for RLS fix." [];;;
            ret (Some (mkResponse 400
                   (BError "Project URL and Service Key are required.")))
          else
            let connectionString := dbConnectionString req in
            try_catch
              (pool_command env connectionString (sql_enable_rls table);;;
               existingPolicies <-
                 pool_select connectionString sql_policies [table]
                   (fun s cs => select_policies env s cs table);;
               match existingPolicies with
               | [] => pool_command env connectionString
                         (sql_placeholder table)
               | _ :: _ => ret tt
               end;;;
               pool_end connectionString;;;
               let successMessage :=
                 "RLS successfully enabled for table: " ++ dq ++ table ++ dq
                 ++ ". A placeholder policy was added. Use the chat to generate more policies tailored to your needs!" in
               logEvidence "info" successMessage
                 [("project", log_val displayUrl); ("tableName", LStr table)];;;
               ret (Some (mkResponse 200 (BFixRls successMessage table))))
              (fun error =>
                 logEvidence "error"
                   ("Failed to enable RLS for table: " ++ table
                    ++ " (direct DB)")
                   [("error", LExn error); ("errorType", LStr "object");
                    ("errorString", LStr (String_of error))];;;
                 ret (Some (mkResponse 500
                        (BFixRlsFailure
                           ("Failed to enable RLS for " ++ dq ++ table ++ dq
                            ++ ": " ++ String_of error) error))))
      end
  end.

(** *** POST /api/fix-mfa *)

(** The unguarded display expression is the handler's first statement.
    Past [getSupabaseClient], [projectUrl] is the string the client was
    built from. *)
Definition fix_mfa_any (v : jsval) (req : request) : M (option response) :=
  match js_display v with
  | Throw e => throw e
  | Ok displayUrl =>
      let missing :=
        logEvidence "error" "Missing parameters for MFA fix." [];;;
        ret (Some (mkResponse 400
               (BError "Project URL, Service Key, and User ID are required."))) in
      match serviceKey req, userId req with
      | Some key, Some uid =>
          if negb (js_truthy v) || (key =? EmptyString)
             || (uid =? EmptyString) then missing
          else
            try_catch
              (supabase <- getSupabaseClient_any v (serviceKey req);;
               let url := fst supabase in
               emit (Net (AuthGetUserById url key uid));;;
               match getUserById env url key uid with
               | Rejected e => throw e
               | Resolved _ (Some userError) =>
                   logEvidence "error"
                     ("Failed to find user: " ++ uid ++ " on project "
                      ++ js_text displayUrl)
                     [("error", LStr (emessage userError))];;;
                   throw userError
               | Resolved userData None =>
                   match match userData with
                         | Some u => user_email u
                         | None => None
                         end with
                   | Some (String c r as userEmail) =>
                       emit (Net (AuthResetPassword url key userEmail
                                    (url ++ "/auth/reset-password?mfa_setup=true")));;;
                       match resetPasswordForEmail env url key userEmail
                               (url ++ "/auth/reset-password?mfa_setup=true")
                       with
                       | Rejected e => throw e
                       | Resolved _ (Some resetError) =>
                           logEvidence "error"
                             ("Failed to send MFA setup email to user: "
                              ++ userEmail)
                             [("error", LStr (emessage resetError))];;;
                           throw resetError
                       | Resolved _ None =>
                           let successMessage :=
                             "A password reset email has been sent to "
                             ++ userEmail
                             ++ ". When resetting the password, the user will be prompted to set up MFA." in
                           logEvidence "info" successMessage
                             [("project", log_val displayUrl);
                              ("userId", LStr uid)];;;
                           ret (Some (mkResponse 200
                                  (BFixMfa successMessage uid userEmail)))
                       end
                   | _ =>
                       let error :=
                         Error "User email not found. Cannot enable MFA without an email address." in
                       logEvidence "error"
                         ("Failed to enable MFA: " ++ emessage error)
                         [("userId", LStr uid); ("userData", LUser userData)];;;
                       throw error
                   end
               end)
              (fun error =>
                 ret (Some (mkResponse 500
                        (BError ("Failed to enable MFA for user " ++ uid
                                 ++ ": " ++ emessage error)))))
      | _, _ => missing
      end
  end.

(** *** POST /api/fix-pitr *)

(** As above, with the block-scoped [res] of the [try] block. *)
Definition fix_pitr_any (v : jsval) (req : request) : M (option response) :=
  match js_display v with
  | Throw e => throw e
  | Ok displayUrl =>
      let missing :=
        logEvidence "error" "Missing parameters for PITR fix." [];;;
        ret (Some (mkResponse 400
               (BError "Project URL, Service Key, and Project Ref are required."))) in
      match serviceKey req, projectRef req with
      | Some key, Some ref =>
          if negb (js_truthy v) || (key =? EmptyString)
             || (ref =? EmptyString) then missing
          else if negb (Js.truthy (SUPABASE_PAT env)) then
            logEvidence "error" "Management API token not configured" [];;;
            ret (Some (mkResponse 500
                   (BError "Management API token (SUPABASE_PAT) is not configured. Please set it in your environment variables.")))
          else
            let token := match SUPABASE_PAT env with
                         | Some t => t
                         | None => EmptyString
                         end in
            try_catch
              (checkRes <- fetch "GET"
                             ("https://api.supabase.com/v1/projects/" ++ ref)
                             token None (get_project env token ref);;
               let '(ok, status, errorText, json) := checkRes in
               if negb ok then
                 throw (Error ("Failed to check project status: "
                               ++ Js.of_nat status ++ " " ++ errorText))
               else
                 project <- settle json;;
                 match find_pitr project with
                 | Some pitrAddon =>
                     let successMessage :=
                       "PITR is already enabled for project: " ++ ref ++ "." in
                     logEvidence "info" successMessage
                       [("project", log_val displayUrl);
                        ("projectRef", LStr ref)];;;
                     throw (ReferenceError
                              "Cannot access 'res' before initialization")
                 | None =>
                     res <- fetch "PATCH"
                              ("https://api.supabase.com/v1/projects/" ++ ref
                               ++ "/addons")
                              token
                              (Some pitr_patch_body)
                              (patch_addons env token ref pitr_patch_body);;
                     let '(ok, _, errorText, _) := res in
                     if negb ok then
                       logEvidence "error"
                         ("Failed to enable PITR for project: " ++ ref)
                         [("error", LStr errorText)];;;
                       throw (Error ("Failed to enable PITR: " ++ errorText))
                     else
                       let successMessage :=
                         "PITR has been enabled for project: " ++ ref
                         ++ " with 7 days retention period. The changes may take a few minutes to take effect." in
                       logEvidence "info" successMessage
                         [("project", log_val displayUrl);
                          ("projectRef", LStr ref)];;;
                       ret None
                 end)
              (fun error =>
                 logEvidence "error"
                   ("Failed to enable PITR for project: " ++ ref)
                   [("error", LStr (emessage error))];;;
                 ret (Some (mkResponse 500
                        (BError ("Failed to enable PITR for project " ++ ref
                                 ++ ": " ++ emessage error)))))
      | _, _ => missing
      end
  end.

(** *** POST /api/ai-assist *)

Definition ai_assist_any (v : jsval) (req : request) : M (option response) :=
  match js_display_guarded v with
  | Throw e => throw e
  | Ok displayUrl =>
      let missing :=
        logEvidence "error" "Missing parameters for AI assistance." [];;;
        ret (Some (mkResponse 400
               (BError "Project URL, Service Key, and Issue description are required."))) in
      match issue req with
      | Some (String c r as question) =>
          if negb (js_truthy v) || negb (Js.truthy (serviceKey req)) then
            missing
          else
            try_catch
              (let userPrompt :=
                 "Context:" ++ nl ++ context req ++ nl ++ nl ++ "Prompt:"
                 ++ nl ++ question in
               emit (Net (ChatCompletion system_prompt userPrompt));;;
               answer <- settle (chat env system_prompt userPrompt);;
               logEvidence "info" "AI compliance analysis provided"
                 [("project", log_val displayUrl);
                  ("analysisType",
                   LStr (String.substring 0 100 question ++ "..."))];;;
               ret (Some (mkResponse 200 (BAssist answer (clock env)))))
              (fun error =>
                 logEvidence "error" "AI compliance analysis failed"
                   [("project", log_val displayUrl);
                    ("error", LStr (emessage error))];;;
                 ret (Some (mkResponse 500
                        (BError ("Failed to get AI compliance analysis: "
                                 ++ emessage error)))))
      | _ => missing
      end
  end.

End ServerAny.

Arguments getSupabaseClient_any {Store} v serviceKey.
Arguments run_checks_any {Store} env v req.
Arguments fix_rls_any {Store} env v req.
Arguments fix_mfa_any {Store} env v req.
Arguments fix_pitr_any {Store} env v req.
Arguments ai_assist_any {Store} env v req.

(** ** The data store

    A small model of the Postgres catalogs the server reads and of the
    two statements it issues: enough to run the fix against a store and
    look at the store afterwards. *)

Module Pg.

Record class_row := mkClass {
  nspname : string;
  relname : string;
  relrowsecurity : bool
}.

Record db := mkDb {
  pg_class : list class_row;
  pg_policies : list policy_row
}.

Definition is_dq (c : ascii) : bool := Ascii.eqb c (ascii_of_nat 34).

Fixpoint strip_prefix (p s : string) : option string :=
  match p with
  | EmptyString => Some s
  | String a p' =>
      match s with
      | String b s' => if Ascii.eqb a b then strip_prefix p' s' else None
      | EmptyString => None
      end
  end.

(** The lexer's reading of a delimited identifier, entered just after
    the opening quote: characters up to the closing quote, a doubled
    quote standing for one quote character.  The result is the
    identifier and the text after the closing quote. *)
Fixpoint quoted_ident (s : string) : option (string * string) :=
  match s with
  | EmptyString => None
  | String c r =>
      if is_dq c then
        match r with
        | String c' r' =>
            if is_dq c' then
              match quoted_ident r' with
              | Some (id, rest) => Some (String c id, rest)
              | None => None
              end
            else Some (EmptyString, r)
        | EmptyString => Some (EmptyString, EmptyString)
        end
      else
        match quoted_ident r with
        | Some (id, rest) => Some (String c id, rest)
        | None => None
        end
  end.

(** Number of double-quote characters in a string. *)
Fixpoint quotes (s : string) : nat :=
  match s with
  | EmptyString => 0
  | String c r => (if is_dq c then 1 else 0) + quotes r
  end.

Inductive statement :=
| EnableRls (table : string)            (* on [public.table] *)
| CreatePlaceholder (table : string).   (* on [public.table] *)

(** The two statement shapes of the server.  Any other text is outside
    the model, which answers it with an error. *)
Definition parse (text : string) : option statement :=
  match strip_prefix alter_prefix text with
  | Some rest =>
      match quoted_ident rest with
      | Some (table, tail) =>
          if tail =? " ENABLE ROW LEVEL SECURITY;"
          then Some (EnableRls table) else None
      | None => None
      end
  | None =>
      match strip_prefix create_prefix text with
      | Some rest =>
          match quoted_ident rest with
          | Some (table, tail) =>
              if tail =? " FOR SELECT USING (true);"
              then Some (CreatePlaceholder table) else None
          | None => None
          end
      | None => None
      end
  end.

Definition is_public (table : string) (c : class_row) : bool :=
  (nspname c =? "public") && (relname c =? table).

Definition has_table (d : db) (table : string) : bool :=
  existsb (is_public table) (pg_class d).

Definition is_placeholder (table : string) (p : policy_row) : bool :=
  (schemaname p =? "public") && (tablename p =? table)
  && (policyname p =? "placeholder_policy").

Definition placeholder (table : string) : policy_row :=
  mkPolicy "public" table "placeholder_policy" (Some "SELECT")
    (Some "true") None.

Definition enable (table : string) (c : class_row) : class_row :=
  if is_public table c then mkClass (nspname c) (relname c) true else c.

Definition pg_error (msg : string) : exn := mkExn "error" msg None "{}".

Definition exec (d : db) (text : string) : outcome unit * db :=
  match parse text with
  | Some (EnableRls table) =>
      if has_table d table then
        (Ok tt, mkDb (map (enable table) (pg_class d)) (pg_policies d))
      else
        (Throw (pg_error ("relation " ++ dq ++ "public." ++ table ++ dq
                          ++ " does not exist")), d)
  | Some (CreatePlaceholder table) =>
      if negb (has_table d table) then
        (Throw (pg_error ("relation " ++ dq ++ "public." ++ table ++ dq
                          ++ " does not exist")), d)
      else if existsb (is_placeholder table) (pg_policies d) then
        (Throw (pg_error ("policy " ++ dq ++ "placeholder_policy" ++ dq
                          ++ " for table " ++ dq ++ table ++ dq
                          ++ " already exists")), d)
      else
        (Ok tt, mkDb (pg_class d) (pg_policies d ++ [placeholder table])%list)
  | None => (Throw (pg_error "syntax error"), d)
  end.

(** The three SELECTs.  As in the statements, the flag and the policies
    are looked up by relation name alone. *)
Definition tables (d : db) : list string :=
  map relname (filter (fun c => nspname c =? "public") (pg_class d)).

Definition flags_of (d : db) (table : string) : list bool :=
  map relrowsecurity (filter (fun c => relname c =? table) (pg_class d)).

Definition policies_of (d : db) (table : string) : list policy_row :=
  filter (fun p => tablename p =? table) (pg_policies d).

(** The policy rows of the table [public.table] itself. *)
Definition own_policies (d : db) (table : string) : list policy_row :=
  filter (fun p => (schemaname p =? "public") && (tablename p =? table))
    (pg_policies d).

Definition flag (d : db) (table : string) : option bool :=
  option_map relrowsecurity (find (is_public table) (pg_class d)).

Definition placeholder_count (d : db) (table : string) : nat :=
  length (filter (is_placeholder table) (pg_policies d)).

(** A pool reaches the store when its connection string is [dsn]; any
    other pool, the one built from no connection string included,
    goes to the driver's default host and is refused. *)
Definition refused : exn :=
  mkExn "Error" "connect ECONNREFUSED 127.0.0.1:5432" (Some "ECONNREFUSED")
    "{}".

Definition reaches (dsn : string) (connectionString : option string) : bool :=
  match connectionString with
  | Some c => c =? dsn
  | None => false
  end.

Definition via {A} (dsn : string) (connectionString : option string)
    (a : A) : outcome A :=
  if reaches dsn connectionString then Ok a else Throw refused.

(** An environment over this store.  The auth client answers every
    listing with [listing], the management API every project listing
    with [projects]. *)
Definition environment (dsn : string) (pat : option string)
    (listing : auth_reply (option (list user)))
    (projects : http_reply (list project)) : Env db :=
  {| SUPABASE_PAT := pat;
     clock := "2025-01-01T00:00:00.000Z";
     listUsers := fun _ _ => listing;
     getUserById := fun _ _ uid =>
       match listing with
       | Resolved (Some users) None =>
           match find (fun u => user_id u =? uid) users with
           | Some u => Resolved (Some u) None
           | None =>
               Resolved None
                 (Some (mkExn "AuthApiError" "User not found"
                          (Some "user_not_found") "{}"))
           end
       | Resolved _ (Some e) => Resolved None (Some e)
       | Resolved _ None => Resolved None None
       | Rejected e => Rejected e
       end;
     resetPasswordForEmail := fun _ _ _ _ => Resolved tt None;
     select_tables := fun d cs => via dsn cs (tables d);
     select_relrowsecurity := fun d cs t => via dsn cs (flags_of d t);
     select_policies := fun d cs t => via dsn cs (policies_of d t);
     command := fun d cs text =>
       if reaches dsn cs then exec d text else (Throw refused, d);
     get_projects := fun _ => projects;
     get_project := fun _ ref =>
       match projects with
       | Response true _ _ (Ok ps) =>
           match find (fun p => project_id p =? ref) ps with
           | Some p => Response true 200 EmptyString (Ok p)
           | None =>
               Response false 404 "Project not found"
                 (Throw (Error "Unexpected end of JSON input"))
           end
       | Response ok code text _ =>
           Response ok code text
             (Throw (Error "Unexpected end of JSON input"))
       | FetchFailed e => FetchFailed e
       end;
     patch_addons := fun _ _ _ => Response true 200 EmptyString (Ok tt);
     chat := fun _ _ => Ok "Enable RLS on every table."
  |}.

End Pg.

(** ** A sample project *)

Module Scenario.

Definition alice : user :=
  mkUser "u1" (Some "alice@example.com") None
    (Some [mkFactor "f1" "verified"]).
Definition bob : user :=
  mkUser "u2" (Some "bob@example.com") None
    (Some [mkFactor "f2" "unverified"]).
Definition carol : user := mkUser "u3" None None None.

Definition shop : project :=
  mkProject "shop" "abc"
    (Some [mkAddon (Some "PITR_7") (Some "active") None]).

(** [orders]: flag off, two SELECT policies; [notes]: flag off, no
    policy; [items]: flag on, one INSERT and one ALL policy. *)
Definition store : Pg.db :=
  Pg.mkDb
    [Pg.mkClass "public" "orders" false;
     Pg.mkClass "public" "notes" false;
     Pg.mkClass "public" "items" true]
    [mkPolicy "public" "orders" "read_own" (Some "SELECT") (Some "true") None;
     mkPolicy "public" "orders" "read_all" (Some "select") (Some "true") None;
     mkPolicy "public" "items" "add" (Some "INSERT") None (Some "true");
     mkPolicy "public" "items" "any" (Some "ALL") (Some "true") None].

Definition dsn : string := "postgresql://postgres:pw@db.abc.supabase.co:5432/postgres".

Definition env : Env Pg.db :=
  Pg.environment dsn (Some "sbp_token")
    (Resolved (Some [alice; bob; carol]) None)
    (Response true 200 EmptyString (Ok [shop])).

(** No management token configured. *)
Definition env_without_token : Env Pg.db :=
  Pg.environment dsn None
    (Resolved (Some [alice; bob; carol]) None)
    (Response true 200 EmptyString (Ok [shop])).

(** The driver's defaults reach the store: every pool is served,
    whatever its connection string. *)
Definition env_local_defaults : Env Pg.db :=
  {| SUPABASE_PAT := SUPABASE_PAT env;
     clock := clock env;
     listUsers := listUsers env;
     getUserById := getUserById env;
     resetPasswordForEmail := resetPasswordForEmail env;
     select_tables := fun d _ => Ok (Pg.tables d);
     select_relrowsecurity := fun d _ t => Ok (Pg.flags_of d t);
     select_policies := fun d _ t => Ok (Pg.policies_of d t);
     command := fun d _ text => Pg.exec d text;
     get_projects := get_projects env;
     get_project := get_project env;
     patch_addons := patch_addons env;
     chat := chat env
  |}.

(** The management API answers 403. *)
Definition env_forbidden : Env Pg.db :=
  Pg.environment dsn (Some "sbp_token")
    (Resolved (Some [alice]) None)
    (Response false 403 "Forbidden"
       (Throw (Error "Unexpected end of JSON input"))).

Definition req : request :=
  mkRequest (Some "https://abc.supabase.co") (Some "service-role-key")
    (Some dsn) (Some "notes") (Some "u1") (Some "abc")
    (Some "How do I enable RLS?") "{}".

(** The same request without a connection string. *)
Definition req_without_dsn : request :=
  mkRequest (Some "https://abc.supabase.co") (Some "service-role-key")
    None (Some "notes") (Some "u1") (Some "abc")
    (Some "How do I enable RLS?") "{}".

(** The same request without a service key. *)
Definition req_without_key : request :=
  mkRequest (Some "https://abc.supabase.co") None
    (Some dsn) (Some "notes") (Some "u1") (Some "abc")
    (Some "How do I enable RLS?") "{}".

(** The same request with an endpoint that has no http(s) scheme. *)
Definition req_bad_scheme : request :=
  mkRequest (Some "abc.supabase.co") (Some "service-role-key")
    (Some dsn) (Some "notes") (Some "u1") (Some "abc")
    (Some "How do I enable RLS?") "{}".

(** The same request for the table [orders]. *)
Definition req_orders : request :=
  mkRequest (Some "https://abc.supabase.co") (Some "service-role-key")
    (Some dsn) (Some "orders") (Some "u1") (Some "abc")
    (Some "How do I enable RLS?") "{}".

(** A store whose only table has a double quote in its name. *)
Definition quoted_name : string := "a" ++ dq ++ "b".

Definition store_quoted : Pg.db :=
  Pg.mkDb [Pg.mkClass "public" quoted_name false] [].

Definition req_quoted : request :=
  mkRequest (Some "https://abc.supabase.co") (Some "service-role-key")
    (Some dsn) (Some quoted_name) (Some "u1") (Some "abc")
    (Some "How do I enable RLS?") "{}".

(** A table name that closes the quoted identifier and goes on. *)
Definition hostile_name : string :=
  "notes" ++ dq ++ " DISABLE ROW LEVEL SECURITY; --".

Definition req_hostile : request :=
  mkRequest (Some "https://abc.supabase.co") (Some "service-role-key")
    (Some dsn) (Some hostile_name) (Some "u1") (Some "abc")
    (Some "How do I enable RLS?") "{}".

End Scenario.

(** ** Predicates used in the statements *)

(** Rows the tally counts in bucket [k]. *)
Definition counted (k : string) (p : policy_row) : bool :=
  match cmd p with
  | Some c => Js.toUpperCase c =? k
  | None => false
  end.

Definition hint : string := "Enable RLS for this table to restrict access.".

Definition entry_ok (t : RlsTable) : Prop :=
  policy_counts t = tally (current_policies t)
  /\ recommendation t = (if rls_enabled t then None else Some hint).

(** The flag the check reads off the rows of the flag query:
    [rows[0]?.relrowsecurity === true]. *)
Definition first_flag (rows : list bool) : bool :=
  match rows with
  | true :: _ => true
  | _ => false
  end.

(** The entry [t] is what the two queries on its table answer on the
    store [s]: its flag is read off the rows of the flag query, its
    policies are the rows of the policy query. *)
Definition entry_reads {Store} (env : Env Store) (s : Store)
    (connectionString : option string) (t : RlsTable) : Prop :=
  exists rows,
    select_relrowsecurity env s connectionString (rt_name t) = Ok rows
    /\ rls_enabled t = first_flag rows
    /\ select_policies env s connectionString (rt_name t)
       = Ok (current_policies t).

(** The members of the three result records, as the object literals at
    the head of the checks name them and the response carries them. *)
Definition mfa_members : list string :=
  ["checkName"; "users"; "overallStatus"; "error"; "message"].
Definition rls_members : list string :=
  ["checkName"; "overallStatus"; "tables"; "error"; "message"].
Definition pitr_members : list string :=
  ["checkName"; "status"; "message"; "details"].

(** The display expression raises on [v]: [v] is not a string, and is
    not an array either unless one that has the element supabase.co. *)
Definition display_raises (v : jsval) : Prop :=
  match v with
  | JStr _ => False
  | JArr items => array_includes items "supabase.co" = true
  | _ => True
  end.

(** The users of a listing; a missing list counts as empty. *)
Definition listed (data : option (list user)) : list user :=
  match data with
  | Some users => users
  | None => []
  end.

(** The text the MFA check reports for a caught exception:
    [error.message || JSON.stringify(error)]. *)
Definition reported (e : exn) : string :=
  if emessage e =? EmptyString then ejson e else emessage e.

(** Some query of the access-control check is answered with [e]. *)
Definition query_fails {Store} (env : Env Store) (s : Store)
    (connectionString : option string) (e : exn) : Prop :=
  select_tables env s connectionString = Throw e
  \/ exists names table,
       select_tables env s connectionString = Ok names
       /\ In table names
       /\ (select_relrowsecurity env s connectionString table = Throw e
           \/ select_policies env s connectionString table = Throw e).

(** [sub] occurs in [s]. *)
Definition occurs (sub s : string) : Prop :=
  exists a b, s = a ++ sub ++ b.

(** The first effect of a run is [e]. *)
Definition begins_with {A Store : Type} (e : event)
    (run : outcome A * list event * Store) : Prop :=
  exists tr, snd (fst run) = e :: tr.

(** The trace of a run. *)
Definition trace_of {A Store : Type} (run : outcome A * list event * Store)
  : list event := snd (fst run).

(** Either credential is absent or empty. *)
Definition missing_credentials (req : request) : Prop :=
  Js.truthy (projectUrl req) = false \/ Js.truthy (serviceKey req) = false.

(** The store after a successful enable-access-control fix on
    [public.table]: the flag is set, and the placeholder policy is added
    when no policy row carries the table's name. *)
Definition fixed (d : Pg.db) (table : string) : Pg.db :=
  Pg.mkDb (map (Pg.enable table) (Pg.pg_class d))
    (Pg.pg_policies d
     ++ match Pg.policies_of d table with
        | [] => [Pg.placeholder table]
        | _ :: _ => []
        end)%list.

(** The confirmation message of the fix. *)
Definition fix_rls_message (table : string) : string :=
  "RLS successfully enabled for table: " ++ dq ++ table ++ dq
  ++ ". A placeholder policy was added. Use the chat to generate more policies tailored to your needs!".

(** ** Further functions of the server *)

(** *** String helpers *)

Module Text.

(** [s.replace(/^https?:\/\//, '')]: one leading [http://] or
    [https://] is removed. *)
Definition strip_scheme (s : string) : string :=
  match Pg.strip_prefix "https://" s with
  | Some rest => rest
  | None =>
      match Pg.strip_prefix "http://" s with
      | Some rest => rest
      | None => s
      end
  end.

(** [s.split(c)[0]] for a one-character separator [c]: the text before
    the first [c], the whole text when there is none. *)
Fixpoint before_char (c : ascii) (s : string) : string :=
  match s with
  | EmptyString => EmptyString
  | String a r =>
      if Ascii.eqb a c then EmptyString else String a (before_char c r)
  end.

(** [s.replace(/^\//, '')] *)
Definition strip_slash (s : string) : string :=
  match s with
  | String a r => if Ascii.eqb a "/" then r else s
  | EmptyString => s
  end.

(** [s.trim()], on the ASCII white space (tab, line feed, vertical tab,
    form feed, carriage return, space). *)
Definition is_space (c : ascii) : bool :=
  let n := nat_of_ascii c in ((9 <=? n) && (n <=? 13) || (n =? 32))%nat.

Fixpoint trim_start (s : string) : string :=
  match s with
  | EmptyString => EmptyString
  | String a r => if is_space a then trim_start r else s
  end.

Fixpoint trim_end (s : string) : string :=
  match s with
  | EmptyString => EmptyString
  | String a r =>
      match trim_end r with
      | EmptyString => if is_space a then EmptyString else String a EmptyString
      | t => String a t
      end
  end.

Definition trim (s : string) : string := trim_end (trim_start s).

(** [arr.indexOf(v)] *)
Fixpoint index_of (v : string) (arr : list string) : option nat :=
  match arr with
  | [] => None
  | x :: r => if x =? v then Some 0 else option_map S (index_of v r)
  end.

(** [arr.filter((v, i) => f(v, i))], entered at index [i]. *)
Fixpoint filteri {A : Type} (f : A -> nat -> bool) (i : nat) (l : list A)
  : list A :=
  match l with
  | [] => []
  | x :: r => if f x i then x :: filteri f (S i) r else filteri f (S i) r
  end.

(** [arr.filter((v, i, arr) => arr.indexOf(v) === i)] *)
Definition first_occurrences (arr : list string) : list string :=
  filteri (fun v i =>
             match index_of v arr with
             | Some j => (j =? i)%nat
             | None => false
             end) 0 arr.

End Text.

(** *** The REST helper [listTablesFromOpenApi] *)

(** A response of the project's REST endpoint: [ok], [status],
    [statusText] and the decoded body. *)
Inductive rest_reply (A : Type) : Type :=
| RestFailed (e : exn)
| RestResponse (ok : bool) (status : nat) (statusText : string)
    (json : outcome A).
Arguments RestFailed {A} e.
Arguments RestResponse {A} ok status statusText json.

(** [projectUrl.replace(/^https?:\/\//, '').split('.')[0]]: the URL
    without its scheme, up to the first dot. *)
Definition project_ref (projectUrl : string) : string :=
  Text.before_char "." (Text.strip_scheme projectUrl).

(** The chain of [filter], [map], [filter], [filter] applied to
    [Object.keys(openApi.paths)]. *)
Definition table_names (endpoints : list string) : list string :=
  filter (fun tableName => negb (tableName =? EmptyString))
    (Text.first_occurrences
       (map (fun path => Text.before_char "/" (Text.strip_slash path))
          (filter (fun path =>
                     negb (Js.startsWith path "/rpc/")
                     && Js.startsWith path "/") endpoints))).

(** [reply] is the answer of the endpoint, its body decoded to the keys
    of [openApi.paths] in their order. *)
Definition listTablesFromOpenApi {Store : Type} (projectUrl apiKey : string)
    (reply : rest_reply (list string)) : M Store (list string) :=
  let projectRef := project_ref projectUrl in
  let openApiUrl := "https://" ++ projectRef ++ ".supabase.co/rest/v1/" in
  emit (Net (HttpFetch "GET" openApiUrl ("Bearer " ++ apiKey) None));;;
  match reply with
  | RestFailed e => throw e
  | RestResponse ok status statusText json =>
      if negb ok then
        throw (Error ("Failed to fetch OpenAPI schema: " ++ Js.of_nat status
                      ++ " " ++ statusText))
      else
        endpoints <- settle json;;
        ret (table_names endpoints)
  end.

(** *** The caller: [handleSubmit] of the dashboard page *)

Module Frontend.

(** What the submit handler does with the three form fields: it shows an
    error without calling the server, or posts the body of a run-checks
    request. *)
Inductive submission :=
| Refused (error : string)
| Posted (body : request).

Definition handleSubmit (projectUrl serviceKey dbConnectionString : string)
  : submission :=
  if (Text.trim projectUrl =? EmptyString)
     || (Text.trim serviceKey =? EmptyString) then
    Refused "Project URL and Service Key cannot be empty."
  else if negb (Js.startsWith projectUrl "http://")
          && negb (Js.startsWith projectUrl "https://") then
    Refused "Project URL must start with http:// or https://"
  else
    Posted (mkRequest (Some projectUrl) (Some serviceKey)
              (if Text.trim dbConnectionString =? EmptyString then None
               else Some (Text.trim dbConnectionString))
              None None None None EmptyString).

(** The body [handleFixPitr(projectRef)] posts to [/api/fix-pitr], with
    [projectRef || projectUrl.replace(/^https?:\/\//, '').split('.')[0]]
    as its [projectRef]. *)
Definition handleFixPitr (projectUrl serviceKey : string)
    (projectRef : option string) : request :=
  let ref :=
    match projectRef with
    | Some r => if r =? EmptyString then project_ref projectUrl else r
    | None => project_ref projectUrl
    end in
  mkRequest (Some projectUrl) (Some serviceKey) None None None (Some ref)
    None EmptyString.

End Frontend.

(** ** Predicates used in the further statements *)

(** An effect of a read-only run on the pool of [connectionString]:
    console output, or one of the three SELECT statements. *)
Definition read_only (connectionString : option string) (e : event) : Prop :=
  match e with
  | Console _ => True
  | Net (PgQuery cs text _) =>
      cs = connectionString
      /\ (text = sql_tables \/ text = sql_relrowsecurity \/ text = sql_policies)
  | _ => False
  end.

Definition is_console (e : event) : Prop :=
  match e with
  | Console _ => True
  | _ => False
  end.

(** The character [c] does not occur in [s]. *)
Fixpoint lacks (c : ascii) (s : string) : Prop :=
  match s with
  | EmptyString => True
  | String a r => a <> c /\ lacks c r
  end.

(** The redirect target of the password-reset mail. *)
Definition reset_redirect (projectUrl : string) : string :=
  projectUrl ++ "/auth/reset-password?mfa_setup=true".

(** The prompt sent to the chat completion. *)
Definition user_prompt (req : request) (question : string) : string :=
  "Context:" ++ nl ++ context req ++ nl ++ nl ++ "Prompt:" ++ nl ++ question.


(** Both queries of the access-control check on [table] are answered. *)
Definition table_answers {Store} (env : Env Store) (s : Store)
    (connectionString : option string) (table : string) : Prop :=
  (exists rows, select_relrowsecurity env s connectionString table = Ok rows)
  /\ (exists policies,
        select_policies env s connectionString table = Ok policies).

(** The queries of the check on [table] end with [e]: the flag query
    raises it, or the flag query is answered and the policy query raises
    it. *)
Definition table_fails {Store} (env : Env Store) (s : Store)
    (connectionString : option string) (table : string) (e : exn) : Prop :=
  select_relrowsecurity env s connectionString table = Throw e
  \/ ((exists rows,
         select_relrowsecurity env s connectionString table = Ok rows)
      /\ select_policies env s connectionString table = Throw e).

(** An effect that changes nothing outside the server: console and
    evidence output, closing a pool, listing the users, one of the three
    SELECT statements on the pool of [connectionString], or the GET of
    the project list. *)
Definition inspects (connectionString : option string) (e : event) : Prop :=
  match e with
  | Net (AuthListUsers _ _) => True
  | Net (PgQuery cs text _) =>
      cs = connectionString
      /\ (text = sql_tables \/ text = sql_relrowsecurity \/ text = sql_policies)
  | Net (HttpFetch method url _ body) =>
      method = "GET" /\ url = "https://api.supabase.com/v1/projects"
      /\ body = None
  | Net _ => False
  | _ => True
  end.

(** The address the MFA fix mails: the e-mail of the user found, when
    the lookup gives one without error and it is not empty. *)
Definition mail_address {Store} (env : Env Store) (url key uid : string)
  : option string :=
  match getUserById env url key uid with
  | Resolved (Some u) None =>
      match user_email u with
      | Some (String c r) => Some (String c r)
      | _ => None
      end
  | _ => None
  end.

(** Policy rows whose command is one of the four counted kinds. *)
Definition recognised (p : policy_row) : bool :=
  counted "SELECT" p || counted "INSERT" p || counted "UPDATE" p
  || counted "DELETE" p.

(** ** Further sample environments *)

Module Variants.

(** The sample environment with the policy view unreadable for the
    table [notes]. *)
Definition env_policies_down : Env Pg.db :=
  {| SUPABASE_PAT := SUPABASE_PAT Scenario.env;
     clock := clock Scenario.env;
     listUsers := listUsers Scenario.env;
     getUserById := getUserById Scenario.env;
     resetPasswordForEmail := resetPasswordForEmail Scenario.env;
     select_tables := select_tables Scenario.env;
     select_relrowsecurity := select_relrowsecurity Scenario.env;
     select_policies := fun d cs t =>
       if t =? "notes" then Throw (Error "permission denied for view pg_policies")
       else select_policies Scenario.env d cs t;
     command := command Scenario.env;
     get_projects := get_projects Scenario.env;
     get_project := get_project Scenario.env;
     patch_addons := patch_addons Scenario.env;
     chat := chat Scenario.env
  |}.

(** A project without addons, and the environment whose management API
    lists it. *)
Definition bare : project := mkProject "bare" "xyz" None.

Definition env_bare : Env Pg.db :=
  Pg.environment Scenario.dsn (Some "sbp_token")
    (Resolved (Some [Scenario.alice; Scenario.carol]) None)
    (Response true 200 EmptyString (Ok [Scenario.shop; bare])).

Definition req_bare : request :=
  mkRequest (Some "https://xyz.supabase.co") (Some "service-role-key")
    (Some Scenario.dsn) (Some "notes") (Some "u3") (Some "xyz")
    (Some "How do I enable PITR?") "{}".

(** A store in which two schemas have a table [objects]: the one of the
    public schema has no policy, the one of [storage] has one. *)
Definition store_shared : Pg.db :=
  Pg.mkDb
    [Pg.mkClass "public" "objects" false;
     Pg.mkClass "storage" "objects" true]
    [mkPolicy "storage" "objects" "owner_read" (Some "SELECT") (Some "true")
       None].

Definition req_objects : request :=
  mkRequest (Some "https://abc.supabase.co") (Some "service-role-key")
    (Some Scenario.dsn) (Some "objects") (Some "u1") (Some "abc")
    (Some "How do I enable RLS?") "{}".

(** The auth server refuses the listing with HTTP 403: the client
    resolves with an [AuthApiError] whose message is the server's. *)
Definition not_admin : exn :=
  mkExn "AuthApiError" "User not allowed" (Some "not_admin")
    ("{" ++ dq ++ "__isAuthError" ++ dq ++ ":true," ++ dq ++ "name" ++ dq
     ++ ":" ++ dq ++ "AuthApiError" ++ dq ++ "," ++ dq ++ "status" ++ dq
     ++ ":403," ++ dq ++ "code" ++ dq ++ ":" ++ dq ++ "not_admin" ++ dq
     ++ "}").

Definition env_not_admin : Env Pg.db :=
  Pg.environment Scenario.dsn (Some "sbp_token")
    (Resolved (Some []) (Some not_admin))
    (Response true 200 EmptyString (Ok [Scenario.shop])).

End Variants.

(** * Properties *)

(** ** The MFA check *)

Lemma map_users_spec users : forall all,
  map_users users all =
  (map mfa_entry users,
   all && forallb (fun u => flag_truthy (mfa_enabled (mfa_entry u))) users).
Proof.
  induction users as [|u rest IH]; intros all; cbn [map_users map forallb].
  - now rewrite andb_true_r.
  - rewrite IH. f_equal.
    destruct (flag_truthy (mfa_enabled (mfa_entry u))); simpl; auto.
    now destruct all.
Qed.

Lemma mfa_entry_enabled u :
  mfa_enabled (mfa_entry u) = Some true <->
  exists factors f,
    user_factors u = Some factors /\ In f factors
    /\ factor_status f = "verified".
Proof.
  unfold mfa_entry; simpl. destruct (user_factors u) as [factors|].
  - split.
    + intros H. injection H as H. apply existsb_exists in H.
      destruct H as [f [Hin Hf]]. exists factors, f.
      repeat split; auto. now apply String.eqb_eq.
    + intros [fs [f [Hfs [Hin Hf]]]]. injection Hfs as <-.
      f_equal. apply existsb_exists. exists f. split; auto.
      now apply String.eqb_eq.
  - split; [discriminate|]. intros [fs [f [Hfs _]]]. discriminate.
Qed.

Lemma flag_truthy_true v : flag_truthy v = true <-> v = Some true.
Proof. destruct v as [[|]|]; simpl; split; congruence. Qed.

Lemma all_enabled_forallb users :
  forallb (fun u => flag_truthy (mfa_enabled (mfa_entry u))) users = true <->
  forall e, In e (map mfa_entry users) -> mfa_enabled e = Some true.
Proof.
  rewrite forallb_forall. split.
  - intros H e He. apply in_map_iff in He. destruct He as [u [<- Hu]].
    apply flag_truthy_true. auto.
  - intros H u Hu. apply flag_truthy_true, H, in_map, Hu.
Qed.

(** C1.  The MFA check returns a record whose status is PASSING exactly
    when its user list is non-empty and every entry has [mfa_enabled]
    true, and FAILING exactly when the list is non-empty and some entry
    has not; an entry's [mfa_enabled] is true exactly when one of the
    user's factors has status "verified".  When the listing returns its
    users (no error), the entries are the listed users in order, and an
    empty list gives N/A with the message "No users found in the
    project.". *)
Theorem mfa_overall_status :
  forall Store (env : Env Store) (supabase : string * string)
         (displayUrl : string) (s : Store),
    exists r tr,
      runMFACheck env supabase displayUrl s = (Ok r, tr, s)
      /\ (mfa_overallStatus r = PASSING <->
            mfa_users r <> []
            /\ forall e, In e (mfa_users r) -> mfa_enabled e = Some true)
      /\ (mfa_overallStatus r = FAILING <->
            mfa_users r <> []
            /\ ~ forall e, In e (mfa_users r) -> mfa_enabled e = Some true)
      /\ (forall u, mfa_enabled (mfa_entry u) = Some true <->
            exists factors f,
              user_factors u = Some factors /\ In f factors
              /\ factor_status f = "verified")
      /\ (forall data,
            listUsers env (fst supabase) (snd supabase) = Resolved data None ->
            mfa_users r = map mfa_entry (listed data)
            /\ (listed data = [] ->
                  mfa_overallStatus r = NA
                  /\ mfa_message r = Some "No users found in the project.")).
Proof.
  intros Store env supabase displayUrl s.
  unfold runMFACheck, try_catch, bind, logEvidence, emit, ret, throw.
  destruct (listUsers env (fst supabase) (snd supabase))
    as [data [e|]|e] eqn:Hlist.
  - eexists; eexists. split; [reflexivity|]. cbn.
    split; [split; [discriminate|intros [H _]; congruence]|].
    split; [split; [discriminate|intros [H _]; congruence]|].
    split; [apply mfa_entry_enabled|]. intros d H. discriminate H.
  - destruct data as [[|u rest]|].
    + eexists; eexists. split; [reflexivity|]. cbn.
      split; [split; [discriminate|intros [H _]; congruence]|].
      split; [split; [discriminate|intros [H _]; congruence]|].
      split; [apply mfa_entry_enabled|].
      intros d [= <-]. cbn. now repeat split.
    + rewrite map_users_spec, andb_true_l.
      pose proof (all_enabled_forallb (u :: rest)) as Hall.
      destruct (forallb _ (u :: rest)) eqn:E;
        (eexists; eexists; split; [reflexivity|]);
        cbn [mfa_users mfa_overallStatus mfa_message].
      * split; [split; [|reflexivity]|].
        { intros _. split; [discriminate|]. now apply Hall. }
        split; [split; [discriminate|]|].
        { intros [_ Hn]. exfalso. apply Hn. now apply Hall. }
        split; [apply mfa_entry_enabled|].
        intros d [= <-]. split; [reflexivity|]. discriminate.
      * split; [split; [discriminate|]|].
        { intros [_ H]. apply Hall in H. congruence. }
        split; [split; [|reflexivity]|].
        { intros _. split; [discriminate|]. intros H. apply Hall in H.
          congruence. }
        split; [apply mfa_entry_enabled|].
        intros d [= <-]. split; [reflexivity|]. discriminate.
    + eexists; eexists. split; [reflexivity|]. cbn.
      split; [split; [discriminate|intros [H _]; congruence]|].
      split; [split; [discriminate|intros [H _]; congruence]|].
      split; [apply mfa_entry_enabled|].
      intros d [= <-]. cbn. now repeat split.
  - eexists; eexists. split; [reflexivity|]. cbn.
    split; [split; [discriminate|intros [H _]; congruence]|].
    split; [split; [discriminate|intros [H _]; congruence]|].
    split; [apply mfa_entry_enabled|]. intros d H. discriminate H.
Qed.

(** The theorem on the sample project: one user without a verified
    factor and one without factors make the status FAILING. *)
Lemma mfa_overall_status_witness :
  exists r tr,
    runMFACheck Scenario.env ("https://abc.supabase.co", "service-role-key")
      "https://abc.supabase.co" Scenario.store
    = (Ok r, tr, Scenario.store)
    /\ map mfa_enabled (mfa_users r) = [Some true; Some false; None]
    /\ mfa_overallStatus r = FAILING.
Proof.
  destruct (mfa_overall_status Pg.db Scenario.env
              ("https://abc.supabase.co", "service-role-key")
              "https://abc.supabase.co" Scenario.store)
    as (r & tr & Hrun & _ & Hfail & _ & Hlist).
  destruct (Hlist (Some [Scenario.alice; Scenario.bob; Scenario.carol])
              eq_refl) as [Husers _].
  exists r, tr. split; [exact Hrun|]. split.
  - rewrite Husers. reflexivity.
  - apply Hfail. rewrite Husers. split; [discriminate|].
    intros H. specialize (H (mfa_entry Scenario.carol)).
    assert (Hin : In (mfa_entry Scenario.carol)
                    (map mfa_entry
                       [Scenario.alice; Scenario.bob; Scenario.carol]))
      by (right; right; left; reflexivity).
    specialize (H Hin). discriminate H.
Defined.

(** ** Totality of the checks *)

Section Checks.
Variable Store : Type.
Variable env : Env Store.

Lemma runMFACheck_total supabase displayUrl s :
  exists r tr,
    runMFACheck env supabase displayUrl s = (Ok r, tr, s)
    /\ forall e,
         (listUsers env (fst supabase) (snd supabase) = Rejected e
          \/ exists d, listUsers env (fst supabase) (snd supabase)
                       = Resolved d (Some e)) ->
         mfa_overallStatus r = ERROR /\ mfa_error r = Some (reported e).
Proof.
  unfold runMFACheck, try_catch, bind, logEvidence, emit, ret, throw.
  destruct (listUsers env (fst supabase) (snd supabase))
    as [d [e|]|e] eqn:H.
  - eexists; eexists. split; [reflexivity|].
    intros e' [H'|[d' H']]; inversion H'; subst. now split.
  - destruct d as [[|u rest]|].
    + eexists; eexists. split; [reflexivity|].
      intros e' [H'|[d' H']]; discriminate.
    + destruct (map_users (u :: rest) true) as [entries all].
      eexists; eexists. split; [reflexivity|].
      intros e' [H'|[d' H']]; discriminate.
    + eexists; eexists. split; [reflexivity|].
      intros e' [H'|[d' H']]; discriminate.
  - eexists; eexists. split; [reflexivity|].
    intros e' [H'|[d' H']]; inversion H'; subst. now split.
Qed.

Lemma map_projects_spec projects (s : Store) :
  exists tr, map_projects projects s = (Ok (map pitr_entry projects), tr, s).
Proof.
  induction projects as [|p rest [tr IH]]; cbn [map_projects map].
  - now exists [].
  - unfold bind, emit, ret. rewrite IH. eexists. reflexivity.
Qed.

Lemma runPITR_total displayUrl s :
  exists r tr,
    runPITR env displayUrl s = (Ok r, tr, s)
    /\ forall token,
         SUPABASE_PAT env = Some token -> token <> EmptyString ->
         (forall e, get_projects env token = FetchFailed e ->
                    pitr_status r = ERROR /\ pitr_message r = emessage e)
         /\ (forall code text json,
               get_projects env token = Response false code text json ->
               pitr_status r = ERROR
               /\ pitr_message r
                  = "Failed to fetch projects: " ++ Js.of_nat code ++ " "
                    ++ text)
         /\ (forall code text e,
               get_projects env token = Response true code text (Throw e) ->
               pitr_status r = ERROR /\ pitr_message r = emessage e).
Proof.
  unfold runPITR, try_catch.
  destruct (SUPABASE_PAT env) as [token|] eqn:Htok.
  - destruct (String.eqb_spec token EmptyString) as [->|Hne].
    + eexists; eexists. split; [reflexivity|].
      intros t [= <-] Ht. congruence.
    + unfold fetch, bind at 1, bind at 1, emit at 1.
      destruct (get_projects env token) as [e|ok code text json] eqn:Hget.
      * eexists; eexists. split; [reflexivity|].
        intros t [= <-] _. rewrite Hget.
        repeat split; intros; try discriminate; inversion H; subst; reflexivity.
      * unfold ret at 1. destruct ok; cbn [negb].
        -- unfold bind at 1, settle.
           destruct json as [projects|e].
           ++ unfold ret at 1, bind at 1.
              destruct (map_projects_spec projects s) as [tr ->].
              destruct (existsb _ (map pitr_entry projects));
                (eexists; eexists; split; [reflexivity|];
                 intros t [= <-] _; rewrite Hget;
                 repeat split; intros; discriminate).
           ++ eexists; eexists. split; [reflexivity|].
              intros t [= <-] _. rewrite Hget.
              repeat split; intros; try discriminate; inversion H; subst; reflexivity.
        -- eexists; eexists. split; [reflexivity|].
           intros t [= <-] _. rewrite Hget.
           repeat split; intros; try discriminate; inversion H; subst; reflexivity.
  - eexists; eexists. split; [reflexivity|]. intros t; discriminate.
Qed.
End Checks.

(** ** The access-control check *)

Lemma bump_counts c p :
  SELECT (bump c p) = SELECT c + (if counted "SELECT" p then 1 else 0)
  /\ INSERT (bump c p) = INSERT c + (if counted "INSERT" p then 1 else 0)
  /\ UPDATE (bump c p) = UPDATE c + (if counted "UPDATE" p then 1 else 0)
  /\ DELETE (bump c p) = DELETE c + (if counted "DELETE" p then 1 else 0).
Proof.
  unfold bump, counted. destruct (cmd p) as [k|]; [|cbn; lia]. cbv zeta.
  generalize (Js.toUpperCase k) as u; intros u.
  destruct (String.eqb_spec u "SELECT") as [->|H1]; [cbn; lia|].
  destruct (String.eqb_spec u "INSERT") as [->|H2]; [cbn; lia|].
  destruct (String.eqb_spec u "UPDATE") as [->|H3]; [cbn; lia|].
  destruct (String.eqb_spec u "DELETE") as [->|H4]; cbn; lia.
Qed.

Lemma bump_dropped c p :
  counted "SELECT" p = false -> counted "INSERT" p = false ->
  counted "UPDATE" p = false -> counted "DELETE" p = false ->
  bump c p = c.
Proof.
  unfold bump, counted. destruct (cmd p) as [k|]; [|reflexivity]. cbv zeta.
  now intros -> -> -> ->.
Qed.

Lemma fold_bump_counts ps : forall c,
  let r := fold_left bump ps c in
  SELECT r = SELECT c + length (filter (counted "SELECT") ps)
  /\ INSERT r = INSERT c + length (filter (counted "INSERT") ps)
  /\ UPDATE r = UPDATE c + length (filter (counted "UPDATE") ps)
  /\ DELETE r = DELETE c + length (filter (counted "DELETE") ps).
Proof.
  induction ps as [|p ps IH]; intros c; cbn [fold_left filter].
  - cbn. lia.
  - specialize (IH (bump c p)). cbv zeta in IH.
    destruct IH as (I1 & I2 & I3 & I4).
    destruct (bump_counts c p) as (B1 & B2 & B3 & B4).
    cbv zeta. rewrite I1, I2, I3, I4, B1, B2, B3, B4.
    destruct (counted "SELECT" p), (counted "INSERT" p),
      (counted "UPDATE" p), (counted "DELETE" p); cbn [length]; lia.
Qed.

Lemma tally_counts ps :
  tally ps = mkCounts (length (filter (counted "SELECT") ps))
                      (length (filter (counted "INSERT") ps))
                      (length (filter (counted "UPDATE") ps))
                      (length (filter (counted "DELETE") ps)).
Proof.
  destruct (fold_bump_counts ps (mkCounts 0 0 0 0)) as (A & B & C & D).
  unfold tally. destruct (fold_left bump ps (mkCounts 0 0 0 0)).
  cbn in *. congruence.
Qed.

Section RlsCheck.
Variable Store : Type.
Variable env : Env Store.
Variable cs : option string.

Lemma rls_table_cases table s :
  (exists entry tr rows,
      rls_table env cs table s = (Ok entry, tr, s)
      /\ entry_ok entry /\ rt_name entry = table
      /\ select_relrowsecurity env s cs table = Ok rows
      /\ select_policies env s cs table = Ok (current_policies entry))
  \/ (exists e tr,
        rls_table env cs table s = (Throw e, tr, s)
        /\ (select_relrowsecurity env s cs table = Throw e
            \/ select_policies env s cs table = Throw e)).
Proof.
  unfold rls_table, bind, pool_select, emit, ret.
  destruct (select_relrowsecurity env s cs table) as [rows|e] eqn:Hr.
  - destruct (select_policies env s cs table) as [ps|e] eqn:Hp.
    + left. eexists; eexists; exists rows. split; [reflexivity|].
      unfold entry_ok; cbn. repeat split.
    + right. exists e. eexists. split; [reflexivity|]. now right.
  - right. exists e. eexists. split; [reflexivity|]. now left.
Qed.

(** Invariant of the loop: the entries pushed are well formed; a run
    to completion visits every name and folds the flags; an early exit
    carries the exception of a query on one of the names. *)
Lemma rls_loop_spec names : forall tables all s,
  exists tables' all' failure tr new,
    rls_loop env cs names tables all s = (Ok (tables', all', failure), tr, s)
    /\ tables' = (tables ++ new)%list
    /\ Forall entry_ok new
    /\ (failure = None ->
          all' = all && forallb rls_enabled new
          /\ map rt_name new = names
          /\ forall table e, In table names ->
               select_relrowsecurity env s cs table <> Throw e
               /\ select_policies env s cs table <> Throw e)
    /\ (forall e, failure = Some e ->
          exists table, In table names
            /\ (select_relrowsecurity env s cs table = Throw e
                \/ select_policies env s cs table = Throw e)).
Proof.
  induction names as [|table rest IH]; intros tables all s.
  - exists tables, all, None, [], []. cbn.
    rewrite app_nil_r, andb_true_r. repeat split; auto; try discriminate;
      contradiction.
  - cbn [rls_loop]. unfold bind at 1. unfold try_catch, bind at 1.
    destruct (rls_table_cases table s)
      as [(entry & tr & rows & Hrun & Hok & Hname & Hrows & Hps)
         | (e & tr & Hrun & He)];
      rewrite Hrun; unfold ret at 1.
    + destruct (IH (tables ++ [entry])%list
                  (if rls_enabled entry then all else false) s)
        as (tables' & all' & failure & tr' & new
            & Hloop & Ht & Hnew & Hnone & Hsome).
      rewrite Hloop.
      exists tables', all', failure. eexists. exists (entry :: new).
      split; [reflexivity|]. split; [now rewrite Ht, <- app_assoc|].
      split; [now constructor|]. split.
      * intros Hf. destruct (Hnone Hf) as (Ha & Hn & Hq). split; [|split].
        -- rewrite Ha. cbn [forallb].
           destruct (rls_enabled entry), all; reflexivity.
        -- cbn [map]. now rewrite Hname, Hn.
        -- intros t e [<-|Hin]; [|now apply Hq].
           rewrite Hrows, Hps. split; discriminate.
      * intros e He. destruct (Hsome e He) as (t & Hin & Ht').
        exists t. split; [now right|assumption].
    + exists tables, all, (Some e). eexists. exists [].
      split; [reflexivity|]. rewrite app_nil_r. split; [reflexivity|].
      split; [constructor|]. split; [discriminate|].
      intros e' [= <-]. exists table. split; [now left|assumption].
Qed.

(** The three ways the check ends. *)
Lemma runRLSCheck_cases s :
  exists r tr,
    runRLSCheck env cs s
    = (Ok r,
       Console [LStr "[RLS][PG] Starting direct Postgres RLS check..."]
       :: Net (PgQuery cs sql_tables []) :: tr, s)
    /\ Forall entry_ok (rls_tables r)
    /\ ((select_tables env s cs = Ok []
         /\ r = mkRls "Row Level Security (RLS)" NA [] None
                  (Some "No tables found in public schema."))
        \/ (exists names,
              names <> []
              /\ select_tables env s cs = Ok names
              /\ map rt_name (rls_tables r) = names
              /\ rls_overallStatus r
                 = (if forallb rls_enabled (rls_tables r)
                    then PASSING else FAILING)
              /\ rls_error r = None
              /\ forall e, ~ query_fails env s cs e)
        \/ (exists e,
              query_fails env s cs e
              /\ rls_overallStatus r = ERROR
              /\ rls_error r = Some (emessage e))).
Proof.
  unfold runRLSCheck, bind at 1, emit at 1, try_catch, bind at 1, pool_select.
  destruct (select_tables env s cs) as [[|table rest]|e] eqn:Hsel.
  - eexists; eexists. split; [reflexivity|]. split; [constructor|].
    left. now split.
  - unfold bind at 1, emit at 1, bind at 1.
    destruct (rls_loop_spec (table :: rest) [] true s)
      as (tables' & all' & [e|] & tr & new
          & Hloop & Ht & Hnew & Hnone & Hsome);
      rewrite Hloop; cbn [app] in Ht; subst tables'.
    + eexists; eexists. split; [reflexivity|]. split; [exact Hnew|].
      right; right. exists e. split; [|now split].
      destruct (Hsome e eq_refl) as (t & Hin & Hq).
      right. exists (table :: rest), t. now repeat split.
    + destruct (Hnone eq_refl) as (Hall & Hnames & Hq).
      cbn [andb] in Hall. subst all'.
      eexists; eexists. split; [reflexivity|]. split; [exact Hnew|].
      right; left. exists (table :: rest).
      split; [discriminate|]. split; [reflexivity|].
      split; [exact Hnames|]. split; [reflexivity|]. split; [reflexivity|].
      intros e [Hf|(names & t & Hn & Hin & Hf)];
        [rewrite Hsel in Hf; discriminate|].
      rewrite Hsel in Hn. injection Hn as <-.
      destruct (Hq t e Hin) as [H1 H2].
      destruct Hf; contradiction.
  - eexists; eexists. split; [reflexivity|]. split; [constructor|].
    right; right. exists e. split; [now left|now split].
Qed.
(** What an entry holds is what the store answered for its table. *)
Lemma rls_table_reads table s entry tr s' :
  rls_table env cs table s = (Ok entry, tr, s') ->
  entry_reads env s cs entry.
Proof.
  unfold rls_table, bind, pool_select, emit, ret, entry_reads.
  destruct (select_relrowsecurity env s cs table) as [rows|e] eqn:Hr;
    [|discriminate].
  destruct (select_policies env s cs table) as [ps|e] eqn:Hp;
    [|discriminate].
  intros [= <- _ _]. cbn. exists rows. rewrite Hr, Hp.
  split; [reflexivity|]. split; [|reflexivity].
  now destruct rows as [|[|] rest].
Qed.

Lemma rls_loop_reads names : forall tables all s res tr s',
  rls_loop env cs names tables all s = (Ok res, tr, s') ->
  Forall (entry_reads env s cs) tables ->
  Forall (entry_reads env s cs) (fst (fst res)).
Proof.
  induction names as [|table rest IH]; intros tables all s res tr s'.
  - cbn. intros [= <- _ _] H. exact H.
  - cbn [rls_loop]. unfold bind at 1. unfold try_catch, bind at 1.
    destruct (rls_table_cases table s)
      as [(entry & tr1 & rows & Hrun & _) | (e & tr1 & Hrun & _)];
      rewrite Hrun; unfold ret at 1.
    + destruct (rls_loop env cs rest (tables ++ [entry])%list
                  (if rls_enabled entry then all else false) s)
        as [[[res1|e1] tr2] s2] eqn:Hloop; [|discriminate].
      intros [= <- _ _] Htables.
      apply (IH _ _ _ _ _ _ Hloop). apply Forall_app. split; [exact Htables|].
      constructor; [|constructor]. exact (rls_table_reads _ _ _ _ _ Hrun).
    + intros [= <- _ _] Htables. exact Htables.
Qed.

Lemma runRLSCheck_reads s r tr s' :
  runRLSCheck env cs s = (Ok r, tr, s') ->
  Forall (entry_reads env s cs) (rls_tables r).
Proof.
  unfold runRLSCheck, bind at 1, emit at 1, try_catch, bind at 1, pool_select.
  destruct (select_tables env s cs) as [[|table rest]|e] eqn:Hsel.
  - intros [= <- _ _]. constructor.
  - unfold bind at 1, emit at 1, bind at 1.
    destruct (rls_loop_spec (table :: rest) [] true s)
      as (tables' & all' & failure & tr0 & new & Hloop & _).
    pose proof (rls_loop_reads _ _ _ _ _ _ _ Hloop (Forall_nil _)) as Hreads.
    rewrite Hloop. cbn [fst] in Hreads.
    destruct failure as [e|]; intros [= <- _ _]; exact Hreads.
  - intros [= <- _ _]. constructor.
Qed.
End RlsCheck.

(** C2.  The access-control check always returns a record.  It is an
    ERROR record exactly when one of its queries fails.  Its status is
    PASSING exactly when the store enumerates at least one table and, for
    every enumerated table, both queries are answered and the first row
    of the flag query has the flag set.  When the store enumerates no
    table, the record is the N/A record with the explanatory message.
    Every listed entry holds what the store answered for its table: its
    flag is the flag of the first row of the flag query, its policies are
    the rows of the policy query; it carries the hint exactly when its
    flag is false, and its four counters count the policy rows whose
    upper-cased command is SELECT, INSERT, UPDATE or DELETE; a row of any
    other command kind leaves the counters as they are.  On a record
    that is not an ERROR record, the status is PASSING exactly when at
    least one table is listed and every listed table has its flag set,
    and the listed tables are the ones the store enumerates. *)
Theorem rls_overall_status :
  forall Store (env : Env Store) (connectionString : option string) (s : Store),
  exists r tr,
    runRLSCheck env connectionString s = (Ok r, tr, s)
    /\ (rls_overallStatus r <> ERROR ->
          (rls_overallStatus r = PASSING <->
             rls_tables r <> []
             /\ forall t, In t (rls_tables r) -> rls_enabled t = true)
          /\ (rls_tables r = [] ->
                rls_overallStatus r = NA
                /\ rls_message r = Some "No tables found in public schema.")
          /\ select_tables env s connectionString
             = Ok (map rt_name (rls_tables r)))
    /\ (select_tables env s connectionString = Ok [] ->
          rls_tables r = []
          /\ rls_overallStatus r = NA
          /\ rls_message r = Some "No tables found in public schema.")
    /\ (forall t, In t (rls_tables r) ->
          recommendation t
          = (if rls_enabled t then None
             else Some "Enable RLS for this table to restrict access.")
          /\ policy_counts t
             = mkCounts
                 (length (filter (counted "SELECT") (current_policies t)))
                 (length (filter (counted "INSERT") (current_policies t)))
                 (length (filter (counted "UPDATE") (current_policies t)))
                 (length (filter (counted "DELETE") (current_policies t))))
    /\ (forall counts p,
          counted "SELECT" p = false -> counted "INSERT" p = false ->
          counted "UPDATE" p = false -> counted "DELETE" p = false ->
          bump counts p = counts)
    /\ (rls_overallStatus r = ERROR <->
          exists e, query_fails env s connectionString e)
    /\ (forall t, In t (rls_tables r) ->
          exists rows,
            select_relrowsecurity env s connectionString (rt_name t) = Ok rows
            /\ rls_enabled t = first_flag rows
            /\ select_policies env s connectionString (rt_name t)
               = Ok (current_policies t))
    /\ (rls_overallStatus r = PASSING <->
          exists names,
            select_tables env s connectionString = Ok names
            /\ names <> []
            /\ forall table, In table names ->
                 exists rows policies,
                   select_relrowsecurity env s connectionString table
                   = Ok rows
                   /\ first_flag rows = true
                   /\ select_policies env s connectionString table
                      = Ok policies).
Proof.
  intros Store env cs s.
  destruct (runRLSCheck_cases Store env cs s)
    as (r & tr & Hrun & Hentries & Hcases).
  pose proof (runRLSCheck_reads Store env cs s r _ s Hrun) as Hreads.
  rewrite Forall_forall in Hreads.
  assert (Hnone : select_tables env s cs = Ok [] ->
                  forall e, ~ query_fails env s cs e).
  { intros Hzero e [H|(names & t & Hn & Hin & _)].
    - rewrite Hzero in H. discriminate.
    - rewrite Hzero in Hn. injection Hn as <-. contradiction. }
  exists r. eexists. split; [exact Hrun|].
  split; [|split; [|split; [|split; [|split; [|split]]]]].
  - intros Hne.
    destruct Hcases as [[Hsel ->]
                       | [(names & Hnn & Hsel & Hnames & Hst & _ & _)
                         | (e & _ & Hst & _)]].
    + cbn. repeat split; try discriminate; try assumption.
      intros [H _]. congruence.
    + rewrite Hst, Hsel, Hnames.
      split; [|split; [|reflexivity]].
      * destruct (forallb rls_enabled (rls_tables r)) eqn:E.
        -- split; [|reflexivity]. intros _. split.
           ++ intros H0. rewrite H0 in Hnames. cbn in Hnames. congruence.
           ++ now apply forallb_forall.
        -- split; [discriminate|]. intros [_ H].
           apply forallb_forall in H. congruence.
      * intros H0. rewrite H0 in Hnames. cbn in Hnames. congruence.
    + contradiction.
  - intros Hzero.
    destruct Hcases as [[_ ->]
                       | [(names & Hnn & Hsel & _)
                         | (e & Hq & _)]].
    + now repeat split.
    + rewrite Hsel in Hzero. congruence.
    + exfalso. exact (Hnone Hzero e Hq).
  - intros t Ht. rewrite Forall_forall in Hentries.
    destruct (Hentries t Ht) as [Hc Hr]. split; [exact Hr|].
    rewrite Hc. apply tally_counts.
  - intros counts p. apply bump_dropped.
  - destruct Hcases as [[Hsel ->]
                       | [(names & _ & _ & _ & Hst & _ & Hno)
                         | (e & Hq & Hst & _)]].
    + cbn. split; [discriminate|]. intros [e He].
      exfalso. exact (Hnone Hsel e He).
    + rewrite Hst. split.
      * destruct (forallb rls_enabled (rls_tables r)); discriminate.
      * intros [e He]. exfalso. exact (Hno e He).
    + split; [intros _; now exists e|intros _; exact Hst].
  - exact Hreads.
  - destruct Hcases as [[Hsel ->]
                       | [(names & Hnn & Hsel & Hnames & Hst & _ & Hno)
                         | (e & Hq & Hst & _)]].
    + cbn. split; [discriminate|].
      intros (names & Hn & Hne & _). rewrite Hsel in Hn. congruence.
    + rewrite Hst. split.
      * intros Hpass. exists names. split; [exact Hsel|]. split; [exact Hnn|].
        intros table Hin. rewrite <- Hnames in Hin.
        apply in_map_iff in Hin. destruct Hin as (t & <- & Ht).
        destruct (Hreads t Ht) as (rows & Hrows & Hflag & Hpol).
        exists rows, (current_policies t).
        split; [exact Hrows|]. split; [|exact Hpol].
        rewrite <- Hflag.
        destruct (forallb rls_enabled (rls_tables r)) eqn:E;
          [|discriminate Hpass].
        rewrite forallb_forall in E. now apply E.
      * intros (names' & Hn & _ & Hall).
        rewrite Hsel in Hn. injection Hn as <-.
        assert (E : forallb rls_enabled (rls_tables r) = true).
        { apply forallb_forall. intros t Ht.
          destruct (Hreads t Ht) as (rows & Hrows & Hflag & _).
          destruct (Hall (rt_name t)) as (rows' & ps & Hrows' & Hset & _).
          { rewrite <- Hnames. now apply in_map. }
          rewrite Hrows in Hrows'. injection Hrows' as <-.
          now rewrite Hflag. }
        now rewrite E.
    + rewrite Hst. split; [discriminate|].
      intros (names & Hn & _ & Hall). exfalso.
      destruct Hq as [H|(names' & t & Hn' & Hin & Hf)].
      * rewrite Hn in H. discriminate.
      * rewrite Hn in Hn'. injection Hn' as <-.
        destruct (Hall t Hin) as (rows & ps & Hrows & _ & Hps).
        destruct Hf as [Hf|Hf]; [rewrite Hrows in Hf|rewrite Hps in Hf];
          discriminate.
Qed.

(** The theorem on the sample project: the flags are those of the
    store, lower-case [select] is counted, [ALL] is not. *)
Lemma rls_overall_status_witness :
  exists r tr,
    runRLSCheck Scenario.env (Some Scenario.dsn) Scenario.store
    = (Ok r, tr, Scenario.store)
    /\ rls_overallStatus r = FAILING
    /\ map rt_name (rls_tables r) = ["orders"; "notes"; "items"]
    /\ map rls_enabled (rls_tables r) = [false; false; true]
    /\ map policy_counts (rls_tables r)
       = [mkCounts 2 0 0 0; mkCounts 0 0 0 0; mkCounts 0 1 0 0].
Proof.
  destruct (rls_overall_status Pg.db Scenario.env (Some Scenario.dsn)
              Scenario.store) as (r & tr & Hrun & _).
  exists r, tr. split; [exact Hrun|].
  assert (E : fst (fst (runRLSCheck Scenario.env (Some Scenario.dsn)
                          Scenario.store)) = Ok r) by now rewrite Hrun.
  vm_compute in E. injection E as <-. repeat split.
Defined.

(** ** Facts on the string primitives *)

Lemma append_empty_r (s : string) : s ++ EmptyString = s.
Proof. induction s as [|c s IH]; cbn; [reflexivity|now rewrite IH]. Qed.

Lemma append_assoc_string (a b c : string) : (a ++ b) ++ c = a ++ b ++ c.
Proof. induction a as [|x a IH]; cbn; [reflexivity|now rewrite IH]. Qed.

Lemma substring_whole_prefix (x b : string) :
  String.substring 0 (String.length x) (x ++ b) = x.
Proof. induction x as [|c x IH]; cbn; [now destruct b|now rewrite IH]. Qed.

Lemma substring_skip (a s : string) n :
  String.substring (String.length a) n (a ++ s) = String.substring 0 n s.
Proof. induction a as [|c a IH]; cbn; [reflexivity|exact IH]. Qed.

Lemma substring_is_occurrence (x : string) : forall m s,
  String.substring m (String.length x) s = x -> occurs x s.
Proof.
  induction m as [|m IH]; intros s H.
  - exists EmptyString. cbn.
    revert s H. induction x as [|c x IHx]; intros s H.
    + now exists s.
    + destruct s as [|d s]; [discriminate|]. cbn in H.
      injection H as -> H. destruct (IHx s H) as [b Hb].
      exists b. cbn. now rewrite <- Hb.
  - destruct s as [|d s].
    + cbn in H. subst x. now exists EmptyString, EmptyString.
    + cbn in H. destruct (IH s H) as (a & b & ->).
      now exists (String d a), b.
Qed.

(** [includes] finds a non-empty text exactly when it occurs. *)
Lemma includes_occurs (s sub : string) :
  sub <> EmptyString -> (Js.includes s sub = true <-> occurs sub s).
Proof.
  intros Hne. unfold Js.includes, Js.indexOf.
  destruct (String.index 0 sub s) as [m|] eqn:E.
  - split; [|reflexivity]. intros _.
    apply String.index_correct1 in E. now apply substring_is_occurrence in E.
  - split; [discriminate|]. intros (a & b & ->). exfalso.
    apply (String.index_correct3 0 (String.length a) sub _ E Hne);
      [lia|].
    rewrite substring_skip. apply substring_whole_prefix.
Qed.

Lemma map_string_length f s :
  String.length (Js.map_string f s) = String.length s.
Proof. induction s as [|c s IH]; cbn; [reflexivity|now rewrite IH]. Qed.

Lemma lower_upper_char c :
  Js.lower_char (Js.upper_char c) = Js.lower_char c.
Proof. destruct c as [[] [] [] [] [] [] [] []]; reflexivity. Qed.

Lemma lower_lower_char c :
  Js.lower_char (Js.lower_char c) = Js.lower_char c.
Proof. destruct c as [[] [] [] [] [] [] [] []]; reflexivity. Qed.

Lemma toLowerCase_toUpperCase s :
  Js.toLowerCase (Js.toUpperCase s) = Js.toLowerCase s.
Proof.
  unfold Js.toLowerCase, Js.toUpperCase.
  induction s as [|c s IH]; cbn [Js.map_string]; [reflexivity|].
  now rewrite lower_upper_char, IH.
Qed.

Lemma toLowerCase_idempotent s :
  Js.toLowerCase (Js.toLowerCase s) = Js.toLowerCase s.
Proof.
  unfold Js.toLowerCase.
  induction s as [|c s IH]; cbn [Js.map_string]; [reflexivity|].
  now rewrite lower_lower_char, IH.
Qed.

Lemma map_string_empty f s :
  (Js.map_string f s =? EmptyString) = (s =? EmptyString).
Proof. now destruct s. Qed.

(** ** The run-checks handler *)

Lemma getSupabaseClient_ok Store url key (s : Store) :
  url <> EmptyString -> key <> EmptyString ->
  Js.startsWith url "http://" = true \/ Js.startsWith url "https://" = true ->
  getSupabaseClient (Some url) (Some key) s = (Ok (url, key), [], s).
Proof.
  intros Hu Hk Hs. unfold getSupabaseClient.
  apply String.eqb_neq in Hu, Hk. rewrite Hu, Hk. cbn [orb].
  destruct Hs as [-> | ->]; cbn [negb andb]; try reflexivity.
  now rewrite andb_false_r.
Qed.

Lemma getSupabaseClient_scheme Store url key (s : Store) :
  url <> EmptyString -> key <> EmptyString ->
  Js.startsWith url "http://" = false -> Js.startsWith url "https://" = false ->
  getSupabaseClient (Some url) (Some key) s
  = (Throw (Error "Invalid Supabase project URL format. It should start with http:// or https://"), [], s).
Proof.
  intros Hu Hk H1 H2. unfold getSupabaseClient.
  apply String.eqb_neq in Hu, Hk. rewrite Hu, Hk, H1, H2. reflexivity.
Qed.

Lemma occurs_middle a sub b : occurs sub (a ++ sub ++ b).
Proof. now exists a, b. Qed.

(** Shape of a successful run of the three checks. *)
Lemma run_checks_report Store (env : Env Store) req s url key :
  projectUrl req = Some url -> serviceKey req = Some key ->
  url <> EmptyString -> key <> EmptyString ->
  Js.startsWith url "http://" = true \/ Js.startsWith url "https://" = true ->
  forall mfa tm rls tl pitr tp,
    runMFACheck env (url, key) (display_url url) s = (Ok mfa, tm, s) ->
    runRLSCheck env (dbConnectionString req) s = (Ok rls, tl, s) ->
    runPITR env (display_url url) s = (Ok pitr, tp, s) ->
    run_checks env req s
    = (Ok (Some (mkResponse 200 (BReport mfa rls pitr))),
       Evidence "INFO"
         ("Initiating compliance checks for project: " ++ display_url url) []
       :: Console [LStr url; LStr key] :: (tm ++ tl ++ tp ++ [])%list, s).
Proof.
  intros Hurl Hkey Hu Hk Hs mfa tm rls tl pitr tp Hm Hl Hp.
  unfold run_checks. rewrite Hurl, Hkey.
  rewrite (proj2 (String.eqb_neq _ _) Hu), (proj2 (String.eqb_neq _ _) Hk).
  cbn [orb]. unfold try_catch, bind, logEvidence, emit.
  rewrite (getSupabaseClient_ok Store url key s Hu Hk Hs), Hm, Hl, Hp.
  reflexivity.
Qed.

(** C3 (as amended).  Once the checks are started (the request has
    passed credential validation), the run-checks response has status
    200 and carries all three result records, each being what its own
    check returns; no check raises, so a failure in one check does not
    keep the other two from completing.  A failure inside a check is
    turned into that check's record, marked ERROR and carrying the
    failure's message: for MFA the message of the rejected or failed
    user listing, as the upstream error words it (its JSON text when it
    has no message); for access control the message of a failed query;
    for recovery the message of a failed request or of an undecodable
    body, and for an unsuccessful HTTP status a message that contains the
    status code. *)
Theorem run_checks_fault_isolation :
  forall Store (env : Env Store) (req : request) (s : Store)
         (url key : string),
    projectUrl req = Some url -> serviceKey req = Some key ->
    url <> EmptyString -> key <> EmptyString ->
    Js.startsWith url "http://" = true \/ Js.startsWith url "https://" = true ->
    exists mfa rls pitr tr tm tl tp,
      run_checks env req s
      = (Ok (Some (mkResponse 200 (BReport mfa rls pitr))), tr, s)
      /\ runMFACheck env (url, key) (display_url url) s = (Ok mfa, tm, s)
      /\ runRLSCheck env (dbConnectionString req) s = (Ok rls, tl, s)
      /\ runPITR env (display_url url) s = (Ok pitr, tp, s)
      /\ (forall e,
            listUsers env url key = Rejected e
            \/ (exists d, listUsers env url key = Resolved d (Some e)) ->
            mfa_overallStatus mfa = ERROR
            /\ mfa_error mfa = Some (reported e))
      /\ (forall e,
            query_fails env s (dbConnectionString req) e ->
            rls_overallStatus rls = ERROR
            /\ exists e', query_fails env s (dbConnectionString req) e'
                          /\ rls_error rls = Some (emessage e'))
      /\ (forall token,
            SUPABASE_PAT env = Some token -> token <> EmptyString ->
            (forall e, get_projects env token = FetchFailed e ->
                       pitr_status pitr = ERROR
                       /\ pitr_message pitr = emessage e)
            /\ (forall code text json,
                  get_projects env token = Response false code text json ->
                  pitr_status pitr = ERROR
                  /\ pitr_message pitr
                     = "Failed to fetch projects: " ++ Js.of_nat code ++ " "
                       ++ text
                  /\ occurs (Js.of_nat code) (pitr_message pitr))
            /\ (forall code text e,
                  get_projects env token = Response true code text (Throw e) ->
                  pitr_status pitr = ERROR
                  /\ pitr_message pitr = emessage e)).
Proof.
  intros Store env req s url key Hurl Hkey Hu Hk Hs.
  destruct (runMFACheck_total Store env (url, key) (display_url url) s)
    as (mfa & tm & Hm & Hmfa).
  destruct (runRLSCheck_cases Store env (dbConnectionString req) s)
    as (rls & tl & Hl & _ & Hrls).
  destruct (runPITR_total Store env (display_url url) s)
    as (pitr & tp & Hp & Hpitr).
  exists mfa, rls, pitr. eexists. exists tm. eexists. exists tp.
  split; [exact (run_checks_report Store env req s url key Hurl Hkey Hu Hk Hs
                   mfa tm rls _ pitr tp Hm Hl Hp)|].
  split; [exact Hm|]. split; [exact Hl|]. split; [exact Hp|].
  split; [exact Hmfa|]. split.
  - intros e He.
    destruct Hrls as [[Hsel _] | [(names & _ & _ & _ & _ & _ & Hno)
                                 | (e' & Hq & Hst & Herr)]].
    + exfalso. destruct He as [H|(names & t & Hn & Hin & _)].
      * rewrite Hsel in H. discriminate.
      * rewrite Hsel in Hn. injection Hn as <-. contradiction.
    + exfalso. exact (Hno e He).
    + split; [exact Hst|]. now exists e'.
  - intros token Htok Hne.
    destruct (Hpitr token Htok Hne) as (H1 & H2 & H3).
    split; [exact H1|]. split; [|exact H3].
    intros code text json Hget. destruct (H2 code text json Hget) as [Hst Hmsg].
    split; [exact Hst|]. split; [exact Hmsg|].
    rewrite Hmsg. apply occurs_middle.
Qed.

(** The theorem on the sample project, the management API answering
    403 and no connection string being supplied. *)
Lemma run_checks_fault_isolation_witness :
  projectUrl Scenario.req_without_dsn = Some "https://abc.supabase.co"
  /\ serviceKey Scenario.req_without_dsn = Some "service-role-key"
  /\ "https://abc.supabase.co" <> EmptyString
  /\ "service-role-key" <> EmptyString
  /\ (Js.startsWith "https://abc.supabase.co" "http://" = true
      \/ Js.startsWith "https://abc.supabase.co" "https://" = true)
  /\ exists mfa rls pitr tr,
       run_checks Scenario.env_forbidden Scenario.req_without_dsn
         Scenario.store
       = (Ok (Some (mkResponse 200 (BReport mfa rls pitr))), tr,
          Scenario.store)
       /\ pitr_status pitr = ERROR
       /\ occurs "403" (pitr_message pitr).
Proof.
  assert (H1 : projectUrl Scenario.req_without_dsn
               = Some "https://abc.supabase.co") by reflexivity.
  assert (H2 : serviceKey Scenario.req_without_dsn = Some "service-role-key")
    by reflexivity.
  assert (H3 : "https://abc.supabase.co" <> EmptyString) by discriminate.
  assert (H4 : "service-role-key" <> EmptyString) by discriminate.
  assert (H5 : Js.startsWith "https://abc.supabase.co" "http://" = true
               \/ Js.startsWith "https://abc.supabase.co" "https://" = true)
    by (right; reflexivity).
  do 5 (split; [assumption|]).
  destruct (run_checks_fault_isolation Pg.db Scenario.env_forbidden
              Scenario.req_without_dsn Scenario.store
              "https://abc.supabase.co" "service-role-key" H1 H2 H3 H4 H5)
    as (mfa & rls & pitr & tr & tm & tl & tp & Hrun & _ & _ & _ & _ & _ & Hp).
  exists mfa, rls, pitr, tr. split; [exact Hrun|].
  assert (Ht : "sbp_token" <> EmptyString) by discriminate.
  destruct (Hp "sbp_token" eq_refl Ht) as (_ & H403 & _).
  destruct (H403 403 "Forbidden" (Throw (Error "Unexpected end of JSON input"))
              eq_refl) as (Hst & _ & Hocc).
  split; [exact Hst|exact Hocc].
Defined.

(** ** The handlers on any [projectUrl] *)

(** On a [projectUrl] that is a string or missing, the handlers on any
    JSON value are the handlers on strings. *)
Section AnyString.
Variable Store : Type.
Variable env : Env Store.
Variable req : request.
Variable s : Store.

Lemma with_projectUrl_same : with_projectUrl req (projectUrl req) = req.
Proof. now destruct req. Qed.

Lemma run_checks_any_string o :
  run_checks_any env (of_option o) req s
  = run_checks env (with_projectUrl req o) s.
Proof.
  unfold run_checks_any, run_checks.
  cbn [projectUrl serviceKey dbConnectionString with_projectUrl].
  destruct o as [[|c u]|], (serviceKey req) as [[|c' k]|]; reflexivity.
Qed.

Lemma fix_rls_any_string o :
  fix_rls_any env (of_option o) req s
  = fix_rls env (with_projectUrl req o) s.
Proof.
  unfold fix_rls_any, fix_rls.
  cbn [projectUrl serviceKey dbConnectionString tableName with_projectUrl].
  destruct o as [[|c u]|], (serviceKey req) as [[|c' k]|],
    (tableName req) as [[|c2 t]|]; reflexivity.
Qed.

Lemma fix_mfa_any_string o :
  fix_mfa_any env (of_option o) req s
  = fix_mfa env (with_projectUrl req o) s.
Proof.
  unfold fix_mfa_any, fix_mfa.
  cbn [projectUrl serviceKey userId with_projectUrl].
  destruct o as [[|c u]|], (serviceKey req) as [[|c' k]|],
    (userId req) as [[|c2 i]|]; try reflexivity.
  cbn [of_option js_display js_truthy negb orb String.eqb].
  unfold try_catch, bind at 1, bind at 1.
  unfold getSupabaseClient_any, getSupabaseClient.
  cbn [js_truthy Js.truthy negb orb String.eqb].
  destruct (negb (Js.startsWith (String c u) "http://")
            && negb (Js.startsWith (String c u) "https://")); reflexivity.
Qed.

Lemma fix_pitr_any_string o :
  fix_pitr_any env (of_option o) req s
  = fix_pitr env (with_projectUrl req o) s.
Proof.
  unfold fix_pitr_any, fix_pitr.
  cbn [projectUrl serviceKey projectRef with_projectUrl].
  destruct o as [[|c u]|], (serviceKey req) as [[|c' k]|],
    (projectRef req) as [[|c2 r]|]; reflexivity.
Qed.

Lemma ai_assist_any_string o :
  ai_assist_any env (of_option o) req s
  = ai_assist env (with_projectUrl req o) s.
Proof.
  unfold ai_assist_any, ai_assist.
  cbn [projectUrl serviceKey issue context with_projectUrl].
  destruct o as [[|c u]|], (serviceKey req) as [[|c' k]|],
    (issue req) as [[|c2 q]|]; reflexivity.
Qed.

End AnyString.

(** When the display expression raises. *)
Lemma js_display_raises v :
  (exists e, js_display v = Throw e) <-> display_raises v.
Proof.
  destruct v as [| |b|t z|u|items|members]; cbn;
    try (split; [intros _; exact I|intros _; eexists; reflexivity]).
  - split; [intros [e H]; discriminate H|intros []].
  - destruct (array_includes items "supabase.co").
    + split; [reflexivity|intros _; eexists; reflexivity].
    + split; [intros [e H]; discriminate H|discriminate].
Qed.

Lemma js_display_guarded_raises v :
  (exists e, js_display_guarded v = Throw e)
  <-> js_truthy v = true /\ display_raises v.
Proof.
  unfold js_display_guarded. destruct (js_truthy v).
  - rewrite js_display_raises. tauto.
  - split; [intros [e H]; discriminate H|intros [H _]; discriminate H].
Qed.

(** ** Traces and credential validation *)

Section MonadFacts.
Variable Store : Type.

Lemma begins_bind {A B} (m : M Store A) (k : A -> M Store B) s e :
  begins_with e (m s) -> begins_with e (bind m k s).
Proof.
  unfold begins_with, bind. destruct (m s) as [[[a|x] tr] s']; cbn.
  - intros [t ->]. destruct (k a s') as [[r' tr'] s'']. cbn. now eexists.
  - auto.
Qed.

Lemma begins_try {A} (m : M Store A) h s e :
  begins_with e (m s) -> begins_with e (try_catch m h s).
Proof.
  unfold begins_with, try_catch. destruct (m s) as [[[a|x] tr] s']; cbn.
  - auto.
  - intros [t ->]. destruct (h x s') as [[r' tr'] s'']. cbn. now eexists.
Qed.
End MonadFacts.

Section Validation.
Variable Store : Type.
Variable env : Env Store.
Variable req : request.
Variable s : Store.

Lemma run_checks_missing :
  missing_credentials req ->
  run_checks env req s
  = (Ok (Some (mkResponse 400
           (BError "Supabase Project URL and Service Key are required."))),
     [Evidence "ERROR" "Missing Supabase credentials for check execution." []],
     s).
Proof.
  unfold missing_credentials, run_checks.
  destruct (projectUrl req) as [[|c u]|], (serviceKey req) as [[|c' k]|];
    cbn [Js.truthy String.eqb negb orb];
    intros [H|H]; try discriminate; reflexivity.
Qed.

Lemma fix_rls_missing :
  missing_credentials req ->
  exists msg tr,
    fix_rls env req s = (Ok (Some (mkResponse 400 (BError msg))), tr, s)
    /\ network_calls tr = [].
Proof.
  unfold missing_credentials, fix_rls.
  destruct (tableName req) as [[|c t]|];
    try (intros _; eexists; eexists; split; reflexivity).
  cbn [String.eqb].
  destruct (projectUrl req) as [[|c1 u]|], (serviceKey req) as [[|c2 k]|];
    cbn [Js.truthy String.eqb negb orb];
    intros [H|H]; try discriminate;
    eexists; eexists; split; reflexivity.
Qed.

Lemma ai_assist_missing :
  missing_credentials req ->
  ai_assist env req s
  = (Ok (Some (mkResponse 400
           (BError "Project URL, Service Key, and Issue description are required."))),
     [Evidence "ERROR" "Missing parameters for AI assistance." []], s).
Proof.
  unfold missing_credentials, ai_assist.
  destruct (issue req) as [[|c q]|]; try (intros _; reflexivity).
  destruct (projectUrl req) as [[|c1 u]|], (serviceKey req) as [[|c2 k]|];
    cbn [Js.truthy String.eqb negb orb];
    intros [H|H]; try discriminate; reflexivity.
Qed.

Lemma fix_mfa_missing :
  missing_credentials req -> projectUrl req <> None ->
  fix_mfa env req s
  = (Ok (Some (mkResponse 400
           (BError "Project URL, Service Key, and User ID are required."))),
     [Evidence "ERROR" "Missing parameters for MFA fix." []], s).
Proof.
  unfold missing_credentials, fix_mfa.
  destruct (projectUrl req) as [[|c1 u]|]; [| |congruence];
    destruct (serviceKey req) as [[|c2 k]|], (userId req) as [[|c3 i]|];
    cbn [Js.truthy String.eqb negb orb];
    intros [H|H] _; try discriminate; reflexivity.
Qed.

Lemma fix_pitr_missing :
  missing_credentials req -> projectUrl req <> None ->
  fix_pitr env req s
  = (Ok (Some (mkResponse 400
           (BError "Project URL, Service Key, and Project Ref are required."))),
     [Evidence "ERROR" "Missing parameters for PITR fix." []], s).
Proof.
  unfold missing_credentials, fix_pitr.
  destruct (projectUrl req) as [[|c1 u]|]; [| |congruence];
    destruct (serviceKey req) as [[|c2 k]|], (projectRef req) as [[|c3 i]|];
    cbn [Js.truthy String.eqb negb orb];
    intros [H|H] _; try discriminate; reflexivity.
Qed.

Variables url key : string.
Hypothesis Hurl : projectUrl req = Some url.
Hypothesis Hkey : serviceKey req = Some key.
Hypothesis Hu : url <> EmptyString.
Hypothesis Hk : key <> EmptyString.

Lemma run_checks_scheme :
  Js.startsWith url "http://" = false ->
  Js.startsWith url "https://" = false ->
  run_checks env req s
  = (Ok (Some (mkResponse 500
           (BError "Failed to connect to Supabase or run checks: Invalid Supabase project URL format. It should start with http:// or https://"))),
     [Evidence "INFO"
        ("Initiating compliance checks for project: " ++ display_url url) [];
      Console [LStr url; LStr key];
      Evidence "CRITICAL"
        "Critical error during Supabase client initialization or main check execution."
        [("error", LStr "Invalid Supabase project URL format. It should start with http:// or https://")]],
     s).
Proof.
  intros H1 H2. unfold run_checks. rewrite Hurl, Hkey.
  rewrite (proj2 (String.eqb_neq _ _) Hu), (proj2 (String.eqb_neq _ _) Hk).
  cbn [orb]. unfold try_catch, bind, logEvidence, emit.
  rewrite (getSupabaseClient_scheme Store url key s Hu Hk H1 H2).
  reflexivity.
Qed.

Lemma fix_mfa_scheme uid :
  userId req = Some uid -> uid <> EmptyString ->
  Js.startsWith url "http://" = false ->
  Js.startsWith url "https://" = false ->
  fix_mfa env req s
  = (Ok (Some (mkResponse 500
           (BError ("Failed to enable MFA for user " ++ uid
                    ++ ": Invalid Supabase project URL format. It should start with http:// or https://")))),
     [], s).
Proof.
  intros Hid Hi H1 H2. unfold fix_mfa. rewrite Hurl, Hkey, Hid.
  rewrite (proj2 (String.eqb_neq _ _) Hu), (proj2 (String.eqb_neq _ _) Hk),
    (proj2 (String.eqb_neq _ _) Hi).
  cbn [orb]. unfold try_catch, bind.
  rewrite (getSupabaseClient_scheme Store url key s Hu Hk H1 H2).
  reflexivity.
Qed.

Lemma truthy_credentials :
  negb (Js.truthy (projectUrl req)) || negb (Js.truthy (serviceKey req))
  = false.
Proof.
  rewrite Hurl, Hkey. cbn.
  now rewrite (proj2 (String.eqb_neq _ _) Hu), (proj2 (String.eqb_neq _ _) Hk).
Qed.

Lemma fix_rls_first table :
  tableName req = Some table -> table <> EmptyString ->
  begins_with
    (Net (PgQuery (dbConnectionString req) (sql_enable_rls table) []))
    (fix_rls env req s).
Proof.
  intros Ht Hne. unfold fix_rls. rewrite Ht.
  rewrite (proj2 (String.eqb_neq _ _) Hne), truthy_credentials.
  apply begins_try, begins_bind. unfold pool_command, begins_with.
  destruct (command env s (dbConnectionString req) (sql_enable_rls table)).
  now eexists.
Qed.

Lemma fix_pitr_first ref token :
  projectRef req = Some ref -> ref <> EmptyString ->
  SUPABASE_PAT env = Some token -> token <> EmptyString ->
  begins_with
    (Net (HttpFetch "GET" ("https://api.supabase.com/v1/projects/" ++ ref)
            ("Bearer " ++ token) None))
    (fix_pitr env req s).
Proof.
  intros Hr Hne Htok Htne. unfold fix_pitr. rewrite Hurl, Hkey, Hr, Htok.
  rewrite (proj2 (String.eqb_neq _ _) Hu), (proj2 (String.eqb_neq _ _) Hk),
    (proj2 (String.eqb_neq _ _) Hne).
  cbn [orb Js.truthy]. rewrite (proj2 (String.eqb_neq _ _) Htne). cbn [negb].
  apply begins_try, begins_bind. unfold fetch. apply begins_bind.
  now eexists.
Qed.

Lemma ai_assist_first question :
  issue req = Some question -> question <> EmptyString ->
  begins_with
    (Net (ChatCompletion system_prompt
            ("Context:" ++ nl ++ context req ++ nl ++ nl ++ "Prompt:" ++ nl
             ++ question)))
    (ai_assist env req s).
Proof.
  intros Hq Hne. unfold ai_assist. rewrite Hq.
  destruct question as [|c q]; [congruence|].
  rewrite truthy_credentials.
  apply begins_try, begins_bind. now eexists.
Qed.
End Validation.

(** C3, counterexample.  Three places where the claim as stated fails.
    The auth server refusing the user listing with HTTP 403: the MFA
    record is an ERROR record whose error is the upstream message, which
    does not contain 403 (the other two checks complete).  The recovery
    record: it has no member [overallStatus] and no member [error]; its
    members are [status] and [message].  A request without a service
    key: it is answered with status 400 and an error body, the response
    carries no result record. *)
Lemma fault_records_as_stated :
  (exists mfa rls pitr tr,
     run_checks Variants.env_not_admin Scenario.req Scenario.store
     = (Ok (Some (mkResponse 200 (BReport mfa rls pitr))), tr, Scenario.store)
     /\ listUsers Variants.env_not_admin "https://abc.supabase.co"
          "service-role-key"
        = Resolved (Some []) (Some Variants.not_admin)
     /\ occurs "403" (ejson Variants.not_admin)
     /\ mfa_overallStatus mfa = ERROR
     /\ mfa_error mfa = Some "User not allowed"
     /\ ~ occurs "403" "User not allowed"
     /\ rls_overallStatus rls = FAILING
     /\ pitr_status pitr = PASSING)
  /\ (~ In "overallStatus" pitr_members /\ ~ In "error" pitr_members
      /\ In "status" pitr_members /\ In "message" pitr_members)
  /\ (fst (fst (run_checks Scenario.env Scenario.req_without_key
                  Scenario.store))
      = Ok (Some (mkResponse 400
              (BError "Supabase Project URL and Service Key are required.")))
      /\ ~ exists code mfa rls pitr,
             fst (fst (run_checks Scenario.env Scenario.req_without_key
                         Scenario.store))
             = Ok (Some (mkResponse code (BReport mfa rls pitr)))).
Proof.
  split; [|split].
  - set (run := run_checks Variants.env_not_admin Scenario.req Scenario.store).
    assert (E : exists mfa rls pitr,
               fst (fst run)
               = Ok (Some (mkResponse 200 (BReport mfa rls pitr)))
               /\ mfa_overallStatus mfa = ERROR
               /\ mfa_error mfa = Some "User not allowed"
               /\ rls_overallStatus rls = FAILING
               /\ pitr_status pitr = PASSING).
    { vm_compute. eexists; eexists; eexists.
      split; [reflexivity|]. repeat split. }
    destruct E as (mfa & rls & pitr & Hrun & Hm & He & Hr & Hp).
    exists mfa, rls, pitr, (snd (fst run)).
    split.
    { assert (Hs : snd run = Scenario.store) by (vm_compute; reflexivity).
      rewrite <- Hrun, <- Hs. now destruct run as [[r tr] s']. }
    split; [reflexivity|].
    split; [apply includes_occurs; [discriminate|reflexivity]|].
    split; [exact Hm|]. split; [exact He|].
    split; [|split; assumption].
    intros H. apply includes_occurs in H; [|discriminate].
    vm_compute in H. discriminate H.
  - cbn. repeat split; try tauto;
      intros H; repeat (destruct H as [H|H]; [discriminate H|]); exact H.
  - split; [reflexivity|].
    intros (code & mfa & rls & pitr & H). discriminate H.
Qed.

(** C4 (as amended).  For a request whose endpoint is a string or is
    missing (the bodies of type [request]; the last part of the
    statement says that on these the handlers are the handlers on any
    JSON value).  When the endpoint or the admin key is absent or empty,
    run checks, fix access control and the assistant query answer status
    400 with an error message and make no outbound call, and so do fix
    MFA and fix recovery provided the endpoint field is present.  When
    both are present and the endpoint does not begin with http:// or
    https://, run checks and fix MFA answer status 500, the message
    wrapping the validator's, and make no outbound call; fix access
    control, fix recovery and the assistant query do not look at the
    scheme and begin with their first outbound call. *)
Theorem credentials_validation :
  forall Store (env : Env Store) (req : request) (s : Store),
    (missing_credentials req ->
       (exists tr,
          run_checks env req s
          = (Ok (Some (mkResponse 400
                   (BError "Supabase Project URL and Service Key are required."))),
             tr, s)
          /\ network_calls tr = [])
       /\ (exists msg tr,
             fix_rls env req s
             = (Ok (Some (mkResponse 400 (BError msg))), tr, s)
             /\ network_calls tr = [])
       /\ (exists tr,
             ai_assist env req s
             = (Ok (Some (mkResponse 400
                      (BError "Project URL, Service Key, and Issue description are required."))),
                tr, s)
             /\ network_calls tr = [])
       /\ (projectUrl req <> None ->
             (exists tr,
                fix_mfa env req s
                = (Ok (Some (mkResponse 400
                         (BError "Project URL, Service Key, and User ID are required."))),
                   tr, s)
                /\ network_calls tr = [])
             /\ (exists tr,
                   fix_pitr env req s
                   = (Ok (Some (mkResponse 400
                            (BError "Project URL, Service Key, and Project Ref are required."))),
                      tr, s)
                   /\ network_calls tr = [])))
    /\ (forall url key,
          projectUrl req = Some url -> serviceKey req = Some key ->
          url <> EmptyString -> key <> EmptyString ->
          (Js.startsWith url "http://" = false ->
           Js.startsWith url "https://" = false ->
             (exists tr,
                run_checks env req s
                = (Ok (Some (mkResponse 500
                         (BError "Failed to connect to Supabase or run checks: Invalid Supabase project URL format. It should start with http:// or https://"))),
                   tr, s)
                /\ network_calls tr = [])
             /\ (forall uid,
                   userId req = Some uid -> uid <> EmptyString ->
                   exists tr,
                     fix_mfa env req s
                     = (Ok (Some (mkResponse 500
                              (BError ("Failed to enable MFA for user " ++ uid
                                       ++ ": Invalid Supabase project URL format. It should start with http:// or https://")))),
                        tr, s)
                     /\ network_calls tr = []))
          /\ (forall table,
                tableName req = Some table -> table <> EmptyString ->
                begins_with
                  (Net (PgQuery (dbConnectionString req)
                          (sql_enable_rls table) []))
                  (fix_rls env req s))
          /\ (forall ref token,
                projectRef req = Some ref -> ref <> EmptyString ->
                SUPABASE_PAT env = Some token -> token <> EmptyString ->
                begins_with
                  (Net (HttpFetch "GET"
                          ("https://api.supabase.com/v1/projects/" ++ ref)
                          ("Bearer " ++ token) None))
                  (fix_pitr env req s))
          /\ (forall question,
                issue req = Some question -> question <> EmptyString ->
                begins_with
                  (Net (ChatCompletion system_prompt
                          ("Context:" ++ nl ++ context req ++ nl ++ nl
                           ++ "Prompt:" ++ nl ++ question)))
                  (ai_assist env req s)))
    /\ (run_checks_any env (of_option (projectUrl req)) req s
        = run_checks env req s
        /\ fix_rls_any env (of_option (projectUrl req)) req s
           = fix_rls env req s
        /\ fix_mfa_any env (of_option (projectUrl req)) req s
           = fix_mfa env req s
        /\ fix_pitr_any env (of_option (projectUrl req)) req s
           = fix_pitr env req s
        /\ ai_assist_any env (of_option (projectUrl req)) req s
           = ai_assist env req s).
Proof.
  intros Store env req s. split; [|split].
  3:{ pose proof (with_projectUrl_same req) as E.
      rewrite run_checks_any_string, fix_rls_any_string, fix_mfa_any_string,
        fix_pitr_any_string, ai_assist_any_string, E.
      repeat split. }
  - intros Hmiss. split; [|split; [|split]].
    + eexists. split; [apply run_checks_missing, Hmiss|reflexivity].
    + apply fix_rls_missing, Hmiss.
    + eexists. split; [apply ai_assist_missing, Hmiss|reflexivity].
    + intros Hpresent. split.
      * eexists. split; [apply fix_mfa_missing; assumption|reflexivity].
      * eexists. split; [apply fix_pitr_missing; assumption|reflexivity].
  - intros url key Hurl Hkey Hu Hk. split; [|split; [|split]].
    + intros H1 H2. split.
      * eexists. split; [eapply run_checks_scheme; eassumption|reflexivity].
      * intros uid Hid Hne. eexists.
        split; [eapply fix_mfa_scheme; eassumption|reflexivity].
    + intros table. eapply fix_rls_first; eassumption.
    + intros ref token. eapply fix_pitr_first; eassumption.
    + intros question. eapply ai_assist_first; eassumption.
Qed.

(** The theorem on the sample request without a service key. *)
Lemma credentials_validation_witness :
  missing_credentials Scenario.req_without_key
  /\ exists tr,
       run_checks Scenario.env Scenario.req_without_key Scenario.store
       = (Ok (Some (mkResponse 400
                (BError "Supabase Project URL and Service Key are required."))),
          tr, Scenario.store)
       /\ network_calls tr = [].
Proof.
  assert (H : missing_credentials Scenario.req_without_key)
    by (right; reflexivity).
  split; [exact H|].
  exact (proj1 (proj1 (credentials_validation Pg.db Scenario.env
                         Scenario.req_without_key Scenario.store) H)).
Defined.

(** C4, counterexample.  With both credentials present and an endpoint
    that has no http(s) scheme, run checks answers status 500, not 400.
    With an endpoint that is not a string, here the number 123, no
    answer is given at all: fix access control raises on a request that
    has no admin key, and run checks raises on a request that has both
    credentials, before any [try] block is entered. *)
Lemma validation_answers_500_or_raises :
  (Js.startsWith "abc.supabase.co" "http://" = false
   /\ Js.startsWith "abc.supabase.co" "https://" = false
   /\ fst (fst (run_checks Scenario.env Scenario.req_bad_scheme
                  Scenario.store))
      = Ok (Some (mkResponse 500
              (BError "Failed to connect to Supabase or run checks: Invalid Supabase project URL format. It should start with http:// or https://")))
   /\ 500 <> 400)
  /\ (serviceKey Scenario.req_without_key = None
      /\ fix_rls_any Scenario.env (JNum "123" true) Scenario.req_without_key
           Scenario.store
         = (Throw (TypeError "projectUrl.includes is not a function"), [],
            Scenario.store))
  /\ (Js.truthy (serviceKey Scenario.req) = true
      /\ run_checks_any Scenario.env (JNum "123" true) Scenario.req
           Scenario.store
         = (Throw (TypeError "projectUrl.includes is not a function"), [],
            Scenario.store)).
Proof.
  split; [repeat split; try reflexivity; discriminate|].
  split; split; reflexivity.
Qed.

(** C5.  Without a management token the recovery check makes no
    outbound call, but the exception it raises for the missing token is
    caught by its own handler: the record returned has status ERROR and
    the exception's message, not MANUAL_CHECK_REQUIRED. *)
Theorem runPITR_without_token :
  forall Store (env : Env Store) (displayUrl : string) (s : Store),
    Js.truthy (SUPABASE_PAT env) = false ->
    runPITR env displayUrl s
    = (Ok (mkPitr "Point-in-Time Recovery (PITR)" ERROR
             "Management API token (SUPABASE_PAT) is not configured" None),
       [Evidence "ERROR" "PITR check failed"
          [("project", LStr displayUrl);
           ("error",
            LStr "Management API token (SUPABASE_PAT) is not configured")]],
       s).
Proof.
  intros Store env displayUrl s H. unfold runPITR.
  destruct (SUPABASE_PAT env) as [[|c t]|]; [| discriminate H |]; reflexivity.
Qed.

(** The theorem on the sample project without a management token. *)
Lemma runPITR_without_token_witness :
  Js.truthy (SUPABASE_PAT Scenario.env_without_token) = false
  /\ pitr_status
       (match fst (fst (runPITR Scenario.env_without_token
                          "https://abc.supabase.co" Scenario.store)) with
        | Ok r => r
        | Throw _ => mkPitr EmptyString PASSING EmptyString None
        end) = ERROR.
Proof.
  split; [reflexivity|].
  rewrite (runPITR_without_token Pg.db Scenario.env_without_token
             "https://abc.supabase.co" Scenario.store eq_refl).
  reflexivity.
Defined.

(** C6.  A run-checks request without a connection string does not get
    an ERROR record that names the missing input.  The access-control
    check is run all the same, on a pool built without a connection
    string, and its table listing is sent to that pool.  The record is
    then what the driver's defaults give: whenever a query fails, an
    ERROR record whose message is the message of a failed query, as the
    driver words it; when no query fails, a record that is not an ERROR
    record. *)
Theorem runRLSCheck_without_connection_string :
  forall Store (env : Env Store) (req : request) (s : Store)
         (url key : string),
    projectUrl req = Some url -> serviceKey req = Some key ->
    url <> EmptyString -> key <> EmptyString ->
    Js.startsWith url "http://" = true \/ Js.startsWith url "https://" = true ->
    dbConnectionString req = None ->
    exists mfa rls pitr tr tl,
      run_checks env req s
      = (Ok (Some (mkResponse 200 (BReport mfa rls pitr))), tr, s)
      /\ runRLSCheck env None s
         = (Ok rls,
            Console [LStr "[RLS][PG] Starting direct Postgres RLS check..."]
            :: Net (PgQuery None sql_tables []) :: tl, s)
      /\ In (Net (PgQuery None sql_tables [])) tr
      /\ (forall e,
            query_fails env s None e ->
            rls_overallStatus rls = ERROR
            /\ exists e', query_fails env s None e'
                          /\ rls_error rls = Some (emessage e'))
      /\ ((forall e, ~ query_fails env s None e) ->
            rls_overallStatus rls <> ERROR /\ rls_error rls = None).
Proof.
  intros Store env req s url key Hurl Hkey Hu Hk Hs Hnone.
  destruct (runMFACheck_total Store env (url, key) (display_url url) s)
    as (mfa & tm & Hm & _).
  destruct (runRLSCheck_cases Store env None s)
    as (rls & tl & Hl & _ & Hcases).
  destruct (runPITR_total Store env (display_url url) s)
    as (pitr & tp & Hp & _).
  assert (Hl' : runRLSCheck env (dbConnectionString req) s
                = (Ok rls,
                   Console
                     [LStr "[RLS][PG] Starting direct Postgres RLS check..."]
                   :: Net (PgQuery None sql_tables []) :: tl, s))
    by (rewrite Hnone; exact Hl).
  exists mfa, rls, pitr. eexists. exists tl.
  split; [exact (run_checks_report Store env req s url key Hurl Hkey Hu Hk Hs
                   mfa tm rls _ pitr tp Hm Hl' Hp)|].
  split; [exact Hl|]. split.
  { right. right. apply in_or_app. right. right. now left. }
  destruct Hcases as [[Hsel ->]
                     | [(names & _ & _ & _ & Hst & Herr & Hno)
                       | (e' & Hq & Hst & Herr)]].
  - split.
    + intros e He. exfalso. destruct He as [H|(names & t & Hn & Hin & _)].
      * rewrite Hsel in H. discriminate.
      * rewrite Hsel in Hn. injection Hn as <-. contradiction.
    + intros _. split; [discriminate|reflexivity].
  - split.
    + intros e He. exfalso. exact (Hno e He).
    + intros _. split; [|exact Herr]. rewrite Hst.
      destruct (forallb rls_enabled (rls_tables rls)); discriminate.
  - split.
    + intros e He. split; [exact Hst|]. now exists e'.
    + intros Hno. exfalso. exact (Hno e' Hq).
Qed.

(** The theorem on the sample project, whose driver refuses the default
    host: the record's message is the driver's. *)
Lemma runRLSCheck_without_connection_string_witness :
  query_fails Scenario.env Scenario.store None Pg.refused
  /\ exists mfa rls pitr tr,
       run_checks Scenario.env Scenario.req_without_dsn Scenario.store
       = (Ok (Some (mkResponse 200 (BReport mfa rls pitr))), tr,
          Scenario.store)
       /\ rls_overallStatus rls = ERROR
       /\ In (Net (PgQuery None sql_tables [])) tr.
Proof.
  assert (H : query_fails Scenario.env Scenario.store None Pg.refused)
    by (left; reflexivity).
  split; [exact H|].
  assert (Hu : "https://abc.supabase.co" <> EmptyString) by discriminate.
  assert (Hk : "service-role-key" <> EmptyString) by discriminate.
  destruct (runRLSCheck_without_connection_string Pg.db Scenario.env
              Scenario.req_without_dsn Scenario.store
              "https://abc.supabase.co" "service-role-key"
              eq_refl eq_refl Hu Hk (or_intror eq_refl) eq_refl)
    as (mfa & rls & pitr & tr & tl & Hrun & _ & Hin & Hfail & _).
  exists mfa, rls, pitr, tr. split; [exact Hrun|].
  split; [exact (proj1 (Hfail _ H))|exact Hin].
Defined.

(** The same request on two sample environments.  Where the driver's
    defaults reach a data store, the access-control record is a FAILING
    record on that store, not an ERROR record.  Where the default host
    refuses the connection, the record's message is the driver's, the
    one reported for a connection string that is supplied and wrong: it
    does not tell a missing connection string. *)
Lemma run_checks_without_dsn_reports_default_store :
  (exists mfa rls pitr,
     fst (fst (run_checks Scenario.env_local_defaults Scenario.req_without_dsn
                 Scenario.store))
     = Ok (Some (mkResponse 200 (BReport mfa rls pitr)))
     /\ rls_overallStatus rls = FAILING
     /\ rls_error rls = None)
  /\ fst (fst (runRLSCheck Scenario.env None Scenario.store))
     = Ok (mkRls "Row Level Security (RLS)" ERROR []
             (Some "connect ECONNREFUSED 127.0.0.1:5432") None)
  /\ fst (fst (runRLSCheck Scenario.env (Some "postgresql://wrong")
                 Scenario.store))
     = fst (fst (runRLSCheck Scenario.env None Scenario.store)).
Proof.
  split; [|split; reflexivity].
  eexists; eexists; eexists. split; [reflexivity|]. split; reflexivity.
Qed.

(** C8.  When the recovery addon is already present, the recovery fix
    issues the status request and no mutation, logs the "already enabled"
    message, and then answers status 500: the early return reads the
    block-scoped [res] before its initialisation. *)
Theorem fix_pitr_already_enabled :
  forall Store (env : Env Store) (req : request) (s : Store)
         (url key ref token : string) (code : nat) (text : string)
         (p : project) (a : addon),
    projectUrl req = Some url -> serviceKey req = Some key ->
    projectRef req = Some ref ->
    url <> EmptyString -> key <> EmptyString -> ref <> EmptyString ->
    SUPABASE_PAT env = Some token -> token <> EmptyString ->
    get_project env token ref = Response true code text (Ok p) ->
    find_pitr p = Some a ->
    exists tr,
      fix_pitr env req s
      = (Ok (Some (mkResponse 500
               (BError ("Failed to enable PITR for project " ++ ref
                        ++ ": Cannot access 'res' before initialization")))),
         tr, s)
      /\ network_calls tr
         = [Net (HttpFetch "GET"
                   ("https://api.supabase.com/v1/projects/" ++ ref)
                   ("Bearer " ++ token) None)]
      /\ In (Evidence "INFO"
               ("PITR is already enabled for project: " ++ ref ++ ".")
               [("project", LStr (display_url url)); ("projectRef", LStr ref)])
            tr.
Proof.
  intros Store env req s url key ref token code text p a
    Hurl Hkey Href Hu Hk Hr Htok Ht Hget Hfind.
  unfold fix_pitr. rewrite Hurl, Hkey, Href, Htok.
  rewrite (proj2 (String.eqb_neq _ _) Hu), (proj2 (String.eqb_neq _ _) Hk),
    (proj2 (String.eqb_neq _ _) Hr).
  cbn [orb Js.truthy]. rewrite (proj2 (String.eqb_neq _ _) Ht). cbn [negb].
  unfold try_catch, fetch, bind, emit, settle, logEvidence, ret, throw.
  rewrite Hget. cbn [negb]. rewrite Hfind.
  eexists. split; [reflexivity|]. split; [reflexivity|].
  cbn. right. left. reflexivity.
Qed.

(** The theorem on the sample project, whose addon has type [PITR_7]. *)
Lemma fix_pitr_already_enabled_witness :
  status
    (match fst (fst (fix_pitr Scenario.env Scenario.req Scenario.store)) with
     | Ok (Some r) => r
     | _ => mkResponse 0 (BError EmptyString)
     end) = 500.
Proof.
  assert (Hu : "https://abc.supabase.co" <> EmptyString) by discriminate.
  assert (Hk : "service-role-key" <> EmptyString) by discriminate.
  assert (Hr : "abc" <> EmptyString) by discriminate.
  assert (Ht : "sbp_token" <> EmptyString) by discriminate.
  destruct (fix_pitr_already_enabled Pg.db Scenario.env Scenario.req
              Scenario.store "https://abc.supabase.co" "service-role-key"
              "abc" "sbp_token" 200 EmptyString Scenario.shop
              (mkAddon (Some "PITR_7") (Some "active") None)
              eq_refl eq_refl eq_refl Hu Hk Hr eq_refl Ht eq_refl eq_refl)
    as (tr & Hrun & _).
  rewrite Hrun. reflexivity.
Defined.

(** C9.  Every run-checks request that carries both credentials prints
    the endpoint and the service key on the console. *)
Theorem run_checks_logs_service_key :
  forall Store (env : Env Store) (req : request) (s : Store)
         (url key : string),
    projectUrl req = Some url -> serviceKey req = Some key ->
    url <> EmptyString -> key <> EmptyString ->
    In (Console [LStr url; LStr key]) (trace_of (run_checks env req s)).
Proof.
  intros Store env req s url key Hurl Hkey Hu Hk.
  unfold run_checks. rewrite Hurl, Hkey.
  rewrite (proj2 (String.eqb_neq _ _) Hu), (proj2 (String.eqb_neq _ _) Hk).
  cbn [orb]. unfold trace_of, bind at 1, logEvidence, emit at 1.
  match goal with
  | |- context [try_catch ?m ?h s] =>
      assert (Hb : begins_with (Console [LStr url; LStr key])
                     (try_catch m h s))
        by (apply begins_try, begins_bind; now eexists);
      destruct Hb as [tr Hb];
      destruct (try_catch m h s) as [[r tr'] s']
  end.
  cbn in Hb |- *. subst tr'. right. left. reflexivity.
Qed.

(** The theorem on the sample request. *)
Lemma run_checks_logs_service_key_witness :
  In (Console [LStr "https://abc.supabase.co"; LStr "service-role-key"])
     (trace_of (run_checks Scenario.env Scenario.req Scenario.store)).
Proof.
  assert (Hu : "https://abc.supabase.co" <> EmptyString) by discriminate.
  assert (Hk : "service-role-key" <> EmptyString) by discriminate.
  exact (run_checks_logs_service_key Pg.db Scenario.env Scenario.req
           Scenario.store "https://abc.supabase.co" "service-role-key"
           eq_refl eq_refl Hu Hk).
Defined.

(** ** Facts on strings and on the statement parser *)

Lemma length_append (a b : string) :
  String.length (a ++ b) = String.length a + String.length b.
Proof. induction a as [|x a IH]; cbn; [reflexivity|now rewrite IH]. Qed.

Lemma strip_prefix_append p s : Pg.strip_prefix p (p ++ s) = Some s.
Proof.
  induction p as [|a p IH]; cbn; [reflexivity|].
  now rewrite Ascii.eqb_refl.
Qed.

(** A name without quote characters, followed by a quote and by text
    that does not begin with a quote, is read back as it is. *)
Lemma quoted_ident_plain t c rest :
  Pg.quotes t = 0 -> Pg.is_dq c = false ->
  Pg.quoted_ident (t ++ dq ++ String c rest) = Some (t, String c rest).
Proof.
  intros Hq Hc. induction t as [|x t IH].
  - cbn. now rewrite Hc.
  - cbn in Hq. cbn [append Pg.quoted_ident].
    destruct (Pg.is_dq x); [discriminate|]. cbn in Hq.
    now rewrite (IH Hq).
Qed.

(** What the lexer consumes: the identifier, one more character for
    each quote in it, and the closing quote. *)
Lemma quoted_ident_length n : forall s id rest,
  String.length s <= n ->
  Pg.quoted_ident s = Some (id, rest) ->
  String.length s
  = String.length id + Pg.quotes id + 1 + String.length rest.
Proof.
  induction n as [|n IH]; intros s id rest Hlen H.
  - destruct s; [discriminate|cbn in Hlen; lia].
  - destruct s as [|c r]; [discriminate|]. cbn in Hlen.
    cbn [Pg.quoted_ident] in H. destruct (Pg.is_dq c) eqn:Hc.
    + destruct r as [|c' r'].
      * injection H as <- <-. reflexivity.
      * destruct (Pg.is_dq c') eqn:Hc'.
        -- destruct (Pg.quoted_ident r') as [[id' rest']|] eqn:Hr;
             [|discriminate].
           injection H as <- <-. cbn in Hlen.
           assert (Hl : String.length r' <= n) by lia.
           pose proof (IH r' id' rest' Hl Hr) as E.
           cbn. rewrite Hc. lia.
        -- injection H as <- <-. cbn. lia.
    + destruct (Pg.quoted_ident r) as [[id' rest']|] eqn:Hr; [|discriminate].
      injection H as <- <-.
      assert (Hl : String.length r <= n) by lia.
      pose proof (IH r id' rest' Hl Hr) as E.
      cbn. rewrite Hc. lia.
Qed.

Lemma quoted_ident_same t tail rest :
  Pg.quoted_ident (t ++ dq ++ tail) = Some (t, rest) ->
  String.length rest = String.length tail ->
  Pg.quotes t = 0.
Proof.
  intros H Hl.
  pose proof (quoted_ident_length _ _ _ _ (Nat.le_refl _) H) as E.
  rewrite !length_append in E. cbn in E. lia.
Qed.

Lemma parse_enable table :
  Pg.parse (sql_enable_rls table) = Some (Pg.EnableRls table)
  <-> Pg.quotes table = 0.
Proof.
  unfold Pg.parse, sql_enable_rls. rewrite strip_prefix_append.
  change alter_suffix with (dq ++ " ENABLE ROW LEVEL SECURITY;").
  split.
  - destruct (Pg.quoted_ident _) as [[t tail]|] eqn:H; [|discriminate].
    destruct (String.eqb_spec tail " ENABLE ROW LEVEL SECURITY;") as [->|];
      [|discriminate].
    intros [= ->]. now apply quoted_ident_same in H.
  - intros Hq. rewrite quoted_ident_plain by (auto; reflexivity).
    reflexivity.
Qed.

Lemma parse_placeholder table :
  Pg.parse (sql_placeholder table) = Some (Pg.CreatePlaceholder table)
  <-> Pg.quotes table = 0.
Proof.
  unfold Pg.parse, sql_placeholder.
  replace (Pg.strip_prefix alter_prefix (create_prefix ++ table ++ create_suffix))
    with (@None string) by reflexivity.
  rewrite strip_prefix_append.
  change create_suffix with (dq ++ " FOR SELECT USING (true);").
  split.
  - destruct (Pg.quoted_ident _) as [[t tail]|] eqn:H; [|discriminate].
    destruct (String.eqb_spec tail " FOR SELECT USING (true);") as [->|];
      [|discriminate].
    intros [= ->]. now apply quoted_ident_same in H.
  - intros Hq. rewrite quoted_ident_plain by (auto; reflexivity).
    reflexivity.
Qed.

Lemma enable_not_placeholder table : sql_enable_rls table <> sql_placeholder table.
Proof. unfold sql_enable_rls, sql_placeholder. cbn. discriminate. Qed.

(** ** The fix against the store model *)

Lemma is_public_enable table t c :
  Pg.is_public t (Pg.enable table c) = Pg.is_public t c.
Proof. unfold Pg.enable. now destruct (Pg.is_public table c). Qed.

Lemma enable_idempotent table c :
  Pg.enable table (Pg.enable table c) = Pg.enable table c.
Proof.
  unfold Pg.enable at 1. rewrite is_public_enable.
  unfold Pg.enable. destruct (Pg.is_public table c) eqn:E; [|reflexivity].
  reflexivity.
Qed.

Lemma has_table_enable table t classes :
  existsb (Pg.is_public t) (map (Pg.enable table) classes)
  = existsb (Pg.is_public t) classes.
Proof.
  induction classes as [|c l IH]; cbn; [reflexivity|].
  now rewrite is_public_enable, IH.
Qed.

Lemma flag_enabled table classes :
  existsb (Pg.is_public table) classes = true ->
  option_map Pg.relrowsecurity
    (find (Pg.is_public table) (map (Pg.enable table) classes))
  = Some true.
Proof.
  induction classes as [|c l IH]; cbn; [discriminate|].
  rewrite is_public_enable. destruct (Pg.is_public table c) eqn:E; cbn.
  - intros _. unfold Pg.enable. now rewrite E.
  - exact IH.
Qed.

Lemma placeholder_has_name p table :
  Pg.is_placeholder table p = true -> (tablename p =? table) = true.
Proof.
  unfold Pg.is_placeholder. intros H.
  apply andb_true_iff in H. destruct H as [H _].
  apply andb_true_iff in H. now destruct H.
Qed.

Lemma no_policy_no_placeholder d table :
  Pg.policies_of d table = [] ->
  filter (Pg.is_placeholder table) (Pg.pg_policies d) = [].
Proof.
  unfold Pg.policies_of. induction (Pg.pg_policies d) as [|p l IH]; cbn;
    [reflexivity|].
  destruct (tablename p =? table) eqn:E; [discriminate|].
  intros H. destruct (Pg.is_placeholder table p) eqn:P.
  - apply placeholder_has_name in P. congruence.
  - now apply IH.
Qed.

Lemma existsb_filter_nil {A} (f : A -> bool) l :
  filter f l = [] -> existsb f l = false.
Proof.
  induction l as [|x l IH]; cbn; [reflexivity|].
  destruct (f x); [discriminate|]. exact IH.
Qed.

Lemma policies_of_fixed d table :
  Pg.policies_of (fixed d table) table
  = match Pg.policies_of d table with
    | [] => [Pg.placeholder table]
    | l => l
    end.
Proof.
  unfold Pg.policies_of at 1. unfold fixed. cbn [Pg.pg_policies].
  rewrite filter_app. fold (Pg.policies_of d table).
  destruct (Pg.policies_of d table) as [|p l]; cbn.
  - now rewrite String.eqb_refl.
  - now rewrite app_nil_r.
Qed.

Lemma fixed_idempotent d table : fixed (fixed d table) table = fixed d table.
Proof.
  unfold fixed at 1. rewrite policies_of_fixed.
  assert (E : match
                match Pg.policies_of d table with
                | [] => [Pg.placeholder table]
                | p :: l => p :: l
                end
              with
              | [] => [Pg.placeholder table]
              | _ :: _ => []
              end = []) by now destruct (Pg.policies_of d table).
  rewrite E, app_nil_r. unfold fixed. cbn [Pg.pg_class Pg.pg_policies].
  rewrite map_map, (map_ext _ _ (enable_idempotent table)). reflexivity.
Qed.

Lemma placeholder_count_fixed d table :
  Pg.placeholder_count d table <= 1 ->
  Pg.placeholder_count (fixed d table) table <= 1.
Proof.
  unfold Pg.placeholder_count, fixed. cbn [Pg.pg_policies].
  rewrite filter_app, length_app.
  destruct (Pg.policies_of d table) as [|p l] eqn:E.
  - rewrite (no_policy_no_placeholder d table E). intros _. cbn.
    destruct (Pg.is_placeholder table (Pg.placeholder table)); cbn; lia.
  - cbn. lia.
Qed.

Section FixRun.
Variables (dsn : string) (pat : option string).
Variable listing : auth_reply (option (list user)).
Variable projects : http_reply (list project).
Variable req : request.
Variables url key table : string.
Hypothesis Hurl : projectUrl req = Some url.
Hypothesis Hkey : serviceKey req = Some key.
Hypothesis Htable : tableName req = Some table.
Hypothesis Hdsn : dbConnectionString req = Some dsn.
Hypothesis Hu : url <> EmptyString.
Hypothesis Hk : key <> EmptyString.
Hypothesis Ht : table <> EmptyString.
Hypothesis Hq : Pg.quotes table = 0.

(** One run of the fix on a store that has the table. *)
Lemma fix_rls_run d :
  Pg.has_table d table = true ->
  fix_rls (Pg.environment dsn pat listing projects) req d
  = (Ok (Some (mkResponse 200 (BFixRls (fix_rls_message table) table))),
     (Net (PgQuery (Some dsn) (sql_enable_rls table) [])
      :: Net (PgQuery (Some dsn) sql_policies [table])
      :: match Pg.policies_of d table with
         | [] => [Net (PgQuery (Some dsn) (sql_placeholder table) [])]
         | _ :: _ => []
         end
      ++ [PoolEnd (Some dsn);
          Evidence "INFO" (fix_rls_message table)
            [("project", LOpt (display_url_guarded (projectUrl req)));
             ("tableName", LStr table)]])%list,
     fixed d table).
Proof.
  intros Hhas. unfold fix_rls. rewrite Htable, Hdsn.
  rewrite (proj2 (String.eqb_neq _ _) Ht).
  rewrite (truthy_credentials req url key Hurl Hkey Hu Hk).
  unfold try_catch, bind at 1, pool_command at 1.
  cbn [command Pg.environment Pg.reaches]. rewrite (String.eqb_refl dsn).
  unfold Pg.exec at 1. rewrite (proj2 (parse_enable table) Hq), Hhas.
  unfold bind at 1, pool_select.
  cbn [select_policies Pg.environment].
  unfold Pg.via. cbn [Pg.reaches]. rewrite (String.eqb_refl dsn).
  change (Pg.policies_of (Pg.mkDb (map (Pg.enable table) (Pg.pg_class d))
                            (Pg.pg_policies d)) table)
    with (Pg.policies_of d table).
  unfold fixed, fix_rls_message.
  destruct (Pg.policies_of d table) as [|p l] eqn:Hpol.
  - unfold bind at 1, pool_command.
    cbn [command Pg.environment Pg.reaches].
    rewrite (String.eqb_refl dsn).
    unfold Pg.exec. rewrite (proj2 (parse_placeholder table) Hq).
    unfold Pg.has_table. cbn [Pg.pg_class Pg.pg_policies].
    rewrite has_table_enable. unfold Pg.has_table in Hhas. rewrite Hhas.
    cbn [negb].
    rewrite (existsb_filter_nil _ _ (no_policy_no_placeholder d table Hpol)).
    reflexivity.
  - cbn. rewrite app_nil_r. reflexivity.
Qed.
End FixRun.

Lemma own_policies_all d table :
  (forall p, In p (Pg.pg_policies d) ->
             tablename p = table -> schemaname p = "public") ->
  Pg.own_policies d table = Pg.policies_of d table.
Proof.
  intros Hown. unfold Pg.own_policies, Pg.policies_of.
  apply filter_ext_in. intros p Hin.
  destruct (String.eqb_spec (tablename p) table) as [E|_];
    [|now rewrite andb_false_r].
  now rewrite (Hown p Hin E).
Qed.

Lemma own_policies_fixed d table :
  Pg.own_policies (fixed d table) table
  = (Pg.own_policies d table
     ++ match Pg.policies_of d table with
        | [] => [Pg.placeholder table]
        | _ :: _ => []
        end)%list.
Proof.
  unfold Pg.own_policies, fixed. cbn [Pg.pg_policies]. rewrite filter_app.
  f_equal. destruct (Pg.policies_of d table); [|reflexivity].
  cbn. now rewrite String.eqb_refl.
Qed.

(** C7 (as amended).  On a store that has the table in the public
    schema, the name having no double-quote character and every policy
    row of that name being a row of this table, two successive runs of
    the enable-access-control fix both answer 200; the flag is set after
    the first run and the second run leaves the store as the first left
    it; at most one placeholder policy exists afterwards (given at most
    one before).  The first run adds the placeholder policy to the store
    exactly when the table has no policy row at that time, and adds
    nothing else; in each run the placeholder statement is issued exactly
    when the table has no policy row, which is never the case in the
    second run. *)
Theorem fix_rls_idempotent :
  forall (dsn : string) (pat : option string)
         (listing : auth_reply (option (list user)))
         (projects : http_reply (list project))
         (req : request) (d : Pg.db) (url key table : string),
    projectUrl req = Some url -> serviceKey req = Some key ->
    tableName req = Some table -> dbConnectionString req = Some dsn ->
    url <> EmptyString -> key <> EmptyString -> table <> EmptyString ->
    Pg.quotes table = 0 ->
    Pg.has_table d table = true ->
    Pg.placeholder_count d table <= 1 ->
    (forall p, In p (Pg.pg_policies d) ->
               tablename p = table -> schemaname p = "public") ->
    exists tr1 tr2 d1,
      fix_rls (Pg.environment dsn pat listing projects) req d
      = (Ok (Some (mkResponse 200 (BFixRls (fix_rls_message table) table))),
         tr1, d1)
      /\ fix_rls (Pg.environment dsn pat listing projects) req d1
         = (Ok (Some (mkResponse 200 (BFixRls (fix_rls_message table) table))),
            tr2, d1)
      /\ Pg.flag d1 table = Some true
      /\ Pg.placeholder_count d1 table <= 1
      /\ In (Net (PgQuery (Some dsn) (sql_enable_rls table) [])) tr1
      /\ In (Net (PgQuery (Some dsn) (sql_enable_rls table) [])) tr2
      /\ (In (Net (PgQuery (Some dsn) (sql_placeholder table) [])) tr1
          <-> Pg.own_policies d table = [])
      /\ (In (Net (PgQuery (Some dsn) (sql_placeholder table) [])) tr2
          <-> Pg.own_policies d1 table = [])
      /\ Pg.own_policies d1 table <> []
      /\ Pg.pg_policies d1
         = (Pg.pg_policies d
            ++ match Pg.own_policies d table with
               | [] => [Pg.placeholder table]
               | _ :: _ => []
               end)%list.
Proof.
  intros dsn pat listing projects req d url key table
    Hurl Hkey Htable Hdsn Hu Hk Ht Hq Hhas Hcount Hown.
  assert (Hhas1 : Pg.has_table (fixed d table) table = true).
  { unfold Pg.has_table, fixed. cbn [Pg.pg_class].
    now rewrite has_table_enable. }
  pose proof (fix_rls_run dsn pat listing projects req url key table
                Hurl Hkey Htable Hdsn Hu Hk Ht Hq d Hhas) as R1.
  pose proof (fix_rls_run dsn pat listing projects req url key table
                Hurl Hkey Htable Hdsn Hu Hk Ht Hq (fixed d table) Hhas1) as R2.
  rewrite fixed_idempotent in R2.
  pose proof (own_policies_all d table Hown) as Hall.
  assert (Hne : Pg.policies_of (fixed d table) table <> []).
  { rewrite policies_of_fixed.
    destruct (Pg.policies_of d table); discriminate. }
  assert (Hne' : Pg.own_policies (fixed d table) table <> []).
  { rewrite own_policies_fixed, Hall.
    destruct (Pg.policies_of d table); discriminate. }
  assert (Hdistinct :
            forall l,
              In (Net (PgQuery (Some dsn) (sql_placeholder table) []))
                 (Net (PgQuery (Some dsn) (sql_enable_rls table) [])
                  :: Net (PgQuery (Some dsn) sql_policies [table])
                  :: l
                  ++ [PoolEnd (Some dsn);
                      Evidence "INFO" (fix_rls_message table)
                        [("project",
                          LOpt (display_url_guarded (projectUrl req)));
                         ("tableName", LStr table)]])
              <-> In (Net (PgQuery (Some dsn) (sql_placeholder table) [])) l).
  { intros l. split.
    - intros [H|[H|H]].
      + exfalso. apply (enable_not_placeholder table). congruence.
      + discriminate H.
      + apply in_app_or in H. destruct H as [H|[H|[H|[]]]];
          [assumption|discriminate H|discriminate H].
    - intros H. right. right. apply in_or_app. now left. }
  eexists; eexists; exists (fixed d table).
  split; [exact R1|]. split; [exact R2|].
  split; [unfold Pg.flag, fixed; cbn [Pg.pg_class]; now apply flag_enabled|].
  split; [now apply placeholder_count_fixed|].
  split; [now left|]. split; [now left|].
  split; [|split; [|split; [exact Hne'|]]].
  - rewrite Hdistinct, Hall. destruct (Pg.policies_of d table).
    + split; [reflexivity|]. intros _. now left.
    + split; [intros []|discriminate].
  - rewrite Hdistinct. destruct (Pg.policies_of (fixed d table) table).
    + congruence.
    + split; [intros []|intros H; contradiction].
  - unfold fixed. cbn [Pg.pg_policies]. now rewrite Hall.
Qed.

(** The theorem on the sample table [notes], which has no policy: the
    first run sets the flag and adds the placeholder policy, the second
    run issues no placeholder statement and changes nothing. *)
Lemma fix_rls_idempotent_witness :
  Pg.quotes "notes" = 0
  /\ Pg.has_table Scenario.store "notes" = true
  /\ Pg.placeholder_count Scenario.store "notes" <= 1
  /\ Pg.own_policies Scenario.store "notes" = []
  /\ exists tr1 tr2 d1,
       fix_rls Scenario.env Scenario.req Scenario.store
       = (Ok (Some (mkResponse 200
                (BFixRls (fix_rls_message "notes") "notes"))), tr1, d1)
       /\ fix_rls Scenario.env Scenario.req d1
          = (Ok (Some (mkResponse 200
                   (BFixRls (fix_rls_message "notes") "notes"))), tr2, d1)
       /\ Pg.flag d1 "notes" = Some true
       /\ Pg.placeholder_count d1 "notes" <= 1
       /\ In (Net (PgQuery (Some Scenario.dsn) (sql_placeholder "notes") []))
            tr1
       /\ ~ In (Net (PgQuery (Some Scenario.dsn) (sql_placeholder "notes") []))
              tr2
       /\ Pg.pg_policies d1
          = (Pg.pg_policies Scenario.store ++ [Pg.placeholder "notes"])%list.
Proof.
  assert (Hq : Pg.quotes "notes" = 0) by reflexivity.
  assert (Hh : Pg.has_table Scenario.store "notes" = true) by reflexivity.
  assert (Hc : Pg.placeholder_count Scenario.store "notes" <= 1)
    by (cbn; lia).
  assert (Hz : Pg.own_policies Scenario.store "notes" = []) by reflexivity.
  do 4 (split; [assumption|]).
  assert (Hu : "https://abc.supabase.co" <> EmptyString) by discriminate.
  assert (Hk : "service-role-key" <> EmptyString) by discriminate.
  assert (Ht : "notes" <> EmptyString) by discriminate.
  assert (Hown : forall p, In p (Pg.pg_policies Scenario.store) ->
                           tablename p = "notes" -> schemaname p = "public").
  { intros p Hin _. cbn in Hin.
    destruct Hin as [<-|[<-|[<-|[<-|[]]]]]; reflexivity. }
  destruct (fix_rls_idempotent Scenario.dsn (Some "sbp_token")
              (Resolved (Some [Scenario.alice; Scenario.bob; Scenario.carol])
                 None)
              (Response true 200 EmptyString (Ok [Scenario.shop]))
              Scenario.req Scenario.store
              "https://abc.supabase.co" "service-role-key" "notes"
              eq_refl eq_refl eq_refl eq_refl Hu Hk Ht Hq Hh Hc Hown)
    as (tr1 & tr2 & d1 & R1 & R2 & Hflag & Hcount & _ & _ & Hfirst & Hsecond
        & Hne & Hpol).
  exists tr1, tr2, d1. split; [exact R1|]. split; [exact R2|].
  split; [exact Hflag|]. split; [exact Hcount|].
  split; [now apply Hfirst|]. split.
  - intros Hin. apply Hsecond in Hin. contradiction.
  - rewrite Hpol, Hz. reflexivity.
Defined.

(** C7, counterexample.  Two tables on which the claim fails.  For the
    table whose name is [a], a double quote, [b], the statement text is
    malformed: both runs of the fix answer 500 and the flag is still off
    after them.  For the table [public.objects], which has no policy
    row while [storage.objects] has one, the policy query (by name
    alone) finds that row: the fix answers 200 and sets the flag, but
    issues no placeholder statement, and the table is left without any
    policy. *)
Lemma fix_rls_quote_and_shared_name :
  (Pg.has_table Scenario.store_quoted Scenario.quoted_name = true
   /\ Pg.flag Scenario.store_quoted Scenario.quoted_name = Some false
   /\ exists e tr1 tr2 d1 d2,
        fix_rls Scenario.env Scenario.req_quoted Scenario.store_quoted
        = (Ok (Some (mkResponse 500
                 (BFixRlsFailure
                    ("Failed to enable RLS for " ++ dq ++ Scenario.quoted_name
                     ++ dq ++ ": " ++ String_of e) e))), tr1, d1)
        /\ fix_rls Scenario.env Scenario.req_quoted d1
           = (Ok (Some (mkResponse 500
                    (BFixRlsFailure
                       ("Failed to enable RLS for " ++ dq
                        ++ Scenario.quoted_name ++ dq ++ ": " ++ String_of e)
                       e))), tr2, d2)
        /\ Pg.flag d1 Scenario.quoted_name = Some false
        /\ Pg.flag d2 Scenario.quoted_name = Some false)
  /\ (Pg.has_table Variants.store_shared "objects" = true
      /\ Pg.quotes "objects" = 0
      /\ Pg.own_policies Variants.store_shared "objects" = []
      /\ exists tr1 d1,
           fix_rls Scenario.env Variants.req_objects Variants.store_shared
           = (Ok (Some (mkResponse 200
                    (BFixRls (fix_rls_message "objects") "objects"))),
              tr1, d1)
           /\ Pg.flag d1 "objects" = Some true
           /\ ~ In (Net (PgQuery (Some Scenario.dsn)
                           (sql_placeholder "objects") [])) tr1
           /\ Pg.own_policies d1 "objects" = []
           /\ Pg.pg_policies d1 = Pg.pg_policies Variants.store_shared).
Proof.
  split.
  - split; [reflexivity|]. split; [reflexivity|].
    exists (Pg.pg_error "syntax error").
    eexists; eexists; eexists; eexists.
    split; [reflexivity|]. split; [reflexivity|]. split; reflexivity.
  - split; [reflexivity|]. split; [reflexivity|]. split; [reflexivity|].
    exists (snd (fst (fix_rls Scenario.env Variants.req_objects
                        Variants.store_shared))),
      (snd (fix_rls Scenario.env Variants.req_objects Variants.store_shared)).
    split; [vm_compute; reflexivity|]. split; [vm_compute; reflexivity|].
    split; [|split; vm_compute; reflexivity].
    vm_compute. intros H.
    repeat (destruct H as [H|H]; [discriminate H|]). exact H.
Qed.

Section Splice.
Variable Store : Type.
Variable env : Env Store.
Variable req : request.
Variable s : Store.
Variables url key table : string.
Hypothesis Hurl : projectUrl req = Some url.
Hypothesis Hkey : serviceKey req = Some key.
Hypothesis Htable : tableName req = Some table.
Hypothesis Hu : url <> EmptyString.
Hypothesis Hk : key <> EmptyString.
Hypothesis Ht : table <> EmptyString.

Lemma fix_rls_queries cs text params :
  In (Net (PgQuery cs text params)) (trace_of (fix_rls env req s)) ->
  cs = dbConnectionString req
  /\ ((text = sql_enable_rls table /\ params = [])
      \/ (text = sql_policies /\ params = [table])
      \/ (text = sql_placeholder table /\ params = [])).
Proof.
  unfold fix_rls. rewrite Htable.
  rewrite (proj2 (String.eqb_neq _ _) Ht).
  rewrite (truthy_credentials req url key Hurl Hkey Hu Hk).
  unfold trace_of, try_catch, bind, pool_command, pool_select, pool_end,
    logEvidence, emit, ret.
  destruct (command env s (dbConnectionString req) (sql_enable_rls table))
    as [[[]|e] s1].
  - destruct (select_policies env s1 (dbConnectionString req) table)
      as [[|p l]|e].
    + destruct (command env s1 (dbConnectionString req)
                  (sql_placeholder table)) as [[[]|e] s2];
        cbn; intros H;
        repeat (destruct H as [H|H];
                [try discriminate H; injection H as <- <- <-; auto 6|]);
        contradiction.
    + cbn; intros H;
        repeat (destruct H as [H|H];
                [try discriminate H; injection H as <- <- <-; auto 6|]);
        contradiction.
    + cbn; intros H;
        repeat (destruct H as [H|H];
                [try discriminate H; injection H as <- <- <-; auto 6|]);
        contradiction.
  - cbn; intros H;
      repeat (destruct H as [H|H];
              [try discriminate H; injection H as <- <- <-; auto 6|]);
      contradiction.
Qed.

Lemma fix_rls_placeholder_issued s1 :
  command env s (dbConnectionString req) (sql_enable_rls table)
  = (Ok tt, s1) ->
  select_policies env s1 (dbConnectionString req) table = Ok [] ->
  In (Net (PgQuery (dbConnectionString req) (sql_placeholder table) []))
     (trace_of (fix_rls env req s)).
Proof.
  intros Hc Hsel. unfold fix_rls. rewrite Htable.
  rewrite (proj2 (String.eqb_neq _ _) Ht).
  rewrite (truthy_credentials req url key Hurl Hkey Hu Hk).
  unfold trace_of, try_catch, bind, pool_command, pool_select, pool_end,
    logEvidence, emit, ret.
  rewrite Hc, Hsel.
  destruct (command env s1 (dbConnectionString req) (sql_placeholder table))
    as [[[]|e] s2]; cbn; auto.
Qed.
End Splice.

(** C10.  For every non-empty table name (and both credentials
    present), the fix begins by issuing the ALTER TABLE template with the
    name spliced in as it is; every statement it issues is that text, the
    parameterised policy listing, or the CREATE POLICY template with the
    name spliced in as it is, the latter being issued whenever the
    listing comes back empty.  Read by the statement parser, each
    template denotes the statement on the table of that name exactly when
    the name has no double-quote character. *)
Theorem fix_rls_splices_table_name :
  forall Store (env : Env Store) (req : request) (s : Store)
         (url key table : string),
    projectUrl req = Some url -> serviceKey req = Some key ->
    tableName req = Some table ->
    url <> EmptyString -> key <> EmptyString -> table <> EmptyString ->
    sql_enable_rls table
    = "ALTER TABLE public." ++ dq ++ table ++ dq
      ++ " ENABLE ROW LEVEL SECURITY;"
    /\ sql_placeholder table
       = "CREATE POLICY " ++ dq ++ "placeholder_policy" ++ dq ++ " ON public."
         ++ dq ++ table ++ dq ++ " FOR SELECT USING (true);"
    /\ begins_with
         (Net (PgQuery (dbConnectionString req) (sql_enable_rls table) []))
         (fix_rls env req s)
    /\ (forall cs text params,
          In (Net (PgQuery cs text params)) (trace_of (fix_rls env req s)) ->
          cs = dbConnectionString req
          /\ ((text = sql_enable_rls table /\ params = [])
              \/ (text = sql_policies /\ params = [table])
              \/ (text = sql_placeholder table /\ params = [])))
    /\ (forall s1,
          command env s (dbConnectionString req) (sql_enable_rls table)
          = (Ok tt, s1) ->
          select_policies env s1 (dbConnectionString req) table = Ok [] ->
          In (Net (PgQuery (dbConnectionString req) (sql_placeholder table) []))
             (trace_of (fix_rls env req s)))
    /\ (Pg.parse (sql_enable_rls table) = Some (Pg.EnableRls table)
        <-> Pg.quotes table = 0)
    /\ (Pg.parse (sql_placeholder table) = Some (Pg.CreatePlaceholder table)
        <-> Pg.quotes table = 0).
Proof.
  intros Store env req s url key table Hurl Hkey Htable Hu Hk Ht.
  split; [reflexivity|]. split; [reflexivity|].
  split; [eapply fix_rls_first; eassumption|].
  split; [intros cs text params; eapply fix_rls_queries; eassumption|].
  split; [intros s1; eapply fix_rls_placeholder_issued; eassumption|].
  split; [apply parse_enable|apply parse_placeholder].
Qed.

(** The theorem on a name that closes the identifier and goes on: the
    text issued is no longer the statement on the table of that name. *)
Lemma fix_rls_splices_table_name_witness :
  Scenario.hostile_name <> EmptyString
  /\ sql_enable_rls Scenario.hostile_name
     = "ALTER TABLE public." ++ dq ++ "notes" ++ dq
       ++ " DISABLE ROW LEVEL SECURITY; --" ++ dq
       ++ " ENABLE ROW LEVEL SECURITY;"
  /\ begins_with
       (Net (PgQuery (Some Scenario.dsn)
               (sql_enable_rls Scenario.hostile_name) []))
       (fix_rls Scenario.env Scenario.req_hostile Scenario.store)
  /\ Pg.parse (sql_enable_rls Scenario.hostile_name)
     <> Some (Pg.EnableRls Scenario.hostile_name).
Proof.
  assert (Hu : "https://abc.supabase.co" <> EmptyString) by discriminate.
  assert (Hk : "service-role-key" <> EmptyString) by discriminate.
  assert (Ht : Scenario.hostile_name <> EmptyString) by discriminate.
  split; [exact Ht|]. split; [reflexivity|].
  destruct (fix_rls_splices_table_name Pg.db Scenario.env Scenario.req_hostile
              Scenario.store "https://abc.supabase.co" "service-role-key"
              Scenario.hostile_name eq_refl eq_refl eq_refl Hu Hk Ht)
    as (_ & _ & Hfirst & _ & _ & Hparse & _).
  split; [exact Hfirst|].
  intros H. apply Hparse in H. discriminate H.
Defined.

(** * Further properties of the code *)

(** ** The recovery check *)

(** X1.  An addon counts as the recovery addon exactly when its type is
    present and the lower-cased type contains [pitr]; changing the case
    of the type's letters does not change the answer. *)
Theorem is_pitr_case_insensitive :
  forall (a : addon) (t : string) (st md : option string),
    (is_pitr a = true <->
       exists ty, addon_type a = Some ty
                  /\ occurs "pitr" (Js.toLowerCase ty))
    /\ is_pitr (mkAddon (Some (Js.toUpperCase t)) st md)
       = is_pitr (mkAddon (Some t) st md)
    /\ is_pitr (mkAddon (Some (Js.toLowerCase t)) st md)
       = is_pitr (mkAddon (Some t) st md).
Proof.
  intros a t st md. split; [|split].
  - unfold is_pitr. destruct (addon_type a) as [ty|].
    + split.
      * intros H. apply andb_true_iff in H. destruct H as [_ H].
        exists ty. split; [reflexivity|]. now apply includes_occurs.
      * intros (ty' & [= <-] & Hocc). apply andb_true_iff. split.
        -- destruct ty as [|c r]; [|reflexivity].
           destruct Hocc as (x & y & H). destruct x; discriminate H.
        -- apply includes_occurs; [discriminate|assumption].
    + split; [discriminate|]. intros (ty & H & _). discriminate.
  - unfold is_pitr. cbn [addon_type]. unfold Js.toUpperCase at 1.
    now rewrite map_string_empty, toLowerCase_toUpperCase.
  - unfold is_pitr. cbn [addon_type]. unfold Js.toLowerCase at 1.
    now rewrite map_string_empty, toLowerCase_idempotent.
Qed.

Lemma map_projects_run Store projects (s : Store) :
  map_projects projects s
  = (Ok (map pitr_entry projects),
     map (fun p => Console [LProject p]) projects, s).
Proof.
  induction projects as [|p rest IH]; cbn [map_projects map]; [reflexivity|].
  unfold bind, emit, ret. rewrite IH. cbn. now rewrite app_nil_r.
Qed.

Lemma network_calls_app a b :
  network_calls (a ++ b)%list = (network_calls a ++ network_calls b)%list.
Proof. apply filter_app. Qed.

Lemma network_calls_consoles (projects : list project) :
  network_calls (map (fun p => Console [LProject p]) projects) = [].
Proof. induction projects as [|p l IH]; cbn; [reflexivity|exact IH]. Qed.

Lemma some_lacks_pitr projects :
  existsb (fun p => negb (pitrEnabled p)) (map pitr_entry projects) = true
  <-> exists p, In p projects /\ find_pitr p = None.
Proof.
  rewrite existsb_exists. split.
  - intros (e & Hin & He). apply in_map_iff in Hin.
    destruct Hin as (p & <- & Hp). exists p. split; [exact Hp|].
    unfold pitr_entry in He. cbn in He.
    now destruct (find_pitr p).
  - intros (p & Hp & Hnone). exists (pitr_entry p).
    split; [now apply in_map|]. unfold pitr_entry. now rewrite Hnone.
Qed.

(** X2.  With a management token and a successful project listing, the
    recovery check makes exactly one outbound call, reports the projects
    in the listing's order, and its status is FAILING exactly when some
    project has no recovery addon and PASSING exactly when every project
    has one: an empty project list is PASSING. *)
Theorem runPITR_status :
  forall Store (env : Env Store) (displayUrl : string) (s : Store)
         (token : string) (code : nat) (text : string)
         (projects : list project),
    SUPABASE_PAT env = Some token -> token <> EmptyString ->
    get_projects env token = Response true code text (Ok projects) ->
    exists r tr,
      runPITR env displayUrl s = (Ok r, tr, s)
      /\ pitr_projects r = Some (map pitr_entry projects)
      /\ (pitr_status r = FAILING <->
            exists p, In p projects /\ find_pitr p = None)
      /\ (pitr_status r = PASSING <->
            forall p, In p projects -> exists a, find_pitr p = Some a)
      /\ (projects = [] -> pitr_status r = PASSING)
      /\ network_calls tr
         = [Net (HttpFetch "GET" "https://api.supabase.com/v1/projects"
                   ("Bearer " ++ token) None)].
Proof.
  intros Store env displayUrl s token code text projects Htok Hne Hget.
  unfold runPITR, try_catch. rewrite Htok.
  rewrite (proj2 (String.eqb_neq _ _) Hne).
  unfold fetch, bind at 1, bind at 1, emit at 1. rewrite Hget.
  unfold ret at 1. cbn [negb]. unfold bind at 1, settle, ret at 1.
  unfold bind at 1. rewrite map_projects_run.
  pose proof (some_lacks_pitr projects) as Hsome.
  destruct (existsb _ (map pitr_entry projects)) eqn:E;
    (eexists; eexists; split; [reflexivity|]);
    cbn [pitr_projects pitr_status]; (split; [reflexivity|]).
  - split; [split; [intros _; now apply Hsome|reflexivity]|].
    split; [split; [discriminate|]|].
    { intros Hall. apply proj1 in Hsome. destruct (Hsome eq_refl)
        as (p & Hp & Hnone). destruct (Hall p Hp) as [a Ha]. congruence. }
    split.
    { intros ->. cbn in E. discriminate. }
    cbn. rewrite !network_calls_app, network_calls_consoles. reflexivity.
  - split; [split; [discriminate|]|].
    { intros H. apply Hsome in H. discriminate. }
    split; [split; [|reflexivity]|].
    { intros _ p Hp. destruct (find_pitr p) as [a|] eqn:Ha; [now exists a|].
      assert (H : false = true); [|discriminate H].
      apply Hsome. now exists p. }
    split; [reflexivity|].
    cbn. rewrite !network_calls_app, network_calls_consoles. reflexivity.
Qed.

Lemma runPITR_status_witness :
  exists r tr,
    runPITR Scenario.env "https://abc.supabase.co" Scenario.store
    = (Ok r, tr, Scenario.store)
    /\ pitr_status r = PASSING.
Proof.
  assert (Ht : "sbp_token" <> EmptyString) by discriminate.
  destruct (runPITR_status Pg.db Scenario.env "https://abc.supabase.co"
              Scenario.store "sbp_token" 200 EmptyString [Scenario.shop]
              eq_refl Ht eq_refl)
    as (r & tr & Hrun & _ & _ & Hpass & _).
  exists r, tr. split; [exact Hrun|]. apply Hpass.
  intros p [<-|[]]. eexists. reflexivity.
Defined.

(** ** Project references and display URLs *)

Lemma before_char_found c p rest :
  lacks c p -> Text.before_char c (p ++ String c rest) = p.
Proof.
  induction p as [|a p IH]; cbn.
  - intros _. now rewrite Ascii.eqb_refl.
  - intros [Ha Hp]. apply Ascii.eqb_neq in Ha. rewrite Ha.
    now rewrite (IH Hp).
Qed.

Lemma before_char_whole c s : lacks c s -> Text.before_char c s = s.
Proof.
  induction s as [|a s IH]; cbn; [reflexivity|].
  intros [Ha Hs]. apply Ascii.eqb_neq in Ha. rewrite Ha. now rewrite (IH Hs).
Qed.

Lemma before_char_lacks c s : lacks c (Text.before_char c s).
Proof.
  induction s as [|a s IH]; cbn; [exact I|].
  destruct (Ascii.eqb_spec a c); cbn; [exact I|now split].
Qed.

Lemma strip_scheme_https s : Text.strip_scheme ("https://" ++ s) = s.
Proof. reflexivity. Qed.

Lemma strip_scheme_http s : Text.strip_scheme ("http://" ++ s) = s.
Proof. reflexivity. Qed.

(** X3.  For a project URL made of an optional [http://] or [https://],
    a first label without dot, a dot and the rest, the derived project
    ref is that label; a text without dot after the scheme is its own
    ref. *)
Theorem project_ref_is_first_label :
  forall ref rest : string,
    lacks "." ref ->
    project_ref ("https://" ++ ref ++ "." ++ rest) = ref
    /\ project_ref ("http://" ++ ref ++ "." ++ rest) = ref
    /\ project_ref ("https://" ++ ref) = ref
    /\ (Text.strip_scheme (ref ++ "." ++ rest) = ref ++ "." ++ rest ->
        project_ref (ref ++ "." ++ rest) = ref).
Proof.
  intros ref rest H. unfold project_ref.
  rewrite strip_scheme_https, strip_scheme_http.
  repeat split.
  - now apply before_char_found.
  - now apply before_char_found.
  - change (Text.strip_scheme ("https://" ++ ref)) with ref.
    now apply before_char_whole.
  - intros ->. now apply before_char_found.
Qed.

Lemma project_ref_is_first_label_witness :
  lacks "." "abc"
  /\ project_ref "https://abc.supabase.co" = "abc"
  /\ project_ref "http://abc.supabase.co/rest/v1" = "abc".
Proof.
  assert (H : lacks "." "abc") by (cbn; repeat split; discriminate).
  split; [exact H|].
  destruct (project_ref_is_first_label "abc" "supabase.co" H) as (H1 & _).
  destruct (project_ref_is_first_label "abc" "supabase.co/rest/v1" H)
    as (_ & H2 & _).
  split; [exact H1|exact H2].
Defined.

Lemma index_dot_found p rest :
  lacks "." p -> String.index 0 "." (p ++ String "." rest)
                 = Some (String.length p).
Proof.
  induction p as [|a p IH]; cbn [append String.length].
  - intros _. cbn. destruct (Ascii.ascii_dec "." "."); [|congruence].
    now destruct rest.
  - intros [Ha Hp]. cbn [String.index String.prefix].
    destruct (Ascii.ascii_dec "." a) as [E|_]; [congruence|].
    now rewrite (IH Hp).
Qed.

(** X4.  For an endpoint whose text up to [.supabase.co] has no dot, the
    display URL is that text followed by [.supabase.co]: whatever
    follows the host (a path, a query) is dropped.  An endpoint that does
    not contain [supabase.co] is displayed as it is. *)
Theorem display_url_keeps_host_only :
  forall p rest : string,
    lacks "." p ->
    display_url (p ++ ".supabase.co" ++ rest) = p ++ ".supabase.co"
    /\ display_url (p ++ ".supabase.co") = p ++ ".supabase.co"
    /\ forall u, Js.includes u "supabase.co" = false -> display_url u = u.
Proof.
  intros p rest Hp.
  assert (H : forall r, display_url (p ++ ".supabase.co" ++ r)
                        = p ++ ".supabase.co").
  { intros r. unfold display_url.
    assert (Hinc : Js.includes (p ++ ".supabase.co" ++ r) "supabase.co"
                   = true).
    { apply includes_occurs; [discriminate|].
      exists (p ++ "."), r. now rewrite append_assoc_string. }
    rewrite Hinc. unfold Js.substring_before, Js.indexOf.
    change (".supabase.co" ++ r) with (String "." ("supabase.co" ++ r)).
    rewrite (index_dot_found p _ Hp).
    now rewrite substring_whole_prefix. }
  split; [apply H|]. split.
  - rewrite <- (H EmptyString) at 2. reflexivity.
  - intros u Hu. unfold display_url. now rewrite Hu.
Qed.

Lemma display_url_keeps_host_only_witness :
  lacks "." "https://abc"
  /\ display_url "https://abc.supabase.co/rest/v1?apikey=service-role-key"
     = "https://abc.supabase.co".
Proof.
  assert (H : lacks "." "https://abc") by (cbn; repeat split; discriminate).
  split; [exact H|].
  exact (proj1 (display_url_keeps_host_only "https://abc"
                  "/rest/v1?apikey=service-role-key" H)).
Defined.

(** ** Table names from the OpenAPI paths *)

Lemma index_of_first v pre suf :
  ~ In v pre -> Text.index_of v (pre ++ v :: suf)%list = Some (length pre).
Proof.
  induction pre as [|x pre IH]; cbn; intros H.
  - now rewrite String.eqb_refl.
  - destruct (String.eqb_spec x v) as [->|_]; [exfalso; auto|].
    rewrite IH by auto. reflexivity.
Qed.

Lemma index_of_earlier v pre suf :
  In v pre ->
  exists j, Text.index_of v (pre ++ suf)%list = Some j /\ j < length pre.
Proof.
  induction pre as [|x pre IH]; cbn; intros H; [contradiction|].
  destruct (String.eqb_spec x v) as [->|Hne].
  - exists 0. split; [reflexivity|lia].
  - destruct H as [H|H]; [congruence|].
    destruct (IH H) as (j & -> & Hj). exists (S j). split; [reflexivity|lia].
Qed.

(** The elements kept from position [length pre] on are the elements of
    [suf] that do not occur in [pre], each once. *)
Lemma first_occurrences_from suf : forall pre,
  let kept :=
    Text.filteri (fun v i =>
                    match Text.index_of v (pre ++ suf)%list with
                    | Some j => (j =? i)%nat
                    | None => false
                    end) (length pre) suf in
  NoDup kept /\ forall v, In v kept <-> In v suf /\ ~ In v pre.
Proof.
  induction suf as [|x r IH]; intros pre; cbn zeta.
  - cbn. split; [constructor|]. intros v. tauto.
  - cbn [Text.filteri].
    specialize (IH (pre ++ [x])%list). cbn zeta in IH.
    rewrite <- app_assoc in IH. cbn [List.app] in IH.
    rewrite length_app in IH. cbn [length] in IH.
    replace (length pre + 1) with (S (length pre)) in IH by lia.
    destruct IH as [Hnd Hin].
    destruct (in_dec string_dec x pre) as [Hx|Hx].
    + destruct (index_of_earlier x pre (x :: r) Hx) as (j & -> & Hj).
      destruct (Nat.eqb_spec j (length pre)) as [->|_]; [lia|].
      split; [exact Hnd|]. intros v. rewrite Hin. rewrite in_app_iff. cbn.
      split.
      * intros [Hv Hn]. split; [now right|]. tauto.
      * intros [[<-|Hv] Hn]; [contradiction|]. split; [exact Hv|].
        intros [H|[<-|[]]]; [contradiction|contradiction].
    + rewrite (index_of_first x pre r Hx), Nat.eqb_refl.
      split.
      * constructor; [|exact Hnd]. intros H. apply Hin in H.
        destruct H as [_ H]. apply H. apply in_app_iff. right. now left.
      * intros v. cbn [In]. rewrite Hin, in_app_iff. cbn. split.
        -- intros [<-|[Hv Hn]]; [tauto|]. split; [now right|tauto].
        -- intros [[<-|Hv] Hn]; [now left|].
           destruct (string_dec x v) as [<-|Hne]; [now left|].
           right. split; [exact Hv|]. intros [H|[H|[]]]; contradiction.
Qed.

Lemma first_occurrences_spec arr :
  NoDup (Text.first_occurrences arr)
  /\ forall v, In v (Text.first_occurrences arr) <-> In v arr.
Proof.
  destruct (first_occurrences_from arr []) as [Hnd Hin].
  split; [exact Hnd|]. intros v. unfold Text.first_occurrences.
  cbn in Hin. rewrite Hin. tauto.
Qed.

Lemma strip_slash_of_path path :
  Js.startsWith path "/" = true ->
  exists rest, path = String "/" rest /\ Text.strip_slash path = rest.
Proof.
  unfold Js.startsWith. destruct path as [|a rest];
    cbn [String.prefix Text.strip_slash]; [discriminate|].
  destruct (Ascii.ascii_dec "/" a) as [<-|]; [|discriminate].
  intros _. now exists rest.
Qed.

(** X5.  The table names drawn from the OpenAPI paths contain no
    duplicate, no empty name and no name with a slash; a name is listed
    exactly when it is the non-empty first segment of a path that begins
    with a slash and is not under [/rpc/]. *)
Theorem table_names_spec :
  forall endpoints : list string,
    NoDup (table_names endpoints)
    /\ (forall t, In t (table_names endpoints) ->
          t <> EmptyString /\ lacks "/" t)
    /\ (forall t, In t (table_names endpoints) <->
          t <> EmptyString
          /\ exists rest,
               In (String "/" rest) endpoints
               /\ Js.startsWith (String "/" rest) "/rpc/" = false
               /\ t = Text.before_char "/" rest).
Proof.
  intros endpoints. unfold table_names.
  set (kept := filter _ endpoints).
  set (segments := map _ kept).
  destruct (first_occurrences_spec segments) as [Hnd Hin].
  assert (Hseg : forall t, In t segments <->
            exists rest, In (String "/" rest) endpoints
              /\ Js.startsWith (String "/" rest) "/rpc/" = false
              /\ t = Text.before_char "/" rest).
  { intros t. unfold segments, kept. rewrite in_map_iff. split.
    - intros (path & <- & Hp). apply filter_In in Hp.
      destruct Hp as [Hp Hf]. apply andb_true_iff in Hf.
      destruct Hf as [Hrpc Hslash].
      destruct (strip_slash_of_path path Hslash) as (rest & -> & ->).
      exists rest. split; [exact Hp|]. split; [|reflexivity].
      now apply negb_true_iff in Hrpc.
    - intros (rest & Hp & Hrpc & ->). exists (String "/" rest).
      split; [reflexivity|]. apply filter_In. split; [exact Hp|].
      rewrite Hrpc. unfold Js.startsWith. cbn [negb andb String.prefix].
      destruct (Ascii.ascii_dec "/" "/") as [_|Hne]; [|congruence].
      now destruct rest. }
  assert (Hall : forall t,
            In t (filter (fun n => negb (n =? EmptyString))
                    (Text.first_occurrences segments))
            <-> t <> EmptyString /\ In t segments).
  { intros t. rewrite filter_In, Hin, negb_true_iff, String.eqb_neq. tauto. }
  split; [now apply NoDup_filter|]. split.
  - intros t Ht. apply Hall in Ht. destruct Ht as [Hne Ht].
    split; [exact Hne|]. apply Hseg in Ht. destruct Ht as (rest & _ & _ & ->).
    apply before_char_lacks.
  - intros t. rewrite Hall, Hseg. tauto.
Qed.

(** X6.  For a project URL [http(s)://<ref>.supabase.co...] whose ref
    has no dot, [listTablesFromOpenApi] makes exactly one call, a GET of
    [https://<ref>.supabase.co/rest/v1/] with the key as bearer, whatever
    the scheme and the path of the URL, and leaves the store alone.  A
    successful answer gives the table names of its paths; an unsuccessful
    one raises an error with the HTTP status and status text; a failed
    request or an undecodable body raises its own error. *)
Theorem listTablesFromOpenApi_outcome :
  forall Store (scheme ref rest apiKey : string)
         (reply : rest_reply (list string)) (s : Store),
    lacks "." ref ->
    scheme = "https://" \/ scheme = "http://" ->
    exists r,
      listTablesFromOpenApi (scheme ++ ref ++ ".supabase.co" ++ rest)
        apiKey reply s
      = (r,
         [Net (HttpFetch "GET" ("https://" ++ ref ++ ".supabase.co/rest/v1/")
                 ("Bearer " ++ apiKey) None)], s)
      /\ r = match reply with
             | RestFailed e => Throw e
             | RestResponse false code text _ =>
                 Throw (Error ("Failed to fetch OpenAPI schema: "
                               ++ Js.of_nat code ++ " " ++ text))
             | RestResponse true _ _ (Ok endpoints) =>
                 Ok (table_names endpoints)
             | RestResponse true _ _ (Throw e) => Throw e
             end.
Proof.
  intros Store scheme ref rest apiKey reply s Href Hscheme.
  assert (Hp : project_ref (scheme ++ ref ++ ".supabase.co" ++ rest) = ref).
  { unfold project_ref.
    destruct Hscheme as [-> | ->];
      [rewrite strip_scheme_https | rewrite strip_scheme_http];
      change (".supabase.co" ++ rest) with (String "." ("supabase.co" ++ rest));
      now apply before_char_found. }
  unfold listTablesFromOpenApi. rewrite Hp.
  unfold bind, emit, settle, ret, throw.
  destruct reply as [e|[|] code text [endpoints|e]]; cbn;
    eexists; (split; reflexivity).
Qed.

Lemma listTablesFromOpenApi_outcome_witness :
  exists r,
    listTablesFromOpenApi (Store := unit) "http://abc.supabase.co/auth/v1"
      "key" (RestResponse true 200 "OK" (Ok ["/"; "/orders"; "/rpc/f";
                                              "/orders/{id}"; "/users"]))
      tt
    = (r,
       [Net (HttpFetch "GET" "https://abc.supabase.co/rest/v1/"
               "Bearer key" None)], tt)
    /\ r = Ok (table_names ["/"; "/orders"; "/rpc/f"; "/orders/{id}";
                            "/users"]).
Proof.
  apply (listTablesFromOpenApi_outcome unit "http://" "abc" "/auth/v1" "key"
           (RestResponse true 200 "OK" (Ok ["/"; "/orders"; "/rpc/f";
                                            "/orders/{id}"; "/users"])) tt).
  - cbn. repeat split; discriminate.
  - now right.
Defined.

(** ** Effects of the access-control check *)

Ltac events :=
  repeat (first [apply Forall_nil | apply Forall_cons; [cbn; auto|]]).

Section RlsEffects.
Variable Store : Type.
Variable env : Env Store.
Variable cs : option string.

Lemma rls_table_trace table s :
  Forall (read_only cs) (trace_of (rls_table env cs table s)).
Proof.
  unfold rls_table, bind, pool_select, emit, ret, trace_of.
  destruct (select_relrowsecurity env s cs table) as [rows|e].
  - destruct (select_policies env s cs table) as [ps|e]; cbn; events.
  - cbn. events.
Qed.

Lemma rls_loop_trace names : forall tables all s,
  exists res tr,
    rls_loop env cs names tables all s = (Ok res, tr, s)
    /\ Forall (read_only cs) tr.
Proof.
  induction names as [|table rest IH]; intros tables all s.
  - eexists; exists []. split; [reflexivity|constructor].
  - cbn [rls_loop]. unfold bind at 1. unfold try_catch, bind at 1.
    pose proof (rls_table_trace table s) as Htr. unfold trace_of in Htr.
    destruct (rls_table_cases Store env cs table s)
      as [(entry & tr & rows & Hrun & _) | (e & tr & Hrun & _)];
      rewrite Hrun in Htr |- *; cbn [fst snd] in Htr; unfold ret at 1.
    + destruct (IH (tables ++ [entry])%list
                  (if rls_enabled entry then all else false) s)
        as (res & tr' & Hloop & Htr').
      rewrite Hloop. eexists; eexists. split; [reflexivity|].
      rewrite app_nil_r. apply Forall_app. now split.
    + eexists; eexists. split; [reflexivity|].
      cbn. now rewrite !app_nil_r.
Qed.

Lemma rls_table_answers table s :
  table_answers env s cs table ->
  exists entry tr,
    rls_table env cs table s = (Ok entry, tr, s)
    /\ entry_ok entry /\ rt_name entry = table.
Proof.
  intros [[rows Hr] [ps Hp]].
  unfold rls_table, bind, pool_select, emit, ret. rewrite Hr, Hp.
  eexists; eexists. split; [reflexivity|]. now repeat split.
Qed.

Lemma rls_table_fails table s e :
  table_fails env s cs table e ->
  exists tr, rls_table env cs table s = (Throw e, tr, s).
Proof.
  unfold rls_table, bind, pool_select, emit, ret.
  intros [Hr | [[rows Hr] Hp]]; rewrite Hr; [|rewrite Hp];
    eexists; reflexivity.
Qed.

(** The loop stops at the first table whose queries fail and keeps the
    entries pushed before it. *)
Lemma rls_loop_stops t rest e s done :
  table_fails env s cs t e ->
  forall tables all,
    (forall d, In d done -> table_answers env s cs d) ->
    exists new all' tr,
      rls_loop env cs (done ++ t :: rest)%list tables all s
      = (Ok ((tables ++ new)%list, all', Some e), tr, s)
      /\ map rt_name new = done
      /\ Forall entry_ok new.
Proof.
  intros Hfail. induction done as [|d done IH]; intros tables all Hdone.
  - cbn [List.app rls_loop]. unfold bind at 1. unfold try_catch, bind at 1.
    destruct (rls_table_fails t s e Hfail) as (tr & ->).
    unfold ret. exists []. eexists; eexists.
    rewrite (app_nil_r tables).
    split; [reflexivity|]. split; [reflexivity|constructor].
  - cbn [List.app rls_loop]. unfold bind at 1. unfold try_catch, bind at 1.
    destruct (rls_table_answers d s (Hdone d (or_introl eq_refl)))
      as (entry & tr & -> & Hok & Hname).
    unfold ret at 1.
    destruct (IH (tables ++ [entry])%list
                (if rls_enabled entry then all else false)
                (fun d' H => Hdone d' (or_intror H)))
      as (new & all' & tr' & -> & Hnames & Hnew).
    exists (entry :: new). eexists; eexists.
    rewrite <- app_assoc. split; [reflexivity|].
    split; [cbn; now rewrite Hname, Hnames|now constructor].
Qed.

End RlsEffects.

(** X7.  Whatever the store answers, the access-control check returns a
    record, leaves the store as it was and closes its pool exactly once:
    before the closing there are only console lines and the three SELECT
    statements on the pool of the given connection string, after it only
    console lines. *)
Theorem runRLSCheck_reads_then_closes :
  forall Store (env : Env Store) (connectionString : option string)
         (s : Store),
    exists r before after,
      runRLSCheck env connectionString s
      = (Ok r, (before ++ PoolEnd connectionString :: after)%list, s)
      /\ Forall (read_only connectionString) before
      /\ Forall is_console after.
Proof.
  intros Store env cs s.
  unfold runRLSCheck, bind at 1, emit at 1, try_catch, bind at 1, pool_select.
  destruct (select_tables env s cs) as [[|table rest]|e] eqn:Hsel.
  - eexists.
    exists [Console [LStr "[RLS][PG] Starting direct Postgres RLS check..."];
            Net (PgQuery cs sql_tables []);
            Console [LStr "[RLS][PG] Tables found:"; LStrs []]], [].
    split; [reflexivity|]. split; events.
  - unfold bind at 1, emit at 1, bind at 1.
    destruct (rls_loop_trace Store env cs (table :: rest) [] true s)
      as ([[tables all] [e|]] & tr & Hloop & Htr); rewrite Hloop.
    + eexists.
      exists (Console [LStr "[RLS][PG] Starting direct Postgres RLS check..."]
              :: Net (PgQuery cs sql_tables [])
              :: Console [LStr "[RLS][PG] Tables found:";
                          LStrs (table :: rest)] :: tr)%list.
      eexists. split.
      * unfold rls_catch, pool_end, bind, emit, ret. cbn.
        reflexivity.
      * split; events. exact Htr.
    + eexists.
      exists (Console [LStr "[RLS][PG] Starting direct Postgres RLS check..."]
              :: Net (PgQuery cs sql_tables [])
              :: Console [LStr "[RLS][PG] Tables found:";
                          LStrs (table :: rest)] :: tr)%list.
      eexists. split.
      * unfold pool_end, bind, emit, ret. cbn.
        reflexivity.
      * split; events. exact Htr.
  - eexists.
    exists [Console [LStr "[RLS][PG] Starting direct Postgres RLS check..."];
            Net (PgQuery cs sql_tables [])].
    eexists. split; [reflexivity|]. split; events.
Qed.

(** X8.  When the queries on a table fail after the tables before it
    were answered, the check returns an ERROR record with the message of
    that failure, and the record lists the tables answered before it, in
    order, each with its tally and hint; the tables after it are not
    visited. *)
Theorem runRLSCheck_keeps_partial_results :
  forall Store (env : Env Store) (connectionString : option string)
         (s : Store) (done : list string) (t : string) (rest : list string)
         (e : exn),
    select_tables env s connectionString = Ok (done ++ t :: rest)%list ->
    (forall d, In d done -> table_answers env s connectionString d) ->
    table_fails env s connectionString t e ->
    exists r tr,
      runRLSCheck env connectionString s = (Ok r, tr, s)
      /\ rls_overallStatus r = ERROR
      /\ rls_error r = Some (emessage e)
      /\ rls_message r = None
      /\ map rt_name (rls_tables r) = done
      /\ Forall entry_ok (rls_tables r).
Proof.
  intros Store env cs s done t rest e Hsel Hdone Hfail.
  unfold runRLSCheck, bind at 1, emit at 1, try_catch, bind at 1, pool_select.
  rewrite Hsel.
  destruct (rls_loop_stops Store env cs t rest e s done Hfail [] true Hdone)
    as (new & all' & tr & Hloop & Hnames & Hnew).
  cbn [List.app] in Hloop.
  destruct (done ++ t :: rest)%list as [|x names] eqn:E.
  - destruct done; discriminate E.
  - unfold bind at 1, emit at 1, bind at 1. rewrite Hloop.
    eexists; eexists. split; [reflexivity|]. cbn.
    repeat split; assumption.
Qed.

Lemma runRLSCheck_keeps_partial_results_witness :
  exists r tr,
    runRLSCheck Variants.env_policies_down (Some Scenario.dsn) Scenario.store
    = (Ok r, tr, Scenario.store)
    /\ rls_overallStatus r = ERROR
    /\ rls_error r = Some "permission denied for view pg_policies"
    /\ rls_message r = None
    /\ map rt_name (rls_tables r) = ["orders"]
    /\ Forall entry_ok (rls_tables r).
Proof.
  apply (runRLSCheck_keeps_partial_results Pg.db Variants.env_policies_down
           (Some Scenario.dsn) Scenario.store ["orders"] "notes" ["items"]
           (Error "permission denied for view pg_policies")).
  - reflexivity.
  - intros d [<-|[]]. split; eexists; reflexivity.
  - right. split; [eexists; reflexivity|reflexivity].
Defined.

(** ** The MFA check and the fixes *)

(** X9.  The MFA check always returns a record and leaves the store as
    it was; its only outbound call is one listing of the users.  The
    record is an ERROR record exactly when the listing is rejected or
    answers with an error; it then has no users and no message and
    carries the reported text of that error; every other record carries
    no error. *)
Theorem runMFACheck_single_listing :
  forall Store (env : Env Store) (supabase : string * string)
         (displayUrl : string) (s : Store),
    exists r tr,
      runMFACheck env supabase displayUrl s = (Ok r, tr, s)
      /\ network_calls tr
         = [Net (AuthListUsers (fst supabase) (snd supabase))]
      /\ (mfa_overallStatus r = ERROR <->
            exists e,
              listUsers env (fst supabase) (snd supabase) = Rejected e
              \/ exists d, listUsers env (fst supabase) (snd supabase)
                           = Resolved d (Some e))
      /\ (forall e,
            (listUsers env (fst supabase) (snd supabase) = Rejected e
             \/ exists d, listUsers env (fst supabase) (snd supabase)
                          = Resolved d (Some e)) ->
            r = mkMfa "Multi-Factor Authentication (MFA)" [] ERROR
                  (Some (reported e)) None)
      /\ (mfa_overallStatus r <> ERROR -> mfa_error r = None).
Proof.
  intros Store env supabase displayUrl s.
  unfold runMFACheck, try_catch, bind, logEvidence, emit, ret, throw.
  destruct (listUsers env (fst supabase) (snd supabase))
    as [d [e|]|e] eqn:H.
  - eexists; eexists. split; [reflexivity|]. split; [reflexivity|].
    cbn. split; [|split].
    + split; [intros _; exists e; right; now exists d|reflexivity].
    + intros e' [H'|[d' H']]; [discriminate|]. now injection H' as _ <-.
    + congruence.
  - assert (Hno : forall e',
              ~ (Resolved d None = Rejected e'
                 \/ exists d', @Resolved (option (list user)) d None
                               = Resolved d' (Some e'))).
    { intros e' [H'|[d' H']]; discriminate. }
    destruct d as [[|u rest]|].
    + eexists; eexists. split; [reflexivity|]. split; [reflexivity|].
      cbn. split; [|split].
      * split; [discriminate|]. intros [e' He']. now apply Hno in He'.
      * intros e' He'. now apply Hno in He'.
      * reflexivity.
    + destruct (map_users (u :: rest) true) as [entries all].
      eexists; eexists. split; [reflexivity|]. split; [reflexivity|].
      cbn. split; [|split].
      * split; [destruct all; discriminate|].
        intros [e' He']. now apply Hno in He'.
      * intros e' He'. now apply Hno in He'.
      * reflexivity.
    + eexists; eexists. split; [reflexivity|]. split; [reflexivity|].
      cbn. split; [|split].
      * split; [discriminate|]. intros [e' He']. now apply Hno in He'.
      * intros e' He'. now apply Hno in He'.
      * reflexivity.
  - eexists; eexists. split; [reflexivity|]. split; [reflexivity|].
    cbn. split; [|split].
    + split; [intros _; exists e; now left|reflexivity].
    + intros e' [H'|[d' H']]; [|discriminate]. now injection H' as <-.
    + congruence.
Qed.

Ltac pool_closed :=
  cbn; split;
    [ let H := fresh "H" in
      intros H;
      repeat (destruct H as [H|H]; [discriminate H|]);
      try contradiction; try reflexivity
    | let H := fresh "H" in
      intros H; try discriminate H; auto 12 ].

(** The first conjuncts of the statements below, on a run that gave an
    answer. *)
Ltac not_raised Hno :=
  eexists; eexists; eexists; split; [reflexivity|];
  split;
    [ split;
        [ let e := fresh "e" in
          let H := fresh "H" in
          intros [e H]; discriminate H
        | let H := fresh "H" in
          intros H; exfalso; exact (Hno H) ]
    | ];
  split; [let e := fresh "e" in
          let H := fresh "H" in intros e H; discriminate H|];
  split; [discriminate|];
  let resp := fresh "resp" in
  let H := fresh "H" in
  intros resp H; injection H as <-; cbn [status].

Ltac answered_400 Hno :=
  not_raised Hno;
  split; [right; left; reflexivity|];
  split; [intros _; split; reflexivity|];
  split; [pool_closed|];
  let H := fresh "H" in intros H; exfalso; apply H; reflexivity.

Ltac answered Hno n :=
  not_raised Hno;
  split; [n|];
  split; [let H := fresh "H" in intros H; discriminate H|];
  split; [pool_closed|];
  intros _; eexists; eexists; split; reflexivity.

(** X10.  The access-control fix on any request whose fields other than
    [projectUrl] are strings or missing, [projectUrl] being any JSON
    value.  The handler raises, before any effect, exactly when
    [projectUrl] is truthy and the display expression raises on it (a
    non-zero number, [true], an object, or an array with the element
    supabase.co); otherwise it answers, with status 200, 400 or 500.  A
    400 answer is given without any outbound call and without touching
    the store; every other answer comes after the ALTER TABLE statement
    for the named table was sent first.  The pool is closed exactly when
    the answer is 200: a failed fix (500) leaves its pool open. *)
Theorem fix_rls_closes_pool_on_success_only :
  forall Store (env : Env Store) (v : jsval) (req : request) (s : Store),
    exists r tr s',
      fix_rls_any env v req s = (r, tr, s')
      /\ ((exists e, r = Throw e) <-> js_truthy v = true /\ display_raises v)
      /\ (forall e, r = Throw e -> tr = [] /\ s' = s)
      /\ r <> Ok None
      /\ (forall resp,
            r = Ok (Some resp) ->
            (status resp = 200 \/ status resp = 400 \/ status resp = 500)
            /\ (status resp = 400 -> network_calls tr = [] /\ s' = s)
            /\ (In (PoolEnd (dbConnectionString req)) tr
                <-> status resp = 200)
            /\ (status resp <> 400 ->
                  exists table tr',
                    tableName req = Some table
                    /\ network_calls tr
                       = Net (PgQuery (dbConnectionString req)
                                (sql_enable_rls table) []) :: tr')).
Proof.
  intros Store env v req s. unfold fix_rls_any.
  pose proof (js_display_guarded_raises v) as Hr.
  destruct (js_display_guarded v) as [displayUrl|e].
  2:{ exists (Throw e), [], s. split; [reflexivity|].
      split; [split; [intros _; apply Hr; now exists e|intros _; now exists e]|].
      split; [intros e' _; now split|].
      split; [discriminate|]. intros resp H. discriminate H. }
  assert (Hno : ~ (js_truthy v = true /\ display_raises v)).
  { intros H. apply Hr in H. destruct H as [e H]. discriminate H. }
  destruct (tableName req) as [table|]; [|answered_400 Hno].
  destruct (table =? EmptyString); [answered_400 Hno|].
  destruct (negb (js_truthy v) || negb (Js.truthy (serviceKey req))).
  { unfold bind, logEvidence, emit, ret. answered_400 Hno. }
  unfold try_catch, bind, pool_command, pool_select, pool_end, logEvidence,
    emit, ret.
  destruct (command env s (dbConnectionString req) (sql_enable_rls table))
    as [[[]|e] s1].
  - destruct (select_policies env s1 (dbConnectionString req) table)
      as [[|p ps]|e].
    + destruct (command env s1 (dbConnectionString req)
                  (sql_placeholder table)) as [[[]|e] s2].
      * answered Hno ltac:(left; reflexivity).
      * answered Hno ltac:(right; right; reflexivity).
    + answered Hno ltac:(left; reflexivity).
    + answered Hno ltac:(right; right; reflexivity).
  - answered Hno ltac:(right; right; reflexivity).
Qed.

(** ** The MFA fix *)

(** X11.  For a request that passes validation, the MFA fix answers 200
    or 500 and leaves the store alone.  It looks the user up once, and
    sends one reset mail exactly when the lookup gives, without error, a
    user with a non-empty e-mail; the mail goes to that address with the
    redirect [<projectUrl>/auth/reset-password?mfa_setup=true].  The
    answer is 200 exactly when that mail was accepted.  A user without
    e-mail gives 500 with the message that no e-mail was found. *)
Theorem fix_mfa_outcome :
  forall Store (env : Env Store) (req : request) (s : Store)
         (url key uid : string),
    projectUrl req = Some url -> serviceKey req = Some key ->
    userId req = Some uid ->
    url <> EmptyString -> key <> EmptyString -> uid <> EmptyString ->
    Js.startsWith url "http://" = true \/ Js.startsWith url "https://" = true ->
    exists resp tr,
      fix_mfa env req s = (Ok (Some resp), tr, s)
      /\ (status resp = 200 \/ status resp = 500)
      /\ network_calls tr
         = Net (AuthGetUserById url key uid)
           :: match mail_address env url key uid with
              | Some email =>
                  [Net (AuthResetPassword url key email (reset_redirect url))]
              | None => []
              end
      /\ (status resp = 200 <->
            exists email,
              mail_address env url key uid = Some email
              /\ resetPasswordForEmail env url key email (reset_redirect url)
                 = Resolved tt None)
      /\ (forall email,
            mail_address env url key uid = Some email ->
            resetPasswordForEmail env url key email (reset_redirect url)
            = Resolved tt None ->
            json resp
            = BFixMfa ("A password reset email has been sent to " ++ email
                       ++ ". When resetting the password, the user will be prompted to set up MFA.")
                uid email)
      /\ (forall data,
            getUserById env url key uid = Resolved data None ->
            mail_address env url key uid = None ->
            json resp
            = BError ("Failed to enable MFA for user " ++ uid
                      ++ ": User email not found. Cannot enable MFA without an email address.")).
Proof.
  intros Store env req s url key uid Hurl Hkey Huid Hu Hk Hi Hs.
  unfold fix_mfa. rewrite Hurl, Hkey, Huid.
  rewrite (proj2 (String.eqb_neq _ _) Hu), (proj2 (String.eqb_neq _ _) Hk),
    (proj2 (String.eqb_neq _ _) Hi).
  cbn [orb]. unfold try_catch, bind at 1.
  rewrite (getSupabaseClient_ok Store url key s Hu Hk Hs).
  unfold mail_address, reset_redirect, bind, logEvidence, emit, ret, throw.
  destruct (getUserById env url key uid) as [data [e|]|e].
  - eexists; eexists. split; [reflexivity|]. cbn.
    split; [now right|]. split; [now destruct data|].
    split; [|split; intros; try discriminate].
    + split; [discriminate|]. intros (email & H & _).
      destruct data; discriminate H.
    + destruct data; discriminate.
  - destruct data as [[id [[|c r]|] phone factors]|]; cbn [user_email].
    + eexists; eexists. split; [reflexivity|]. cbn.
      split; [now right|]. split; [reflexivity|].
      split; [|split; intros; try discriminate; reflexivity].
      split; [discriminate|]. intros (email & H & _). discriminate H.
    + destruct (resetPasswordForEmail env url key (String c r)
                  (url ++ "/auth/reset-password?mfa_setup=true"))
        as [[] [e|]|e] eqn:Hreset.
      * eexists; eexists. split; [reflexivity|]. cbn.
        split; [now right|]. split; [reflexivity|].
        split; [|split; intros; try discriminate].
        -- split; [discriminate|]. intros (email & [= <-] & H).
           rewrite Hreset in H. discriminate H.
        -- injection H as <-. rewrite Hreset in H0. discriminate H0.
      * eexists; eexists. split; [reflexivity|]. cbn.
        split; [now left|]. split; [reflexivity|].
        split; [|split; intros; try discriminate].
        -- split; [|reflexivity]. intros _. exists (String c r).
           now split.
        -- now injection H as <-.
      * eexists; eexists. split; [reflexivity|]. cbn.
        split; [now right|]. split; [reflexivity|].
        split; [|split; intros; try discriminate].
        -- split; [discriminate|]. intros (email & [= <-] & H).
           rewrite Hreset in H. discriminate H.
        -- injection H as <-. rewrite Hreset in H0. discriminate H0.
    + eexists; eexists. split; [reflexivity|]. cbn.
      split; [now right|]. split; [reflexivity|].
      split; [|split; intros; try discriminate; reflexivity].
      split; [discriminate|]. intros (email & H & _). discriminate H.
    + eexists; eexists. split; [reflexivity|]. cbn.
      split; [now right|]. split; [reflexivity|].
      split; [|split; intros; try discriminate; reflexivity].
      split; [discriminate|]. intros (email & H & _). discriminate H.
  - eexists; eexists. split; [reflexivity|]. cbn.
    split; [now right|]. split; [reflexivity|].
    split; [|split; intros; discriminate].
    split; [discriminate|]. intros (email & H & _). discriminate H.
Qed.

Lemma fix_mfa_outcome_witness :
  exists resp tr,
    fix_mfa Scenario.env Scenario.req Scenario.store
    = (Ok (Some resp), tr, Scenario.store)
    /\ status resp = 200
    /\ network_calls tr
       = [Net (AuthGetUserById "https://abc.supabase.co" "service-role-key"
                 "u1");
          Net (AuthResetPassword "https://abc.supabase.co" "service-role-key"
                 "alice@example.com"
                 "https://abc.supabase.co/auth/reset-password?mfa_setup=true")].
Proof.
  assert (Hu : "https://abc.supabase.co" <> EmptyString) by discriminate.
  assert (Hk : "service-role-key" <> EmptyString) by discriminate.
  assert (Hi : "u1" <> EmptyString) by discriminate.
  destruct (fix_mfa_outcome Pg.db Scenario.env Scenario.req Scenario.store
              "https://abc.supabase.co" "service-role-key" "u1"
              eq_refl eq_refl eq_refl Hu Hk Hi (or_intror eq_refl))
    as (resp & tr & Hrun & _ & Hcalls & Hok & _).
  exists resp, tr. split; [exact Hrun|]. split; [|exact Hcalls].
  apply Hok. exists "alice@example.com". split; reflexivity.
Defined.

(** ** The recovery fix and the assistant *)



(** X13.  When the project is found without a recovery addon, the fix
    sends the status request and then one PATCH of the addons with the
    seven-day body.  If the PATCH is accepted, the handler logs the
    success and sends no answer to its caller; if it is refused or fails,
    the answer is 500 with the refusal's text. *)
Theorem fix_pitr_mutation :
  forall Store (env : Env Store) (req : request) (s : Store)
         (url key ref token : string) (code : nat) (text : string)
         (p : project),
    projectUrl req = Some url -> serviceKey req = Some key ->
    projectRef req = Some ref ->
    url <> EmptyString -> key <> EmptyString -> ref <> EmptyString ->
    SUPABASE_PAT env = Some token -> token <> EmptyString ->
    get_project env token ref = Response true code text (Ok p) ->
    find_pitr p = None ->
    exists tr,
      fix_pitr env req s
      = (match patch_addons env token ref pitr_patch_body with
         | Response true _ _ _ => Ok None
         | Response false _ refusal _ =>
             Ok (Some (mkResponse 500
                   (BError ("Failed to enable PITR for project " ++ ref
                            ++ ": Failed to enable PITR: " ++ refusal))))
         | FetchFailed e =>
             Ok (Some (mkResponse 500
                   (BError ("Failed to enable PITR for project " ++ ref
                            ++ ": " ++ emessage e))))
         end, tr, s)
      /\ network_calls tr
         = [Net (HttpFetch "GET"
                   ("https://api.supabase.com/v1/projects/" ++ ref)
                   ("Bearer " ++ token) None);
            Net (HttpFetch "PATCH"
                   ("https://api.supabase.com/v1/projects/" ++ ref
                    ++ "/addons")
                   ("Bearer " ++ token) (Some pitr_patch_body))]
      /\ (forall code' text' j,
            patch_addons env token ref pitr_patch_body
            = Response true code' text' j ->
            In (Evidence "INFO"
                  ("PITR has been enabled for project: " ++ ref
                   ++ " with 7 days retention period. The changes may take a few minutes to take effect.")
                  [("project", LStr (display_url url));
                   ("projectRef", LStr ref)]) tr).
Proof.
  intros Store env req s url key ref token code text p
    Hurl Hkey Href Hu Hk Hr Htok Ht Hget Hfind.
  unfold fix_pitr. rewrite Hurl, Hkey, Href, Htok.
  rewrite (proj2 (String.eqb_neq _ _) Hu), (proj2 (String.eqb_neq _ _) Hk),
    (proj2 (String.eqb_neq _ _) Hr).
  cbn [orb Js.truthy]. rewrite (proj2 (String.eqb_neq _ _) Ht). cbn [negb].
  unfold try_catch, fetch, bind, emit, settle, logEvidence, ret, throw.
  rewrite Hget. cbn [negb]. rewrite Hfind.
  destruct (patch_addons env token ref pitr_patch_body)
    as [e|[|] code' text' j]; cbn [negb];
    (eexists; split; [reflexivity|]; split; [reflexivity|]);
    intros c t j' H; try discriminate H.
  cbn. auto.
Qed.

Lemma fix_pitr_mutation_witness :
  exists tr,
    fix_pitr Variants.env_bare Variants.req_bare Scenario.store
    = (Ok None, tr, Scenario.store)
    /\ network_calls tr
       = [Net (HttpFetch "GET" "https://api.supabase.com/v1/projects/xyz"
                 "Bearer sbp_token" None);
          Net (HttpFetch "PATCH"
                 "https://api.supabase.com/v1/projects/xyz/addons"
                 "Bearer sbp_token" (Some pitr_patch_body))].
Proof.
  assert (Hu : "https://xyz.supabase.co" <> EmptyString) by discriminate.
  assert (Hk : "service-role-key" <> EmptyString) by discriminate.
  assert (Hr : "xyz" <> EmptyString) by discriminate.
  assert (Ht : "sbp_token" <> EmptyString) by discriminate.
  destruct (fix_pitr_mutation Pg.db Variants.env_bare Variants.req_bare
              Scenario.store "https://xyz.supabase.co" "service-role-key"
              "xyz" "sbp_token" 200 EmptyString Variants.bare
              eq_refl eq_refl eq_refl Hu Hk Hr eq_refl Ht eq_refl eq_refl)
    as (tr & Hrun & Hcalls & _).
  exists tr. split; [exact Hrun|exact Hcalls].
Defined.

Lemma substring_length_le n : forall s,
  String.length (String.substring 0 n s) <= n.
Proof.
  induction n as [|n IH]; intros [|c s]; cbn; try lia.
  specialize (IH s). lia.
Qed.

Lemma substring_is_prefix n : forall s,
  exists rest, s = String.substring 0 n s ++ rest.
Proof.
  induction n as [|n IH]; intros [|c s]; cbn.
  - now exists EmptyString.
  - now exists (String c s).
  - now exists EmptyString.
  - destruct (IH s) as [rest H]. exists rest. now rewrite <- H.
Qed.

(** X14.  For a request with both credentials and a non-empty question,
    the assistant makes exactly one outbound call, the chat completion on
    the fixed system prompt and a prompt made of the context and the
    question only, and leaves the store alone.  An answer of the chat is
    returned verbatim with status 200 and the time of the clock; the
    evidence record then carries a label that is a prefix of the question
    of at most 100 characters followed by three dots.  A failure of the
    chat is answered with status 500 and its message. *)
Theorem ai_assist_outcome :
  forall Store (env : Env Store) (req : request) (s : Store)
         (url key question : string),
    projectUrl req = Some url -> serviceKey req = Some key ->
    issue req = Some question ->
    url <> EmptyString -> key <> EmptyString -> question <> EmptyString ->
    exists resp tr,
      ai_assist env req s = (Ok (Some resp), tr, s)
      /\ network_calls tr
         = [Net (ChatCompletion system_prompt (user_prompt req question))]
      /\ resp
         = match chat env system_prompt (user_prompt req question) with
           | Ok answer => mkResponse 200 (BAssist answer (clock env))
           | Throw e =>
               mkResponse 500
                 (BError ("Failed to get AI compliance analysis: "
                          ++ emessage e))
           end
      /\ (forall answer,
            chat env system_prompt (user_prompt req question) = Ok answer ->
            exists label rest,
              In (Evidence "INFO" "AI compliance analysis provided"
                    [("project", LStr (display_url url));
                     ("analysisType", LStr (label ++ "..."))]) tr
              /\ question = label ++ rest
              /\ String.length label <= 100).
Proof.
  intros Store env req s url key question Hurl Hkey Hissue Hu Hk Hq.
  unfold ai_assist. rewrite Hissue.
  destruct question as [|c r]; [congruence|].
  rewrite Hurl, Hkey. cbn [Js.truthy display_url_guarded].
  rewrite (proj2 (String.eqb_neq _ _) Hu), (proj2 (String.eqb_neq _ _) Hk).
  cbn [negb orb LOpt].
  unfold try_catch, bind, settle, logEvidence, emit, ret, throw, user_prompt.
  destruct (chat env system_prompt
              ("Context:" ++ nl ++ context req ++ nl ++ nl ++ "Prompt:" ++ nl
               ++ String c r)) as [answer|e] eqn:Hchat.
  - eexists; eexists. split; [reflexivity|]. split; [reflexivity|].
    split; [reflexivity|]. intros answer' _.
    destruct (substring_is_prefix 100 (String c r)) as [rest Hrest].
    exists (String.substring 0 100 (String c r)), rest.
    split; [cbn; auto|]. split; [exact Hrest|apply substring_length_le].
  - eexists; eexists. split; [reflexivity|]. split; [reflexivity|].
    split; [reflexivity|]. intros answer' H. discriminate H.
Qed.

Lemma ai_assist_outcome_witness :
  exists resp tr,
    ai_assist Scenario.env Scenario.req Scenario.store
    = (Ok (Some resp), tr, Scenario.store)
    /\ resp = mkResponse 200
                (BAssist "Enable RLS on every table."
                   "2025-01-01T00:00:00.000Z").
Proof.
  assert (Hu : "https://abc.supabase.co" <> EmptyString) by discriminate.
  assert (Hk : "service-role-key" <> EmptyString) by discriminate.
  assert (Hq : "How do I enable RLS?" <> EmptyString) by discriminate.
  destruct (ai_assist_outcome Pg.db Scenario.env Scenario.req Scenario.store
              "https://abc.supabase.co" "service-role-key"
              "How do I enable RLS?" eq_refl eq_refl eq_refl Hu Hk Hq)
    as (resp & tr & Hrun & _ & Hresp & _).
  exists resp, tr. split; [exact Hrun|exact Hresp].
Defined.

(** ** The run of the three checks as a whole *)

Section Inspection.
Variable Store : Type.
Variable env : Env Store.
Variable cs : option string.

Lemma read_only_inspects e : read_only cs e -> inspects cs e.
Proof.
  destruct e as [a|l m d|c|[]]; cbn; intros H; try contradiction; auto.
Qed.

Lemma runMFACheck_inspects supabase displayUrl s :
  exists r tr,
    runMFACheck env supabase displayUrl s = (Ok r, tr, s)
    /\ Forall (inspects cs) tr.
Proof.
  unfold runMFACheck, try_catch, bind, logEvidence, emit, ret, throw.
  destruct (listUsers env (fst supabase) (snd supabase))
    as [d [e|]|e].
  - eexists; eexists. split; [reflexivity|]. cbn. events.
  - destruct d as [[|u rest]|].
    + eexists; eexists. split; [reflexivity|]. cbn. events.
    + destruct (map_users (u :: rest) true) as [entries all].
      eexists; eexists. split; [reflexivity|]. cbn. events.
    + eexists; eexists. split; [reflexivity|]. cbn. events.
  - eexists; eexists. split; [reflexivity|]. cbn. events.
Qed.

Lemma runRLSCheck_inspects s :
  exists r tr,
    runRLSCheck env cs s = (Ok r, tr, s) /\ Forall (inspects cs) tr.
Proof.
  unfold runRLSCheck, bind at 1, emit at 1, try_catch, bind at 1, pool_select.
  destruct (select_tables env s cs) as [[|table rest]|e].
  - eexists; eexists. split; [reflexivity|]. cbn. events.
  - unfold bind at 1, emit at 1, bind at 1.
    destruct (rls_loop_trace Store env cs (table :: rest) [] true s)
      as ([[tables all] [e|]] & tr & Hloop & Htr); rewrite Hloop;
      apply (Forall_impl _ read_only_inspects) in Htr.
    + eexists; eexists. split; [reflexivity|]. cbn. events.
      apply Forall_app. split; [exact Htr|events].
    + eexists; eexists. split; [reflexivity|]. cbn. events.
      apply Forall_app. split; [exact Htr|events].
  - eexists; eexists. split; [reflexivity|]. cbn. events.
Qed.

Lemma consoles_inspect (projects : list project) :
  Forall (inspects cs) (map (fun p => Console [LProject p]) projects).
Proof. induction projects; cbn; constructor; cbn; auto. Qed.

Lemma runPITR_inspects displayUrl s :
  exists r tr,
    runPITR env displayUrl s = (Ok r, tr, s) /\ Forall (inspects cs) tr.
Proof.
  unfold runPITR, try_catch.
  destruct (SUPABASE_PAT env) as [token|].
  - destruct (token =? EmptyString).
    + unfold bind, logEvidence, emit, ret, throw.
      eexists; eexists. split; [reflexivity|]. cbn. events.
    + unfold fetch, bind at 1, bind at 1, emit at 1.
      destruct (get_projects env token) as [e|[|] code text [projects|e]];
        cbn [negb].
      * unfold bind, logEvidence, emit, ret, throw.
        eexists; eexists. split; [reflexivity|]. cbn. events.
      * unfold ret at 1. cbn [negb]. unfold bind at 1, settle, ret at 1.
        unfold bind at 1. rewrite map_projects_run.
        destruct (existsb (fun p => negb (pitrEnabled p))
                    (map pitr_entry projects));
          unfold bind, logEvidence, emit, ret;
          eexists; eexists; (split; [reflexivity|]); cbn; events;
          (apply Forall_app; split; [apply consoles_inspect|events]).
      * unfold bind, settle, logEvidence, emit, ret, throw.
        eexists; eexists. split; [reflexivity|]. cbn. events.
      * unfold bind, settle, logEvidence, emit, ret, throw.
        eexists; eexists. split; [reflexivity|]. cbn. events.
      * unfold bind, settle, logEvidence, emit, ret, throw.
        eexists; eexists. split; [reflexivity|]. cbn. events.
  - unfold bind, logEvidence, emit, ret, throw.
    eexists; eexists. split; [reflexivity|]. cbn. events.
Qed.

End Inspection.

(** On a request whose [projectUrl] is a string or missing, the handler
    answers (200, 400 or 500) with the store as it was, and every effect
    only inspects. *)
Lemma run_checks_inspects :
  forall Store (env : Env Store) (req : request) (s : Store),
    exists resp tr,
      run_checks env req s = (Ok (Some resp), tr, s)
      /\ (status resp = 200 \/ status resp = 400 \/ status resp = 500)
      /\ Forall (inspects (dbConnectionString req)) tr.
Proof.
  intros Store env req s.
  destruct (projectUrl req) as [url|] eqn:Hurl.
  2:{ unfold run_checks. rewrite Hurl.
      unfold bind, logEvidence, emit, ret.
      eexists; eexists. split; [reflexivity|]. split; [auto|]. cbn. events. }
  destruct (serviceKey req) as [key|] eqn:Hkey.
  2:{ unfold run_checks. rewrite Hurl, Hkey.
      unfold bind, logEvidence, emit, ret.
      eexists; eexists. split; [reflexivity|]. split; [auto|]. cbn. events. }
  destruct (String.eqb_spec url EmptyString) as [Hu|Hu].
  { unfold run_checks. rewrite Hurl, Hkey, Hu. cbn [String.eqb orb].
    unfold bind, logEvidence, emit, ret.
    eexists; eexists. split; [reflexivity|]. split; [auto|]. cbn. events. }
  destruct (String.eqb_spec key EmptyString) as [Hk|Hk].
  { unfold run_checks. rewrite Hurl, Hkey, Hk.
    rewrite (proj2 (String.eqb_neq _ _) Hu). cbn [String.eqb orb].
    unfold bind, logEvidence, emit, ret.
    eexists; eexists. split; [reflexivity|]. split; [auto|]. cbn. events. }
  destruct (Js.startsWith url "http://") eqn:H1;
    [|destruct (Js.startsWith url "https://") eqn:H2].
  3:{ unfold run_checks. rewrite Hurl, Hkey.
      rewrite (proj2 (String.eqb_neq _ _) Hu),
        (proj2 (String.eqb_neq _ _) Hk).
      cbn [orb]. unfold try_catch, bind, logEvidence, emit.
      rewrite (getSupabaseClient_scheme Store url key s Hu Hk H1 H2).
      unfold ret.
      eexists; eexists. split; [reflexivity|]. split; [auto|]. cbn. events. }
  all: destruct (runMFACheck_inspects Store env (dbConnectionString req)
                   (url, key) (display_url url) s) as (mfa & tm & Hm & Htm);
    destruct (runRLSCheck_inspects Store env (dbConnectionString req) s)
      as (rls & tl & Hl & Htl);
    destruct (runPITR_inspects Store env (dbConnectionString req)
                (display_url url) s) as (pitr & tp & Hp & Htp);
    eexists; eexists;
    (split;
     [apply (run_checks_report Store env req s url key Hurl Hkey Hu Hk
               ltac:(auto) mfa tm rls tl pitr tp Hm Hl Hp)|]);
    (split; [auto|]); events;
    repeat (apply Forall_app; split; [assumption|]); constructor.
Qed.

(** X15.  A run-checks request only inspects, on any request whose
    fields other than [projectUrl] are strings or missing, [projectUrl]
    being any JSON value.  The store is left as it was, and the outbound
    calls are the user listing, the three SELECT statements on the pool
    of the request's connection string and the GET of the project list:
    no command is sent to the store, no mail, and no mutation to the
    management API.  The handler raises, before any effect, exactly when
    both credentials are truthy and the display expression raises on
    [projectUrl] (a non-zero number, [true], an object, or an array with
    the element supabase.co); otherwise it answers, with status 200, 400
    or 500. *)
Theorem run_checks_only_inspects :
  forall Store (env : Env Store) (v : jsval) (req : request) (s : Store),
    exists r tr,
      run_checks_any env v req s = (r, tr, s)
      /\ Forall (inspects (dbConnectionString req)) tr
      /\ ((exists e, r = Throw e) <->
            js_truthy v = true /\ Js.truthy (serviceKey req) = true
            /\ display_raises v)
      /\ (forall e, r = Throw e -> tr = [])
      /\ r <> Ok None
      /\ (forall resp, r = Ok (Some resp) ->
            status resp = 200 \/ status resp = 400 \/ status resp = 500).
Proof.
  intros Store env v req s.
  assert (Hstring :
            forall o,
            exists r tr,
              run_checks_any env (of_option o) req s = (r, tr, s)
              /\ Forall (inspects (dbConnectionString req)) tr
              /\ ((exists e, r = Throw e) <->
                    js_truthy (of_option o) = true
                    /\ Js.truthy (serviceKey req) = true
                    /\ display_raises (of_option o))
              /\ (forall e, r = Throw e -> tr = [])
              /\ r <> Ok None
              /\ (forall resp, r = Ok (Some resp) ->
                    status resp = 200 \/ status resp = 400
                    \/ status resp = 500)).
  { intros o. rewrite run_checks_any_string.
    destruct (run_checks_inspects Store env (with_projectUrl req o) s)
      as (resp & tr & Hrun & Hst & Htr).
    exists (Ok (Some resp)), tr. split; [exact Hrun|]. split; [exact Htr|].
    split.
    { split; [intros [e H]; discriminate H|].
      intros (Hv & _ & Hd). destruct o; [contradiction|discriminate Hv]. }
    split; [intros e H; discriminate H|]. split; [discriminate|].
    intros resp' [= <-]. exact Hst. }
  destruct v as [| |b|t z|u|items|members].
  - exact (Hstring None).
  - unfold run_checks_any, bind, logEvidence, emit, ret. cbn.
    eexists; eexists. split; [reflexivity|]. split; [events|].
    split; [split; [intros [e H]; discriminate H
                   |intros (H & _); discriminate H]|].
    split; [intros e H; discriminate H|]. split; [discriminate|].
    intros resp [= <-]. auto.
  - unfold run_checks_any, bind, logEvidence, emit, ret, throw.
    cbn [js_truthy js_display].
    destruct b, (Js.truthy (serviceKey req)); cbn [negb orb];
      eexists; eexists; (split; [reflexivity|]); (split; [events|]);
      (split; [split; [intros [e H]; try discriminate H; cbn; auto
                      |intros (H1 & H2 & _); try discriminate H1;
                       try discriminate H2; eexists; reflexivity]|]);
      (split; [intros e H; try discriminate H; reflexivity|]);
      (split; [discriminate|]);
      intros resp H; try discriminate H; injection H as <-; auto.
  - unfold run_checks_any, bind, logEvidence, emit, ret, throw.
    cbn [js_truthy js_display].
    destruct z, (Js.truthy (serviceKey req)); cbn [negb orb];
      eexists; eexists; (split; [reflexivity|]); (split; [events|]);
      (split; [split; [intros [e H]; try discriminate H; cbn; auto
                      |intros (H1 & H2 & _); try discriminate H1;
                       try discriminate H2; eexists; reflexivity]|]);
      (split; [intros e H; try discriminate H; reflexivity|]);
      (split; [discriminate|]);
      intros resp H; try discriminate H; injection H as <-; auto.
  - exact (Hstring (Some u)).
  - unfold run_checks_any, getSupabaseClient_any, try_catch, bind,
      logEvidence, emit, ret, throw.
    cbn [js_truthy js_display display_raises].
    destruct (Js.truthy (serviceKey req)),
      (array_includes items "supabase.co"); cbn [negb orb];
      eexists; eexists; (split; [reflexivity|]); (split; [cbn; events|]);
      (split; [split; [intros [e H]; try discriminate H; cbn; auto
                      |intros (H1 & H2 & H3); try discriminate H1;
                       try discriminate H2; try discriminate H3;
                       eexists; reflexivity]|]);
      (split; [intros e H; try discriminate H; reflexivity|]);
      (split; [discriminate|]);
      intros resp H; try discriminate H; injection H as <-; cbn; auto.
  - unfold run_checks_any, bind, logEvidence, emit, ret, throw.
    cbn [js_truthy js_display].
    destruct (Js.truthy (serviceKey req)); cbn [negb orb];
      eexists; eexists; (split; [reflexivity|]); (split; [events|]);
      (split; [split; [intros [e H]; try discriminate H; cbn; auto
                      |intros (H1 & H2 & _); try discriminate H1;
                       try discriminate H2; eexists; reflexivity]|]);
      (split; [intros e H; try discriminate H; reflexivity|]);
      (split; [discriminate|]);
      intros resp H; try discriminate H; injection H as <-; auto.
Qed.

Lemma trim_nonempty s : Text.trim s <> EmptyString -> s <> EmptyString.
Proof. intros H ->. now apply H. Qed.

(** X16.  Whatever the dashboard's submit handler posts passes the
    server's validation: for every form input that the handler does not
    refuse, the run-checks handler answers the posted body with status
    200 and the three records.  The body carries the URL and the key as
    typed, and the trimmed connection string, or none when it is
    blank. *)
Theorem handleSubmit_posts_valid_requests :
  forall Store (env : Env Store) (s : Store)
         (url key connection : string) (body : request),
    Frontend.handleSubmit url key connection = Frontend.Posted body ->
    (exists mfa rls pitr tr,
        run_checks env body s
        = (Ok (Some (mkResponse 200 (BReport mfa rls pitr))), tr, s))
    /\ projectUrl body = Some url
    /\ serviceKey body = Some key
    /\ dbConnectionString body
       = (if Text.trim connection =? EmptyString then None
          else Some (Text.trim connection))
    /\ dbConnectionString body <> Some EmptyString.
Proof.
  intros Store env s url key connection body.
  unfold Frontend.handleSubmit.
  destruct (String.eqb_spec (Text.trim url) EmptyString) as [|Hu];
    [discriminate|].
  destruct (String.eqb_spec (Text.trim key) EmptyString) as [|Hk];
    [discriminate|].
  cbn [orb].
  destruct (Js.startsWith url "http://") eqn:H1;
    [|destruct (Js.startsWith url "https://") eqn:H2];
    cbn [negb andb]; try discriminate.
  all: intros [= <-]; cbn [projectUrl serviceKey dbConnectionString];
    (split; [|split; [reflexivity|split; [reflexivity|split; [reflexivity|]]]]);
    [|destruct (String.eqb_spec (Text.trim connection) EmptyString);
      congruence].
  all: apply trim_nonempty in Hu; apply trim_nonempty in Hk.
  all: match goal with
       | |- context [run_checks _ ?b _] =>
           destruct (runMFACheck_inspects Store env (dbConnectionString b)
                       (url, key) (display_url url) s)
             as (mfa & tm & Hm & _);
           destruct (runRLSCheck_inspects Store env (dbConnectionString b) s)
             as (rls & tl & Hl & _);
           destruct (runPITR_inspects Store env (dbConnectionString b)
                       (display_url url) s) as (pitr & tp & Hp & _);
           exists mfa, rls, pitr; eexists;
           apply (run_checks_report Store env b s url key eq_refl eq_refl
                    Hu Hk ltac:(auto) mfa tm rls tl pitr tp Hm Hl Hp)
       end.
Qed.

Lemma handleSubmit_posts_valid_requests_witness :
  exists mfa rls pitr tr,
    run_checks Scenario.env
      (mkRequest (Some "https://abc.supabase.co") (Some "service-role-key")
         None None None None None EmptyString)
      Scenario.store
    = (Ok (Some (mkResponse 200 (BReport mfa rls pitr))), tr, Scenario.store).
Proof.
  exact (proj1 (handleSubmit_posts_valid_requests Pg.db Scenario.env
                  Scenario.store "https://abc.supabase.co" "service-role-key"
                  "   " _ eq_refl)).
Defined.

(** ** The policy tally as a whole *)

Lemma counted_once p :
  (if counted "SELECT" p then 1 else 0)
  + (if counted "INSERT" p then 1 else 0)
  + (if counted "UPDATE" p then 1 else 0)
  + (if counted "DELETE" p then 1 else 0)
  = if recognised p then 1 else 0.
Proof.
  unfold recognised, counted. destruct (cmd p) as [c|]; [|reflexivity].
  generalize (Js.toUpperCase c) as u. intros u.
  destruct (String.eqb_spec u "SELECT") as [->|]; [reflexivity|].
  destruct (String.eqb_spec u "INSERT") as [->|]; [reflexivity|].
  destruct (String.eqb_spec u "UPDATE") as [->|]; [reflexivity|].
  destruct (String.eqb_spec u "DELETE") as [->|]; reflexivity.
Qed.

Lemma filter_length_step {A} (f : A -> bool) x l :
  length (filter f (x :: l)) = (if f x then 1 else 0) + length (filter f l).
Proof. cbn. now destruct (f x). Qed.

(** X17.  The four counters of a tally never count a policy row twice:
    their sum is the number of rows whose upper-cased command is one of
    SELECT, INSERT, UPDATE and DELETE, hence at most the number of rows,
    and the rows of any other command (ALL, or none) make up the
    difference. *)
Theorem tally_counts_each_row_once :
  forall policies : list policy_row,
    SELECT (tally policies) + INSERT (tally policies)
    + UPDATE (tally policies) + DELETE (tally policies)
    = length (filter recognised policies)
    /\ length (filter recognised policies)
       + length (filter (fun p => negb (recognised p)) policies)
       = length policies.
Proof.
  intros policies. rewrite tally_counts. cbn [SELECT INSERT UPDATE DELETE].
  split.
  - induction policies as [|p ps IH]; [reflexivity|].
    rewrite !filter_length_step, <- counted_once. lia.
  - induction policies as [|p ps IH]; [reflexivity|].
    rewrite !filter_length_step. cbn [length].
    destruct (recognised p); cbn [negb]; lia.
Qed.

(** ** The dashboard's recovery fix *)

(** X18.  When the dashboard starts the recovery fix without a project
    ref, for a project URL [https://<ref>.<rest>] whose ref is non-empty
    and has no dot, the body it posts names [<ref>], and the server's
    first outbound call is the status request for that project,
    [GET https://api.supabase.com/v1/projects/<ref>].  A non-empty ref
    handed to the dashboard's handler is posted as it is. *)
Theorem handleFixPitr_derives_ref :
  forall Store (env : Env Store) (s : Store)
         (ref rest key token : string),
    lacks "." ref -> ref <> EmptyString -> key <> EmptyString ->
    SUPABASE_PAT env = Some token -> token <> EmptyString ->
    projectRef (Frontend.handleFixPitr ("https://" ++ ref ++ "." ++ rest) key
                  None) = Some ref
    /\ projectRef (Frontend.handleFixPitr ("https://" ++ ref ++ "." ++ rest)
                     key (Some EmptyString)) = Some ref
    /\ begins_with
         (Net (HttpFetch "GET"
                 ("https://api.supabase.com/v1/projects/" ++ ref)
                 ("Bearer " ++ token) None))
         (fix_pitr env
            (Frontend.handleFixPitr ("https://" ++ ref ++ "." ++ rest) key
               None) s)
    /\ (forall url given,
          given <> EmptyString ->
          projectRef (Frontend.handleFixPitr url key (Some given))
          = Some given).
Proof.
  intros Store env s ref rest key token Href Hne Hk Htok Ht.
  assert (Hp : project_ref ("https://" ++ ref ++ "." ++ rest) = ref).
  { unfold project_ref. rewrite strip_scheme_https.
    now apply before_char_found. }
  assert (Hposted :
            projectRef (Frontend.handleFixPitr
                          ("https://" ++ ref ++ "." ++ rest) key None)
            = Some ref).
  { unfold Frontend.handleFixPitr. cbn [projectRef]. now rewrite Hp. }
  split; [exact Hposted|]. split; [|split].
  - unfold Frontend.handleFixPitr. cbn [projectRef String.eqb].
    now rewrite Hp.
  - apply (fix_pitr_first Store env
             (Frontend.handleFixPitr ("https://" ++ ref ++ "." ++ rest) key
                None)
             s ("https://" ++ ref ++ "." ++ rest)
             key eq_refl eq_refl ltac:(discriminate) Hk ref token
             Hposted Hne Htok Ht).
  - intros url given Hg. unfold Frontend.handleFixPitr. cbn [projectRef].
    now rewrite (proj2 (String.eqb_neq _ _) Hg).
Qed.

Lemma handleFixPitr_derives_ref_witness :
  projectRef (Frontend.handleFixPitr "https://abc.supabase.co"
                "service-role-key" None) = Some "abc"
  /\ begins_with
       (Net (HttpFetch "GET" "https://api.supabase.com/v1/projects/abc"
               "Bearer sbp_token" None))
       (fix_pitr Scenario.env
          (Frontend.handleFixPitr "https://abc.supabase.co"
             "service-role-key" None) Scenario.store).
Proof.
  assert (H : lacks "." "abc") by (cbn; repeat split; discriminate).
  assert (Hr : "abc" <> EmptyString) by discriminate.
  assert (Hk : "service-role-key" <> EmptyString) by discriminate.
  assert (Ht : "sbp_token" <> EmptyString) by discriminate.
  destruct (handleFixPitr_derives_ref Pg.db Scenario.env Scenario.store
              "abc" "supabase.co" "service-role-key" "sbp_token"
              H Hr Hk eq_refl Ht) as (H1 & _ & H2 & _).
  split; [exact H1|exact H2].
Defined.

(** ** The access-control fix on a table that has policies, and its
    failures *)

(** X19.  When the table already has a policy, the fix sends the ALTER
    TABLE statement and the policy query and nothing else: no CREATE
    POLICY is sent.  It still answers 200 with the message that says a
    placeholder policy was added, and the store is the one the ALTER
    TABLE statement left. *)
Theorem fix_rls_keeps_existing_policies :
  forall Store (env : Env Store) (req : request) (s s1 : Store)
         (url key table : string) (p : policy_row) (ps : list policy_row),
    projectUrl req = Some url -> serviceKey req = Some key ->
    tableName req = Some table ->
    url <> EmptyString -> key <> EmptyString -> table <> EmptyString ->
    command env s (dbConnectionString req) (sql_enable_rls table)
    = (Ok tt, s1) ->
    select_policies env s1 (dbConnectionString req) table = Ok (p :: ps) ->
    exists tr,
      fix_rls env req s
      = (Ok (Some (mkResponse 200
               (BFixRls (fix_rls_message table) table))), tr, s1)
      /\ network_calls tr
         = [Net (PgQuery (dbConnectionString req) (sql_enable_rls table) []);
            Net (PgQuery (dbConnectionString req) sql_policies [table])]
      /\ occurs "A placeholder policy was added." (fix_rls_message table).
Proof.
  intros Store env req s s1 url key table p ps
    Hurl Hkey Htable Hu Hk Ht Halter Hsel.
  unfold fix_rls. rewrite Htable, (proj2 (String.eqb_neq _ _) Ht).
  rewrite (truthy_credentials req url key Hurl Hkey Hu Hk).
  unfold try_catch, bind, pool_command, pool_select, pool_end, logEvidence,
    emit, ret.
  rewrite Halter, Hsel. eexists. split; [reflexivity|].
  split; [reflexivity|].
  unfold fix_rls_message.
  exists ("RLS successfully enabled for table: " ++ dq ++ table ++ dq ++ ". "),
    " Use the chat to generate more policies tailored to your needs!".
  rewrite !append_assoc_string. reflexivity.
Qed.

Lemma fix_rls_keeps_existing_policies_witness :
  exists tr s1,
    fix_rls Scenario.env Scenario.req_orders Scenario.store
    = (Ok (Some (mkResponse 200
             (BFixRls (fix_rls_message "orders") "orders"))), tr, s1)
    /\ Pg.placeholder_count s1 "orders" = 0.
Proof.
  assert (Hu : "https://abc.supabase.co" <> EmptyString) by discriminate.
  assert (Hk : "service-role-key" <> EmptyString) by discriminate.
  assert (Ht : "orders" <> EmptyString) by discriminate.
  destruct (fix_rls_keeps_existing_policies Pg.db Scenario.env
              Scenario.req_orders Scenario.store
              (snd (command Scenario.env Scenario.store (Some Scenario.dsn)
                      (sql_enable_rls "orders")))
              "https://abc.supabase.co" "service-role-key" "orders"
              (mkPolicy "public" "orders" "read_own" (Some "SELECT")
                 (Some "true") None)
              [mkPolicy "public" "orders" "read_all" (Some "select")
                 (Some "true") None]
              eq_refl eq_refl eq_refl Hu Hk Ht eq_refl eq_refl)
    as (tr & Hrun & _).
  exists tr. eexists. split; [exact Hrun|reflexivity].
Defined.

(** X20.  The fix is not atomic.  When the ALTER TABLE statement went
    through and a later step fails (the policy query, or the CREATE
    POLICY statement on a table without policy), the answer is 500 with
    the text of that failure, the pool is not closed, and the store is
    left as the statements that went through made it. *)
Theorem fix_rls_fails_after_alter :
  forall Store (env : Env Store) (req : request) (s s1 : Store)
         (url key table : string) (e : exn),
    projectUrl req = Some url -> serviceKey req = Some key ->
    tableName req = Some table ->
    url <> EmptyString -> key <> EmptyString -> table <> EmptyString ->
    command env s (dbConnectionString req) (sql_enable_rls table)
    = (Ok tt, s1) ->
    select_policies env s1 (dbConnectionString req) table = Throw e
    \/ (select_policies env s1 (dbConnectionString req) table = Ok []
        /\ fst (command env s1 (dbConnectionString req)
                  (sql_placeholder table)) = Throw e) ->
    exists tr s2,
      fix_rls env req s
      = (Ok (Some (mkResponse 500
               (BFixRlsFailure
                  ("Failed to enable RLS for " ++ dq ++ table ++ dq ++ ": "
                   ++ String_of e) e))), tr, s2)
      /\ ~ In (PoolEnd (dbConnectionString req)) tr
      /\ ((select_policies env s1 (dbConnectionString req) table = Throw e
           /\ s2 = s1)
          \/ (select_policies env s1 (dbConnectionString req) table = Ok []
              /\ s2 = snd (command env s1 (dbConnectionString req)
                             (sql_placeholder table)))).
Proof.
  intros Store env req s s1 url key table e
    Hurl Hkey Htable Hu Hk Ht Halter Hlater.
  unfold fix_rls. rewrite Htable, (proj2 (String.eqb_neq _ _) Ht).
  rewrite (truthy_credentials req url key Hurl Hkey Hu Hk).
  unfold try_catch, bind, pool_command, pool_select, pool_end, logEvidence,
    emit, ret.
  rewrite Halter.
  destruct Hlater as [Hsel | [Hsel Hcreate]]; rewrite Hsel.
  - eexists; eexists. split; [reflexivity|]. split.
    + cbn. intros H. repeat (destruct H as [H|H]; [discriminate H|]).
      exact H.
    + left. now split.
  - destruct (command env s1 (dbConnectionString req) (sql_placeholder table))
      as [r s2]. cbn [fst] in Hcreate. subst r.
    eexists; eexists. split; [reflexivity|]. split.
    + cbn. intros H. repeat (destruct H as [H|H]; [discriminate H|]).
      exact H.
    + right. now split.
Qed.

Lemma fix_rls_fails_after_alter_witness :
  exists resp tr s2,
    fix_rls Variants.env_policies_down Scenario.req Scenario.store
    = (Ok (Some resp), tr, s2)
    /\ status resp = 500
    /\ Pg.flag Scenario.store "notes" = Some false
    /\ Pg.flag s2 "notes" = Some true.
Proof.
  assert (Hu : "https://abc.supabase.co" <> EmptyString) by discriminate.
  assert (Hk : "service-role-key" <> EmptyString) by discriminate.
  assert (Ht : "notes" <> EmptyString) by discriminate.
  destruct (fix_rls_fails_after_alter Pg.db Variants.env_policies_down
              Scenario.req Scenario.store
              (snd (command Variants.env_policies_down Scenario.store
                      (Some Scenario.dsn) (sql_enable_rls "notes")))
              "https://abc.supabase.co" "service-role-key" "notes"
              (Error "permission denied for view pg_policies")
              eq_refl eq_refl eq_refl Hu Hk Ht eq_refl
              (or_introl eq_refl))
    as (tr & s2 & Hrun & _ & [[_ Hs2] | [Hsel _]]).
  - eexists; exists tr, s2. split; [exact Hrun|].
    split; [reflexivity|]. split; [reflexivity|]. rewrite Hs2. reflexivity.
  - discriminate Hsel.
Defined.
